(** * A 3D model viewer: mesh ingestion, normalisation and transform pipeline

    Shallow embedding of [model_loader.cpp] / [model_loader.h] (the
    [ModelLoader] class) and of the buffer and matrix code of [viewer.cpp]
    (the [STLViewer] class).

    The C++ type [float] is IEEE-754 binary32.  It is modelled by the
    standard library's executable specification of binary floating point
    ([SpecFloat], precision 24, exponent bound 128), so every arithmetic
    operation below rounds to nearest-even, overflows to an infinity and
    propagates NaN the way the compiled program does. *)

From Stdlib Require Import ZArith NArith List String Ascii Bool Lia.
From Stdlib Require Import Floats.SpecFloat.
From Stdlib Require Import DecimalString.
From stdpp Require gmap strings fin_maps.
Import ListNotations.

(* ================================================================== *)
(** ** Single-precision floats *)
(* ================================================================== *)

Module F32.

Definition prec : Z := 24.
Definition emax : Z := 128.

Definition float : Type := spec_float.

Definition add : float -> float -> float := SFadd prec emax.
Definition sub : float -> float -> float := SFsub prec emax.
Definition mul : float -> float -> float := SFmul prec emax.
Definition div : float -> float -> float := SFdiv prec emax.
Definition sqrt : float -> float := SFsqrt prec emax.
Definition neg : float -> float := SFopp.

(** [a < b], [a <= b] of C++: false as soon as one side is NaN. *)
Definition ltb : float -> float -> bool := SFltb.
Definition leb : float -> float -> bool := SFleb.

Definition is_nan (x : float) : bool :=
  match x with S754_nan => true | _ => false end.

Definition is_finite (x : float) : bool :=
  match x with S754_zero _ | S754_finite _ _ _ => true | _ => false end.

(** A value a [float] variable can hold: mantissa and exponent in the
    binary32 range. *)
Definition valid (x : float) : bool := valid_binary prec emax x.

(** Literals.  [of_Z] is exact for |z| < 2^24; [of_ratio p q] is the
    nearest binary32 number to the decimal literal p/q. *)
Definition of_Z (z : Z) : float := binary_normalize prec emax z 0 false.
Definition of_ratio (p q : Z) : float := div (of_Z p) (of_Z q).

Definition zero : float := S754_zero false.                      (* 0.0f  *)
Definition one : float := S754_finite false 8388608 (-23).        (* 1.0f  *)
Definition two : float := S754_finite false 8388608 (-22).        (* 2.0f  *)
Definition half : float := S754_finite false 8388608 (-24).       (* 0.5f  *)
Definition one_and_half : float := S754_finite false 12582912 (-23). (* 1.5f *)
Definition point_eight : float := S754_finite false 13421773 (-24). (* 0.8f *)
Definition micro : float := S754_finite false 8796093 (-43).      (* 1e-6f *)
Definition infinity : float := S754_infinity false.
Definition max_float : float := SFmax_float prec emax.            (* FLT_MAX *)

(** [std::min(a, b)] is [(b < a) ? b : a]; [std::max(a, b)] is
    [(a < b) ? b : a]. *)
Definition min (a b : float) : float := if ltb b a then b else a.
Definition max (a b : float) : float := if ltb a b then b else a.

(** [std::max({a, b, c})]: [std::max_element] keeps the first largest,
    moving on only when [*largest < *next]. *)
Definition max3 (a b c : float) : float :=
  let largest := if ltb a b then b else a in
  if ltb largest c then c else largest.

End F32.

(* ================================================================== *)
(** ** The parts of GLM the program uses *)
(* ================================================================== *)

Module glm.

Record vec3 : Type := Vec3 { x : F32.float; y : F32.float; z : F32.float }.
Record vec4 : Type :=
  Vec4 { x4 : F32.float; y4 : F32.float; z4 : F32.float; w4 : F32.float }.

(** [glm::mat4] is column-major: [m[i]] is column [i]. *)
Record mat4 : Type := Mat4 { col0 : vec4; col1 : vec4; col2 : vec4; col3 : vec4 }.

(** [glm::vec3{s}]: the scalar in every component. *)
Definition splat (s : F32.float) : vec3 := Vec3 s s s.

Definition components (v : vec3) : list F32.float := [x v; y v; z v].

Definition add (a b : vec3) : vec3 :=
  Vec3 (F32.add (x a) (x b)) (F32.add (y a) (y b)) (F32.add (z a) (z b)).
Definition sub (a b : vec3) : vec3 :=
  Vec3 (F32.sub (x a) (x b)) (F32.sub (y a) (y b)) (F32.sub (z a) (z b)).
Definition scale_by (a : vec3) (s : F32.float) : vec3 :=
  Vec3 (F32.mul (x a) s) (F32.mul (y a) s) (F32.mul (z a) s).
Definition neg (a : vec3) : vec3 :=
  Vec3 (F32.neg (x a)) (F32.neg (y a)) (F32.neg (z a)).

Definition cross (a b : vec3) : vec3 :=
  Vec3 (F32.sub (F32.mul (y a) (z b)) (F32.mul (y b) (z a)))
       (F32.sub (F32.mul (z a) (x b)) (F32.mul (z b) (x a)))
       (F32.sub (F32.mul (x a) (y b)) (F32.mul (x b) (y a))).
Definition dot (a b : vec3) : F32.float :=
  F32.add (F32.add (F32.mul (x a) (x b)) (F32.mul (y a) (y b)))
          (F32.mul (z a) (z b)).
Definition inversesqrt (s : F32.float) : F32.float := F32.div F32.one (F32.sqrt s).
Definition normalize (a : vec3) : vec3 := scale_by a (inversesqrt (dot a a)).

Definition add4 (a b : vec4) : vec4 :=
  Vec4 (F32.add (x4 a) (x4 b)) (F32.add (y4 a) (y4 b))
       (F32.add (z4 a) (z4 b)) (F32.add (w4 a) (w4 b)).
Definition scale4 (a : vec4) (s : F32.float) : vec4 :=
  Vec4 (F32.mul (x4 a) s) (F32.mul (y4 a) s) (F32.mul (z4 a) s) (F32.mul (w4 a) s).

(** [glm::mat4{1.0f}] *)
Definition identity : mat4 :=
  Mat4 (Vec4 F32.one F32.zero F32.zero F32.zero)
       (Vec4 F32.zero F32.one F32.zero F32.zero)
       (Vec4 F32.zero F32.zero F32.one F32.zero)
       (Vec4 F32.zero F32.zero F32.zero F32.one).

(** [glm::scale(m, v)]: [Result[i] = m[i] * v[i]] for the first three
    columns, the fourth is kept. *)
Definition scale (m : mat4) (v : vec3) : mat4 :=
  Mat4 (scale4 (col0 m) (x v)) (scale4 (col1 m) (y v))
       (scale4 (col2 m) (z v)) (col3 m).

(** [glm::translate(m, v)]:
    [Result[3] = m[0] * v[0] + m[1] * v[1] + m[2] * v[2] + m[3]]. *)
Definition translate (m : mat4) (v : vec3) : mat4 :=
  Mat4 (col0 m) (col1 m) (col2 m)
       (add4 (add4 (add4 (scale4 (col0 m) (x v)) (scale4 (col1 m) (y v)))
                   (scale4 (col2 m) (z v)))
             (col3 m)).

(** [m * v] for a column vector. *)
Definition mul_vec4 (m : mat4) (v : vec4) : vec4 :=
  add4 (add4 (scale4 (col0 m) (x4 v)) (scale4 (col1 m) (y4 v)))
       (add4 (scale4 (col2 m) (z4 v)) (scale4 (col3 m) (w4 v))).

(** Modelled from the spec: the vertex shader (shaders/vertex.glsl) that
    applies the matrices is not among the sources.  The position a model
    matrix gives a vertex is [model * vec4(v, 1.0)], first three
    components. *)
Definition transform_point (m : mat4) (v : vec3) : vec3 :=
  let r := mul_vec4 m (Vec4 (x v) (y v) (z v) F32.one) in
  Vec3 (x4 r) (y4 r) (z4 r).

End glm.

(* ================================================================== *)
(** ** The imported scene (Assimp's [aiScene], [aiMesh], [aiFace]) *)
(* ================================================================== *)

Module Assimp.

Record aiVector3D : Type := AiVector3D { ax : F32.float; ay : F32.float; az : F32.float }.

(** A face: [mIndices] holds [mNumIndices] vertex indices (unsigned int). *)
Record aiFace : Type := AiFace { mIndices : list N }.
Definition mNumIndices (f : aiFace) : N := N.of_nat (List.length (mIndices f)).

(** A mesh: [mVertices] holds [mNumVertices] positions; [mNormals] is a
    null pointer ([None]) or an array of normals; [mFaces] holds
    [mNumFaces] faces. *)
Record aiMesh : Type := AiMesh {
  mVertices : list aiVector3D;
  mNormals : option (list aiVector3D);
  mFaces : list aiFace
}.
Definition mNumVertices (m : aiMesh) : N := N.of_nat (List.length (mVertices m)).
Definition mNumFaces (m : aiMesh) : N := N.of_nat (List.length (mFaces m)).

Definition HasFaces (m : aiMesh) : bool := (0 <? mNumFaces m)%N.
Definition HasPositions (m : aiMesh) : bool := (0 <? mNumVertices m)%N.
Definition HasNormals (m : aiMesh) : bool :=
  match mNormals m with
  | Some _ => (0 <? mNumVertices m)%N
  | None => false
  end.

Record aiScene : Type := AiScene { mMeshes : list aiMesh }.
Definition mNumMeshes (s : aiScene) : N := N.of_nat (List.length (mMeshes s)).
Definition HasMeshes (s : aiScene) : bool := (0 <? mNumMeshes s)%N.

(** What [Importer::ReadFile] hands back: a scene, or a null pointer
    together with the text of [Importer::GetErrorString]. *)
Inductive ReadResult : Type :=
| Scene (scene : aiScene)
| Null (errorString : string).

Definition zero3 : aiVector3D := AiVector3D F32.zero F32.zero F32.zero.

End Assimp.

(* ================================================================== *)
(** ** model_loader.h: the mesh data model *)
(* ================================================================== *)

Record ModelTriangle : Type := mkTriangle {
  normal : glm.vec3;
  vertex0 : glm.vec3;
  vertex1 : glm.vec3;
  vertex2 : glm.vec3
}.

(** [triangle.vertices], the array of the three corners. *)
Definition vertices (t : ModelTriangle) : list glm.vec3 :=
  [vertex0 t; vertex1 t; vertex2 t].

(** [triangle.vertices[j] = v] for j in 0..2. *)
Definition set_vertex (t : ModelTriangle) (j : nat) (v : glm.vec3) : ModelTriangle :=
  match j with
  | 0%nat => mkTriangle (normal t) v (vertex1 t) (vertex2 t)
  | 1%nat => mkTriangle (normal t) (vertex0 t) v (vertex2 t)
  | _ => mkTriangle (normal t) (vertex0 t) (vertex1 t) v
  end.

Definition set_normal (t : ModelTriangle) (n : glm.vec3) : ModelTriangle :=
  mkTriangle n (vertex0 t) (vertex1 t) (vertex2 t).

Record ModelMesh : Type := mkMesh {
  triangles : list ModelTriangle;
  min_bounds : glm.vec3;
  max_bounds : glm.vec3;
  center : glm.vec3;
  scale : F32.float
}.

Definition push_back (mesh : ModelMesh) (t : ModelTriangle) : ModelMesh :=
  mkMesh (triangles mesh ++ [t]) (min_bounds mesh) (max_bounds mesh)
         (center mesh) (scale mesh).

Definition set_bounds (mesh : ModelMesh) (lo hi : glm.vec3) : ModelMesh :=
  mkMesh (triangles mesh) lo hi (center mesh) (scale mesh).

Definition set_center_scale (mesh : ModelMesh) (c : glm.vec3) (s : F32.float) : ModelMesh :=
  mkMesh (triangles mesh) (min_bounds mesh) (max_bounds mesh) c s.

(** Every vertex of every triangle, in buffer order. *)
Definition all_vertices (mesh : ModelMesh) : list glm.vec3 :=
  flat_map vertices (triangles mesh).

(* ================================================================== *)
(** ** model_loader.cpp: the [ModelLoader] class *)
(* ================================================================== *)

Module ModelLoader.

Import Assimp.

(** The object's only member is the stored error message. *)
Record t : Type := mk { errorMessage : string }.

Definition getErrorMessage (self : t) : string := errorMessage self.

(** Member functions read and write [errorMessage]: a state monad on [t]. *)
Definition M (A : Type) : Type := t -> A * t.
Definition ret {A : Type} (a : A) : M A := fun self => (a, self).
Definition bind {A B : Type} (c : M A) (k : A -> M B) : M B :=
  fun self => let (a, self') := c self in k a self'.

Declare Scope loader_scope.
Delimit Scope loader_scope with loader.
Notation "x <- c ;; k" := (bind c (fun x => k))
  (at level 61, c at next level, right associativity) : loader_scope.
Notation "c ;;; k" := (bind c (fun _ => k))
  (at level 61, right associativity) : loader_scope.
Local Open Scope loader_scope.
Local Open Scope string_scope.

Definition TRIANGLE_VERTICES : N := 3.
Definition CENTER_CALCULATION_FACTOR : F32.float := F32.half.
Definition DEFAULT_SCALE : F32.float := F32.one.
Definition EPSILON : F32.float := F32.micro.

(** [std::to_string] of an unsigned value. *)
Definition to_string (n : N) : string := NilEmpty.string_of_uint (N.to_uint n).

Definition setError (message context : string) : M unit :=
  fun _ =>
    (tt, mk (if String.eqb context "" then message
             else message ++ ": " ++ context)).

Definition clearError : M unit := fun _ => (tt, mk "").

Definition to_vec3 (v : aiVector3D) : glm.vec3 := glm.Vec3 (ax v) (ay v) (az v).

(** [ModelTriangle{}] *)
Definition emptyTriangle : ModelTriangle :=
  let o := glm.Vec3 F32.zero F32.zero F32.zero in mkTriangle o o o o.

(** The loop [for (j = 0; j < TRIANGLE_VERTICES; ++j)] of
    [createTriangle], over the remaining values [js] of [j]. *)
Fixpoint fetchVertices (js : list nat) (face : aiFace) (aiMesh : aiMesh)
    (triangle : ModelTriangle) : M (bool * ModelTriangle) :=
  match js with
  | [] => ret (true, triangle)
  | j :: js' =>
      let index := nth j (mIndices face) 0%N in
      if (mNumVertices aiMesh <=? index)%N then
        setError "Invalid vertex index in face data" ("Index: " ++ to_string index) ;;;
        ret (false, triangle)
      else
        let vertex := nth (N.to_nat index) (mVertices aiMesh) zero3 in
        fetchVertices js' face aiMesh (set_vertex triangle j (to_vec3 vertex))
  end.

Definition createTriangle (face : aiFace) (aiMesh : aiMesh)
    (triangle : ModelTriangle) : M (bool * ModelTriangle) :=
  r <- fetchVertices [0; 1; 2]%nat face aiMesh triangle ;;
  let (ok, triangle) := r in
  if negb ok then ret (false, triangle)
  else if HasNormals aiMesh then
    let normals := match mNormals aiMesh with Some ns => ns | None => [] end in
    let n := nth (N.to_nat (nth 0 (mIndices face) 0%N)) normals zero3 in
    ret (true, set_normal triangle (to_vec3 n))
  else
    let v1 := glm.sub (vertex1 triangle) (vertex0 triangle) in
    let v2 := glm.sub (vertex2 triangle) (vertex0 triangle) in
    ret (true, set_normal triangle (glm.normalize (glm.cross v1 v2))).

(** The face loop of [processMesh], over the remaining faces. *)
Fixpoint extractFaces (faces : list aiFace) (aiMesh : aiMesh)
    (mesh : ModelMesh) : M (bool * ModelMesh) :=
  match faces with
  | [] => ret (true, mesh)
  | face :: faces' =>
      if (mNumIndices face =? TRIANGLE_VERTICES)%N then
        r <- createTriangle face aiMesh emptyTriangle ;;
        let (ok, triangle) := r in
        if negb ok then ret (false, mesh)
        else extractFaces faces' aiMesh (push_back mesh triangle)
      else extractFaces faces' aiMesh mesh
  end.

Definition meshIndexContext (mesh : ModelMesh) : string :=
  "Mesh index: " ++ to_string (N.of_nat (List.length (triangles mesh)) / 1000).

Definition processMesh (aiMesh : aiMesh) (mesh : ModelMesh) : M (bool * ModelMesh) :=
  if negb (HasFaces aiMesh) then
    setError "Mesh does not contain face data" (meshIndexContext mesh) ;;;
    ret (false, mesh)
  else if negb (HasPositions aiMesh) then
    setError "Mesh does not contain vertex position data" (meshIndexContext mesh) ;;;
    ret (false, mesh)
  else extractFaces (mFaces aiMesh) aiMesh mesh.

(** [std::all_of] over the scene's meshes: stops at the first mesh whose
    [processMesh] returns false.  ([reserve] does not change the
    contents of [mesh.triangles].) *)
Fixpoint processMeshes (meshes : list aiMesh) (mesh : ModelMesh) : M (bool * ModelMesh) :=
  match meshes with
  | [] => ret (true, mesh)
  | aiMesh :: meshes' =>
      r <- processMesh aiMesh mesh ;;
      let (ok, mesh) := r in
      if ok then processMeshes meshes' mesh else ret (false, mesh)
  end.

Definition processScene (scene : aiScene) (mesh : ModelMesh) : M (bool * ModelMesh) :=
  processMeshes (mMeshes scene) mesh.

Definition validateScene (scene : aiScene) : M bool :=
  if negb (HasMeshes scene) then
    setError "No mesh data found in the file" "File might be empty or corrupted" ;;;
    ret false
  else ret true.

Definition validateProcessedMesh (mesh : ModelMesh) : M bool :=
  match triangles mesh with
  | [] =>
      setError "No triangle data could be extracted from the file"
               "Model might contain only points/lines or unsupported geometry" ;;;
      ret false
  | _ :: _ => ret true
  end.

(** One step of the inner loop of [calculateBounds]: widen the box by
    one vertex, axis by axis. *)
Definition expandBounds (box : glm.vec3 * glm.vec3) (vertex : glm.vec3)
    : glm.vec3 * glm.vec3 :=
  let (lo, hi) := box in
  (glm.Vec3 (F32.min (glm.x lo) (glm.x vertex))
            (F32.min (glm.y lo) (glm.y vertex))
            (F32.min (glm.z lo) (glm.z vertex)),
   glm.Vec3 (F32.max (glm.x hi) (glm.x vertex))
            (F32.max (glm.y hi) (glm.y vertex))
            (F32.max (glm.z hi) (glm.z vertex))).

Definition calculateBounds (mesh : ModelMesh) : ModelMesh :=
  match triangles mesh with
  | [] => mesh
  | first :: _ =>
      let start := (vertex0 first, vertex0 first) in
      let (lo, hi) :=
        fold_left (fun box triangle => fold_left expandBounds (vertices triangle) box)
                  (triangles mesh) start in
      set_bounds mesh lo hi
  end.

Definition calculateCenterAndScale (mesh : ModelMesh) : ModelMesh :=
  match triangles mesh with
  | [] => mesh
  | _ :: _ =>
      let c := glm.scale_by (glm.add (min_bounds mesh) (max_bounds mesh))
                            CENTER_CALCULATION_FACTOR in
      let size := glm.sub (max_bounds mesh) (min_bounds mesh) in
      let maxSize := F32.max3 (glm.x size) (glm.y size) (glm.z size) in
      if F32.ltb EPSILON maxSize
      then set_center_scale mesh c (F32.div DEFAULT_SCALE maxSize)
      else set_center_scale mesh c DEFAULT_SCALE
  end.

(** What [loadFile] calls normalisation: bounds, then centre and scale. *)
Definition normalize (mesh : ModelMesh) : ModelMesh :=
  calculateCenterAndScale (calculateBounds mesh).

Section Load.

(** [Assimp::Importer::ReadFile] with the fixed post-processing flags:
    the file system and the parser are outside the program. *)
Variable ReadFile : string -> ReadResult.

Definition loadFileWithAssimp (filePath : string) : M (option aiScene) :=
  match ReadFile filePath with
  | Scene scene => ret (Some scene)
  | Null errorString =>
      setError "Failed to load 3D model" errorString ;;; ret None
  end.

Definition loadFile (filePath : string) (mesh : ModelMesh) : M (bool * ModelMesh) :=
  clearError ;;;
  scene <- loadFileWithAssimp filePath ;;
  match scene with
  | None => ret (false, mesh)
  | Some scene =>
      valid <- validateScene scene ;;
      if negb valid then ret (false, mesh)
      else
        r <- processScene scene mesh ;;
        let (ok, mesh) := r in
        if negb ok then ret (false, mesh)
        else
          nonempty <- validateProcessedMesh mesh ;;
          if negb nonempty then ret (false, mesh)
          else ret (true, normalize mesh)
  end.

(** A sequence of [loadFile] calls on one loader, each with its own
    path and output mesh; the loader after the last call. *)
Definition loadFiles (calls : list (string * ModelMesh)) (self : t) : t :=
  fold_left (fun self call => snd (loadFile (fst call) (snd call) self)) calls self.

End Load.

End ModelLoader.

(* ================================================================== *)
(** ** viewer.cpp: the buffer builders and the model matrix of [STLViewer] *)
(* ================================================================== *)

Module STLViewer.

(** The members the functions below read or write. *)
Record t : Type := mk { mesh : ModelMesh; model : glm.mat4 }.

Definition AXIS_LENGTH : F32.float := F32.two.
Definition MODEL_DESIRED_SIZE : F32.float := F32.one_and_half.
Definition MODEL_COLOR_R : F32.float := F32.point_eight.
Definition MODEL_COLOR_G : F32.float := F32.point_eight.
Definition MODEL_COLOR_B : F32.float := F32.point_eight.
Definition VERTEX_COMPONENTS : nat := 9.
Definition TRIANGLE_VERTICES : nat := 3.

(** The lambda of [convertSTLToVertices]: the nine floats of one vertex. *)
Definition vertexArray (triangle : ModelTriangle) (vertex : glm.vec3) : list F32.float :=
  [ glm.x vertex; glm.y vertex; glm.z vertex;
    MODEL_COLOR_R; MODEL_COLOR_G; MODEL_COLOR_B;
    glm.x (normal triangle); glm.y (normal triangle); glm.z (normal triangle) ].

Definition convertSTLToVertices (self : t) : list F32.float :=
  fold_left
    (fun buffer triangle =>
       fold_left (fun buffer vertex => buffer ++ vertexArray triangle vertex)
                 (vertices triangle) buffer)
    (triangles (mesh self)) [].

(** The locals [objectSize], [maxDimension] and [scale] of
    [updateModelMatrix]. *)
Definition objectSize (self : t) : glm.vec3 :=
  glm.sub (max_bounds (mesh self)) (min_bounds (mesh self)).
Definition maxDimension (self : t) : F32.float :=
  let size := objectSize self in F32.max3 (glm.x size) (glm.y size) (glm.z size).
Definition modelScale (self : t) : F32.float :=
  F32.div MODEL_DESIRED_SIZE (maxDimension self).

Definition updateModelMatrix (self : t) : t :=
  let model := glm.identity in
  let scale := modelScale self in
  let model := glm.scale model (glm.splat scale) in
  let model := glm.translate model (glm.scale_by (glm.neg (center (mesh self))) scale) in
  mk (mesh self) model.

Definition createAxesVertices (self : t) : list F32.float :=
  let o := F32.zero in
  let i := F32.one in
  [ o; o; o;  i; o; o;  o; o; i;
    AXIS_LENGTH; o; o;  i; o; o;  o; o; i;
    o; o; o;  o; i; o;  o; o; i;
    o; AXIS_LENGTH; o;  o; i; o;  o; o; i;
    o; o; o;  o; o; i;  o; o; i;
    o; o; AXIS_LENGTH;  o; o; i;  o; o; i ].

(** How the vertex attributes set up by [setupVertexAttributes] read a
    buffer: vertex [k] starts at float [9 * k]; position at offset 0,
    colour at offset 3, normal at offset 6. *)
Definition slice (from to : nat) (buffer : list F32.float) : list F32.float :=
  firstn (to - from) (skipn from buffer).

Definition triple (l : list F32.float) : glm.vec3 :=
  glm.Vec3 (nth 0 l F32.zero) (nth 1 l F32.zero) (nth 2 l F32.zero).

Definition positionAt (buffer : list F32.float) (k : nat) : glm.vec3 :=
  triple (slice (VERTEX_COMPONENTS * k) (VERTEX_COMPONENTS * k + 3) buffer).
Definition colorAt (buffer : list F32.float) (k : nat) : glm.vec3 :=
  triple (slice (VERTEX_COMPONENTS * k + 3) (VERTEX_COMPONENTS * k + 6) buffer).
Definition normalAt (buffer : list F32.float) (k : nat) : glm.vec3 :=
  triple (slice (VERTEX_COMPONENTS * k + 6) (VERTEX_COMPONENTS * k + 9) buffer).

(** The line segments [glDrawArrays(GL_LINES, 0, n)] draws from a buffer:
    consecutive pairs of vertices, as (start, end, colour of start,
    colour of end). *)
Definition segmentAt (buffer : list F32.float) (s : nat)
    : glm.vec3 * glm.vec3 * glm.vec3 * glm.vec3 :=
  (positionAt buffer (2 * s), positionAt buffer (2 * s + 1),
   colorAt buffer (2 * s), colorAt buffer (2 * s + 1)).

(** Euclidean length of the segment from [a] to [b]. *)
Definition distance (a b : glm.vec3) : F32.float :=
  let d := glm.sub b a in F32.sqrt (glm.dot d d).

End STLViewer.

(* ================================================================== *)
(** ** Vocabulary of the statements about [loadFile] *)
(* ================================================================== *)

Module LoaderSpec.

Import Assimp ModelLoader.
Local Open Scope string_scope.

(** A face with three indices one of which is not below the vertex count. *)
Definition outOfRange (aiMesh : aiMesh) (face : aiFace) (index : N) : Prop :=
  mNumIndices face = TRIANGLE_VERTICES /\
  In index (mIndices face) /\ (mNumVertices aiMesh <= index)%N.

Definition invalidIndexMessage (index : N) : string :=
  "Invalid vertex index in face data: Index: " ++ to_string index.

(** The derived fields of [b] are those of [a], and the triangle list of
    [b] extends that of [a]. *)
Definition extends (a b : ModelMesh) : Prop :=
  (exists extracted, triangles b = (triangles a ++ extracted)%list) /\
  min_bounds b = min_bounds a /\ max_bounds b = max_bounds a /\
  center b = center a /\ scale b = scale a.

Definition noFaceDataMessage (mesh : ModelMesh) : string :=
  "Mesh does not contain face data: " ++ meshIndexContext mesh.

Definition noPositionDataMessage (mesh : ModelMesh) : string :=
  "Mesh does not contain vertex position data: " ++ meshIndexContext mesh.

Definition noMeshDataMessage : string :=
  "No mesh data found in the file: File might be empty or corrupted".

Definition noTriangleMessage : string :=
  "No triangle data could be extracted from the file: " ++
  "Model might contain only points/lines or unsupported geometry".

(** Why [processScene] gave up on a scene, as recorded in the loader. *)
Definition sceneFailure (meshes : list aiMesh) (self : t) : Prop :=
  (exists aiMesh mesh, In aiMesh meshes /\ HasFaces aiMesh = false /\
                       self = mk (noFaceDataMessage mesh)) \/
  (exists aiMesh mesh, In aiMesh meshes /\ HasPositions aiMesh = false /\
                       self = mk (noPositionDataMessage mesh)) \/
  (exists aiMesh face index,
      In aiMesh meshes /\ In face (mFaces aiMesh) /\ outOfRange aiMesh face index /\
      self = mk (invalidIndexMessage index)).

(** A mesh [processMesh] accepts whole. *)
Definition wellFormed (aiMesh : aiMesh) : Prop :=
  HasFaces aiMesh = true /\ HasPositions aiMesh = true /\
  forall face index, In face (mFaces aiMesh) -> ~ outOfRange aiMesh face index.

(** What [createTriangle] returns for a face, read off a fresh loader:
    whether every index is in range, and the triangle built. *)
Definition inRange (aiMesh : aiMesh) (face : aiFace) : bool :=
  fst (fst (createTriangle face aiMesh emptyTriangle (mk ""))).
Definition triangleOf (aiMesh : aiMesh) (face : aiFace) : ModelTriangle :=
  snd (fst (createTriangle face aiMesh emptyTriangle (mk ""))).

(** The triangles of the three-index faces that come before the first
    three-index face with an index out of range, and whether there is no
    such face. *)
Fixpoint faceTriangles (aiMesh : aiMesh) (faces : list aiFace)
    : list ModelTriangle * bool :=
  match faces with
  | [] => ([], true)
  | face :: faces' =>
      if (mNumIndices face =? TRIANGLE_VERTICES)%N then
        if inRange aiMesh face then
          let (rest, ok) := faceTriangles aiMesh faces' in
          (triangleOf aiMesh face :: rest, ok)
        else ([], false)
      else faceTriangles aiMesh faces'
  end.

Definition meshTriangles (aiMesh : aiMesh) : list ModelTriangle * bool :=
  if HasFaces aiMesh && HasPositions aiMesh
  then faceTriangles aiMesh (mFaces aiMesh)
  else ([], false).

(** The triangles a scene yields up to its first failing mesh, and
    whether no mesh fails. *)
Fixpoint sceneTriangles (meshes : list aiMesh) : list ModelTriangle * bool :=
  match meshes with
  | [] => ([], true)
  | aiMesh :: meshes' =>
      let (first, ok) := meshTriangles aiMesh in
      if ok then
        let (rest, ok') := sceneTriangles meshes' in ((first ++ rest)%list, ok')
      else (first, false)
  end.

End LoaderSpec.

(* ================================================================== *)
(** ** Vocabulary of the statements about floats and bounds *)
(* ================================================================== *)

Module F32Spec.

Local Open Scope Z_scope.

(** Position of a number on the extended line, as a triple compared
    lexicographically: class (infinities, negatives, zeros, positives),
    then exponent, then mantissa.  This is the order [SFcompare]
    computes. *)
Definition rank (x : F32.float) : Z * Z * Z :=
  match x with
  | S754_infinity true => (-2, 0, 0)
  | S754_finite true m e => (-1, - e, - Zpos m)
  | S754_zero _ => (0, 0, 0)
  | S754_finite false m e => (1, e, Zpos m)
  | S754_infinity false => (2, 0, 0)
  | S754_nan => (3, 0, 0)
  end.

Definition lex_lt (a b : Z * Z * Z) : Prop :=
  let '(a1, a2, a3) := a in
  let '(b1, b2, b3) := b in
  a1 < b1 \/ (a1 = b1 /\ (a2 < b2 \/ (a2 = b2 /\ a3 < b3))).

Definition lex_le (a b : Z * Z * Z) : Prop :=
  let '(a1, a2, a3) := a in
  let '(b1, b2, b3) := b in
  a1 < b1 \/ (a1 = b1 /\ (a2 < b2 \/ (a2 = b2 /\ a3 <= b3))).

(** At most 24 significant bits and an exponent that does not exceed the
    largest binary32 exponent: the number is below 2^128. *)
Definition small (x : F32.float) : Prop :=
  match x with
  | S754_finite _ m e => Zpos (digits2_pos m) <= F32.prec /\ e <= F32.emax - F32.prec
  | _ => True
  end.

(** The exponent is not below the smallest binary32 exponent. *)
Definition floored (x : F32.float) : Prop :=
  match x with
  | S754_finite _ _ e => -149 <= e
  | _ => True
  end.

(** A mantissa with no bit shifted out yet. *)
Definition exact_record (m : Z) : shr_record := Build_shr_record m false false.

End F32Spec.

Module MeshSpec.

(** No coordinate is NaN. *)
Definition number (v : glm.vec3) : Prop :=
  F32.is_nan (glm.x v) = false /\ F32.is_nan (glm.y v) = false /\
  F32.is_nan (glm.z v) = false.

(** Every coordinate is a binary32 value. *)
Definition representable (v : glm.vec3) : Prop :=
  F32.valid (glm.x v) = true /\ F32.valid (glm.y v) = true /\
  F32.valid (glm.z v) = true.

(** [lo <= v <= hi], axis by axis, with the program's [<=]. *)
Definition inside (lo hi v : glm.vec3) : Prop :=
  F32.leb (glm.x lo) (glm.x v) = true /\ F32.leb (glm.x v) (glm.x hi) = true /\
  F32.leb (glm.y lo) (glm.y v) = true /\ F32.leb (glm.y v) (glm.y hi) = true /\
  F32.leb (glm.z lo) (glm.z v) = true /\ F32.leb (glm.z v) (glm.z hi) = true.

(** Each coordinate of [bound] is that coordinate of some vertex. *)
Definition attained (bound : glm.vec3) (vs : list glm.vec3) : Prop :=
  (exists v, In v vs /\ glm.x bound = glm.x v) /\
  (exists v, In v vs /\ glm.y bound = glm.y v) /\
  (exists v, In v vs /\ glm.z bound = glm.z v).

(** The midpoint as the specification writes it: [(lo + hi) / 2]. *)
Definition midpoint (lo hi : glm.vec3) : glm.vec3 :=
  glm.Vec3 (F32.div (F32.add (glm.x lo) (glm.x hi)) F32.two)
           (F32.div (F32.add (glm.y lo) (glm.y hi)) F32.two)
           (F32.div (F32.add (glm.z lo) (glm.z hi)) F32.two).

(** The largest side of the bounding box, as [calculateCenterAndScale]
    computes it. *)
Definition largestDimension (mesh : ModelMesh) : F32.float :=
  let size := glm.sub (max_bounds mesh) (min_bounds mesh) in
  F32.max3 (glm.x size) (glm.y size) (glm.z size).

End MeshSpec.

(* ================================================================== *)
(** ** Vocabulary of the statements about the viewer *)
(* ================================================================== *)

Module ViewerSpec.

Definition origin : glm.vec3 := glm.Vec3 F32.zero F32.zero F32.zero.
Definition red : glm.vec3 := glm.Vec3 F32.one F32.zero F32.zero.
Definition green : glm.vec3 := glm.Vec3 F32.zero F32.one F32.zero.
Definition blue : glm.vec3 := glm.Vec3 F32.zero F32.zero F32.one.

(** The point at distance [length] from the origin along each axis. *)
Definition alongX (length : F32.float) : glm.vec3 := glm.Vec3 length F32.zero F32.zero.
Definition alongY (length : F32.float) : glm.vec3 := glm.Vec3 F32.zero length F32.zero.
Definition alongZ (length : F32.float) : glm.vec3 := glm.Vec3 F32.zero F32.zero length.

(** A segment from the origin to [tip], both ends coloured [colour]. *)
Definition axis (tip colour : glm.vec3) : glm.vec3 * glm.vec3 * glm.vec3 * glm.vec3 :=
  (origin, tip, colour, colour).

(** Where re-centring would put a vertex: [(vertex - center) * scale]. *)
Definition recentred (mesh : ModelMesh) (scale : F32.float) (vertex : glm.vec3) : glm.vec3 :=
  glm.scale_by (glm.sub vertex (center mesh)) scale.

(** Where the model matrix of the viewer puts a vertex. *)
Definition placed (self : STLViewer.t) (vertex : glm.vec3) : glm.vec3 :=
  glm.transform_point (STLViewer.model (STLViewer.updateModelMatrix self)) vertex.

End ViewerSpec.

(* ================================================================== *)
(** ** Sample scenes *)
(* ================================================================== *)

Module Samples.

Import Assimp.

Definition point (a b c : Z) : aiVector3D :=
  AiVector3D (F32.of_Z a) (F32.of_Z b) (F32.of_Z c).

Definition origin : glm.vec3 := glm.Vec3 F32.zero F32.zero F32.zero.

(** A default-constructed [ModelMesh] whose floats happen to be zero. *)
Definition emptyMesh : ModelMesh := mkMesh [] origin origin origin F32.zero.

(** One triangle (0,0,0), (3,0,0), (0,3,3), no normals in the file. *)
Definition oneTriangle : aiMesh :=
  AiMesh [point 0 0 0; point 3 0 0; point 0 3 3] None [AiFace [0; 1; 2]%N].

(** The same vertices, a good face and then a face naming vertex 5. *)
Definition badSecondFace : aiMesh :=
  AiMesh [point 0 0 0; point 3 0 0; point 0 3 3] None
         [AiFace [0; 1; 2]%N; AiFace [0; 1; 5]%N].

(** A triangle whose three corners are the single vertex (1,1,1). *)
Definition collapsed : aiMesh :=
  AiMesh [point 1 1 1] None [AiFace [0; 0; 0]%N].

(** A triangle whose first corner has NaN as its x coordinate. *)
Definition nanCorner : aiMesh :=
  AiMesh [AiVector3D S754_nan F32.zero F32.zero; point 1 0 0; point 0 1 0] None
         [AiFace [0; 1; 2]%N].

(** A triangle spanning from -FLT_MAX to +FLT_MAX along x. *)
Definition hugeSpan : aiMesh :=
  AiMesh [AiVector3D (F32.neg F32.max_float) F32.zero F32.zero;
          AiVector3D F32.max_float F32.zero F32.zero; point 0 1 0] None
         [AiFace [0; 1; 2]%N].

(** A mesh with vertices but no face. *)
Definition faceless : aiMesh := AiMesh [point 0 0 0] None [].

(** An importer that parses every path to the given meshes. *)
Definition reads (meshes : list aiMesh) (filePath : string) : ReadResult :=
  Scene (AiScene meshes).

(** An importer that cannot parse "broken.stl" and parses every other
    path to the one-triangle scene. *)
Definition readsByName (filePath : string) : ReadResult :=
  if String.eqb filePath "broken.stl" then Null "unreadable file"
  else Scene (AiScene [oneTriangle]).

(** The caller's mesh after [loadFile] on a file parsed to [meshes],
    starting from an empty mesh and a fresh loader. *)
Definition loaded (meshes : list aiMesh) : ModelMesh :=
  snd (fst (ModelLoader.loadFile (reads meshes) "model.stl" emptyMesh (ModelLoader.mk ""))).

(** A viewer holding that mesh, before its first frame. *)
Definition viewing (meshes : list aiMesh) : STLViewer.t :=
  STLViewer.mk (loaded meshes) glm.identity.

End Samples.

(* ================================================================== *)
(** ** Further vocabulary for the loader's results *)
(* ================================================================== *)

Module FaceSpec.

Import Assimp ModelLoader.

Definition isTriangleFace (face : aiFace) : bool :=
  (mNumIndices face =? TRIANGLE_VERTICES)%N.

(** The faces of a scene that have exactly three indices, in mesh order. *)
Definition triangleFaces (meshes : list aiMesh) : list aiFace :=
  filter isTriangleFace (flat_map mFaces meshes).

(** A mesh with the given triangle list and the derived fields of [mesh]. *)
Definition withTriangles (mesh : ModelMesh) (ts : list ModelTriangle) : ModelMesh :=
  mkMesh ts (min_bounds mesh) (max_bounds mesh) (center mesh) (scale mesh).

(** [aiMesh->mVertices[i]] as a [glm::vec3]. *)
Definition vertexAt (am : aiMesh) (i : N) : glm.vec3 :=
  to_vec3 (nth (N.to_nat i) (mVertices am) zero3).

(** Neither a number other than zero nor an infinity: a zero of either
    sign, or NaN. *)
Definition null (x : F32.float) : bool :=
  match x with S754_zero _ | S754_nan => true | _ => false end.

Definition allNaN (v : glm.vec3) : Prop :=
  glm.x v = S754_nan /\ glm.y v = S754_nan /\ glm.z v = S754_nan.

End FaceSpec.

(* ================================================================== *)
(** ** The OpenGL calls of the program, as a log *)
(* ================================================================== *)

Module GL.

(** The [GLenum] values the program passes. *)
Definition GL_FRAGMENT_SHADER : N := 35632.   (* 0x8B30 *)
Definition GL_VERTEX_SHADER : N := 35633.     (* 0x8B31 *)
Definition GL_ARRAY_BUFFER : N := 34962.      (* 0x8892 *)
Definition GL_STATIC_DRAW : N := 35044.       (* 0x88E4 *)
Definition GL_FLOAT : N := 5126.              (* 0x1406 *)

(** One call, with what the driver answered where the call has a result. *)
Inductive call : Type :=
| CreateShader (type : N) (shader : N)
| ShaderSource (shader : N) (source : string)
| CompileShader (shader : N)
| GetCompileStatus (shader : N) (status : Z)
| GetShaderInfoLog (shader : N) (log : string)
| DeleteShader (shader : N)
| CreateProgram (program : N)
| AttachShader (program shader : N)
| LinkProgram (program : N)
| GetLinkStatus (program : N) (status : Z)
| GetProgramInfoLog (program : N) (log : string)
| DeleteProgram (program : N)
| UseProgram (program : N)
| GetUniformLocation (program : N) (name : string) (location : Z)
| GenVertexArray (array : N)
| GenBuffer (buffer : N)
| BindVertexArray (array : N)
| BindBuffer (target buffer : N)
| BufferData (target : N) (size : Z) (data : list F32.float) (usage : N)
| VertexAttribPointer (index : N) (size : Z) (type : N) (normalized : bool)
                      (stride offset : Z)
| EnableVertexAttribArray (index : N).

(** The calls made so far, oldest first. *)
Definition log : Type := list call.

(** What is outside the program: the driver's answers, which may depend
    on everything it was asked before, and the shader files on disk
    ([None]: the file cannot be opened). *)
Record world : Type := World {
  createShader : log -> N -> N;
  compileStatus : log -> N -> Z;
  shaderInfoLog : log -> N -> string;
  createProgram : log -> N;
  linkStatus : log -> N -> Z;
  programInfoLog : log -> N -> string;
  uniformLocation : log -> N -> string -> Z;
  genVertexArray : log -> N;
  genBuffer : log -> N;
  readFile : string -> option string
}.

(** A computation that makes OpenGL calls. *)
Definition M (A : Type) : Type := log -> A * log.
Definition ret {A : Type} (a : A) : M A := fun calls => (a, calls).
Definition bind {A B : Type} (c : M A) (k : A -> M B) : M B :=
  fun calls => let (a, calls') := c calls in k a calls'.

(** A call without result, and a call whose result the driver supplies. *)
Definition tell (c : call) : M unit := fun calls => (tt, calls ++ [c]).
Definition ask {A : Type} (answer : log -> A) (c : A -> call) : M A :=
  fun calls => let a := answer calls in (a, calls ++ [c a]).

(** What a stretch of the log created and released. *)
Definition createdShaders (calls : log) : list N :=
  flat_map (fun c => match c with CreateShader _ s => [s] | _ => [] end) calls.
Definition deletedShaders (calls : log) : list N :=
  flat_map (fun c => match c with DeleteShader s => [s] | _ => [] end) calls.
Definition createdPrograms (calls : log) : list N :=
  flat_map (fun c => match c with CreateProgram p => [p] | _ => [] end) calls.
Definition deletedPrograms (calls : log) : list N :=
  flat_map (fun c => match c with DeleteProgram p => [p] | _ => [] end) calls.
(** The calls that set up vertex arrays and buffers, and what they
    generated and uploaded (byte count and floats). *)
Definition isBufferCall (c : call) : bool :=
  match c with
  | GenVertexArray _ | GenBuffer _ | BindVertexArray _ | BindBuffer _ _
  | BufferData _ _ _ _ | VertexAttribPointer _ _ _ _ _ _
  | EnableVertexAttribArray _ => true
  | _ => false
  end.
Definition bufferCalls (calls : log) : log := filter isBufferCall calls.
Definition generatedArrays (calls : log) : list N :=
  flat_map (fun c => match c with GenVertexArray a => [a] | _ => [] end) calls.
Definition generatedBuffers (calls : log) : list N :=
  flat_map (fun c => match c with GenBuffer b => [b] | _ => [] end) calls.
Definition uploads (calls : log) : list (Z * list F32.float) :=
  flat_map (fun c => match c with BufferData _ size data _ => [(size, data)] | _ => [] end)
           calls.
(** The compile statuses and the shader info logs the driver reported,
    in order. *)
Definition compileStatuses (calls : log) : list Z :=
  flat_map (fun c => match c with GetCompileStatus _ status => [status] | _ => [] end) calls.
Definition shaderInfoLogs (calls : log) : list string :=
  flat_map (fun c => match c with GetShaderInfoLog _ text => [text] | _ => [] end) calls.
(** The shaders whose compile status was reported as 0. *)
Definition failedShaders (calls : log) : list N :=
  flat_map (fun c => match c with
                     | GetCompileStatus s status => if (status =? 0)%Z then [s] else []
                     | _ => []
                     end) calls.

End GL.

Declare Scope gl_scope.
Delimit Scope gl_scope with gl.
Notation "x <- c ;; k" := (GL.bind c (fun x => k))
  (at level 61, c at next level, right associativity) : gl_scope.
Notation "c ;;; k" := (GL.bind c (fun _ => k))
  (at level 61, right associativity) : gl_scope.

(* ================================================================== *)
(** ** shader.cpp: the [Shader] class *)
(* ================================================================== *)

Module Shader.

Local Open Scope gl_scope.
Local Open Scope string_scope.

Record t : Type := mk {
  programID : N;
  errorMessage : string;
  uniformLocationCache : gmap.gmap string Z
}.

Definition SHADER_INFO_LOG_SIZE : nat := 1024.

(** [Shader()] *)
Definition new : t := mk 0 "" base.empty.

Definition getErrorMessage (self : t) : string := errorMessage self.
Definition isValid (self : t) : bool := negb (programID self =? 0)%N.

Definition set_programID (self : t) (id : N) : t :=
  mk id (errorMessage self) (uniformLocationCache self).
Definition set_errorMessage (self : t) (message : string) : t :=
  mk (programID self) message (uniformLocationCache self).
Definition set_cache (self : t) (cache : gmap.gmap string Z) : t :=
  mk (programID self) (errorMessage self) cache.

(** [std::string(buffer.data())]: the characters before the first NUL. *)
Fixpoint c_string (s : string) : string :=
  match s with
  | EmptyString => EmptyString
  | String c rest => if Ascii.eqb c "000"%char then EmptyString else String c (c_string rest)
  end.

(** What ends up in a zeroed buffer of [SHADER_INFO_LOG_SIZE] chars when
    the driver writes a log into it (at most size - 1 characters and a
    terminator), read back as a C string. *)
Definition infoLogText (log : string) : string :=
  c_string (substring 0 (SHADER_INFO_LOG_SIZE - 1) log).

Section World.

Variable w : GL.world.

Definition loadShaderFile (filePath : string) (self : t) : string * t :=
  match GL.readFile w filePath with
  | None => ("", set_errorMessage self ("Failed to open shader file: " ++ filePath))
  | Some content => (content, self)
  end.

Definition compileShader (source : string) (type : N) (self : t) : GL.M (N * t) :=
  shader <- GL.ask (fun calls => GL.createShader w calls type) (GL.CreateShader type) ;;
  GL.tell (GL.ShaderSource shader source) ;;;
  GL.tell (GL.CompileShader shader) ;;;
  success <- GL.ask (fun calls => GL.compileStatus w calls shader) (GL.GetCompileStatus shader) ;;
  if (success =? 0)%Z then
    infoLog <- GL.ask (fun calls => GL.shaderInfoLog w calls shader) (GL.GetShaderInfoLog shader) ;;
    let shaderTypeName := if (type =? GL.GL_VERTEX_SHADER)%N then "Vertex" else "Fragment" in
    let self := set_errorMessage self
                  (shaderTypeName ++ " shader compilation failed: " ++ infoLogText infoLog) in
    GL.tell (GL.DeleteShader shader) ;;;
    GL.ret (0%N, self)
  else GL.ret (shader, self).

Definition linkProgram (vertexShader fragmentShader : N) (self : t) : GL.M (bool * t) :=
  program <- GL.ask (GL.createProgram w) GL.CreateProgram ;;
  let self := set_programID self program in
  GL.tell (GL.AttachShader program vertexShader) ;;;
  GL.tell (GL.AttachShader program fragmentShader) ;;;
  GL.tell (GL.LinkProgram program) ;;;
  success <- GL.ask (fun calls => GL.linkStatus w calls program) (GL.GetLinkStatus program) ;;
  if (success =? 0)%Z then
    infoLog <- GL.ask (fun calls => GL.programInfoLog w calls program)
                      (GL.GetProgramInfoLog program) ;;
    GL.ret (false, set_errorMessage self
                     ("Shader program linking failed: " ++ infoLogText infoLog))
  else GL.ret (true, self).

Definition create (vertexPath fragmentPath : string) (self : t) : GL.M (bool * t) :=
  let self := set_errorMessage self "" in
  let (vertexCode, self) := loadShaderFile vertexPath self in
  let (fragmentCode, self) := loadShaderFile fragmentPath self in
  if String.eqb vertexCode "" || String.eqb fragmentCode "" then GL.ret (false, self)
  else
    v <- compileShader vertexCode GL.GL_VERTEX_SHADER self ;;
    let (vertexShader, self) := v in
    f <- compileShader fragmentCode GL.GL_FRAGMENT_SHADER self ;;
    let (fragmentShader, self) := f in
    if (vertexShader =? 0)%N || (fragmentShader =? 0)%N then GL.ret (false, self)
    else
      l <- linkProgram vertexShader fragmentShader self ;;
      let (linked, self) := l in
      if negb linked then GL.ret (false, self)
      else
        GL.tell (GL.DeleteShader vertexShader) ;;;
        GL.tell (GL.DeleteShader fragmentShader) ;;;
        GL.ret (true, self).

Definition use (self : t) : GL.M unit :=
  if negb (programID self =? 0)%N then GL.tell (GL.UseProgram (programID self))
  else GL.ret tt.

Definition getUniformLocation (name : string) (self : t) : GL.M (Z * t) :=
  match base.lookup name (uniformLocationCache self) with
  | Some location => GL.ret (location, self)
  | None =>
      location <- GL.ask (fun calls => GL.uniformLocation w calls (programID self) name)
                         (GL.GetUniformLocation (programID self) name) ;;
      GL.ret (location, set_cache self (base.insert name location (uniformLocationCache self)))
  end.

Definition cleanup (self : t) : GL.M t :=
  (if negb (programID self =? 0)%N then GL.tell (GL.DeleteProgram (programID self))
   else GL.ret tt) ;;;
  GL.ret (mk 0 (errorMessage self) base.empty).

(** [Shader(Shader&& other)]: the new object and what is left of
    [other].  A moved-from [std::string] or map is valid but unspecified:
    [residue] stands for it. *)
Definition moveConstruct (other residue : t) : t * t :=
  (mk (programID other) (errorMessage other) (uniformLocationCache other),
   mk 0 (errorMessage residue) (uniformLocationCache residue)).

(** [operator=(Shader&& other)]; [other = None] is self-assignment
    ([this == &other]).  Returns the object and what is left of [other]. *)
Definition moveAssign (self : t) (other : option t) (residue : t) : GL.M (t * option t) :=
  match other with
  | None => GL.ret (self, None)
  | Some other =>
      _ <- cleanup self ;;
      GL.ret (mk (programID other) (errorMessage other) (uniformLocationCache other),
              Some (mk 0 (errorMessage residue) (uniformLocationCache residue)))
  end.

(** [~Shader()] *)
Definition destroy (self : t) : GL.M t := cleanup self.

End World.

(** The message two compile statuses (vertex, then fragment) and the
    info logs read for them leave behind. *)
Definition compileFailureMessage (statuses : list Z) (logs : list string) : string :=
  match statuses with
  | [vertexStatus; fragmentStatus] =>
      if (fragmentStatus =? 0)%Z then
        "Fragment shader compilation failed: " ++ infoLogText (last logs "")
      else if (vertexStatus =? 0)%Z then
        "Vertex shader compilation failed: " ++ infoLogText (last logs "")
      else ""
  | _ => ""
  end.

End Shader.

(* ================================================================== *)
(** ** main.cpp: command line, file checks and start-up *)
(* ================================================================== *)

Module Main.

Local Open Scope string_scope.

Definition EXIT_SUCCESS : Z := 0.
Definition EXIT_FAILURE : Z := 1.
Definition DEFAULT_WINDOW_WIDTH : Z := 800.
Definition DEFAULT_WINDOW_HEIGHT : Z := 600.
Definition STL_EXTENSION : string := ".stl".

Record ViewerConfig : Type := mkConfig {
  stlFilePath : string;
  windowWidth : Z;
  windowHeight : Z
}.

(** [ViewerConfig{}] *)
Definition defaultConfig : ViewerConfig :=
  mkConfig "" DEFAULT_WINDOW_WIDTH DEFAULT_WINDOW_HEIGHT.

(** What the program does that can be seen from outside, in order: a
    line on a stream, or a call into the viewer. *)
Inductive event : Type :=
| Stdout (line : string)
| Stderr (line : string)
| ViewerInit
| ViewerLoadSTL (filename : string)
| ViewerRun
| ViewerDestroyed.

(** What Boost.Program_options makes of the arguments: an exception
    ([po::error], with its [what()]), or the variables map, of which the
    program reads [count("help")], [count("stl-file")] and the value of
    stl-file. *)
Inductive parsed : Type :=
| ParseError (what : string)
| VariablesMap (help : bool) (stlFile : option string).

(** What is outside main.cpp.  [None] from a filesystem query is a
    [std::filesystem::filesystem_error] thrown by it. *)
Record world : Type := World {
  commandLineParser : list string -> parsed;
  optionsDescription : string;
  exists_ : string -> option bool;
  file_size : string -> option N;
  extension : string -> string;
  viewerInit : bool;
  viewerLoadSTL : string -> bool
}.

(** A call returns, or leaves by an exception nothing in main.cpp
    catches. *)
Inductive result (A : Type) : Type :=
| Returned (a : A)
| Thrown.
Arguments Returned {A} a.
Arguments Thrown {A}.

(** Computations that write events and may throw. *)
Definition M (A : Type) : Type := list event -> result A * list event.
Definition ret {A : Type} (a : A) : M A := fun out => (Returned a, out).
Definition bind {A B : Type} (c : M A) (k : A -> M B) : M B :=
  fun out =>
    match c out with
    | (Returned a, out') => k a out'
    | (Thrown, out') => (Thrown, out')
    end.
Definition emit (e : event) : M unit := fun out => (Returned tt, (out ++ [e])%list).
Definition query {A : Type} (answer : option A) : M A :=
  fun out =>
    match answer with
    | Some a => (Returned a, out)
    | None => (Thrown, out)
    end.

Declare Scope main_scope.
Delimit Scope main_scope with main.
Notation "x <- c ;; k" := (bind c (fun x => k))
  (at level 61, c at next level, right associativity) : main_scope.
Notation "c ;;; k" := (bind c (fun _ => k))
  (at level 61, right associativity) : main_scope.
Local Open Scope main_scope.

Section World.

Variable w : world.

Definition printUsage (programName : string) : M unit :=
  emit (Stdout ("Usage: " ++ programName ++ " [options] <STL_FILE_PATH>")) ;;;
  emit (Stdout (optionsDescription w)) ;;;
  emit (Stdout ("Example: " ++ programName ++ " model.stl")) ;;;
  emit (Stdout "") ;;;
  emit (Stdout "Supported formats:") ;;;
  emit (Stdout "  - ASCII STL") ;;;
  emit (Stdout "  - Binary STL").

Definition validateSTLFile (filePath : string) : M bool :=
  found <- query (exists_ w filePath) ;;
  if negb found then
    emit (Stderr ("Error: STL file does not exist: " ++ filePath)) ;;;
    ret false
  else
    size <- query (file_size w filePath) ;;
    if (size =? 0)%N then
      emit (Stderr ("Error: STL file is empty: " ++ filePath)) ;;;
      ret false
    else
      (if negb (String.eqb (extension w filePath) STL_EXTENSION) then
         emit (Stderr ("Warning: File does not have " ++ STL_EXTENSION ++ " extension: "
                       ++ filePath)) ;;;
         emit (Stderr "Warning: Continuing anyway...")
       else ret tt) ;;;
      ret true.

(** [argv] as a list; [argv[0]] is the program name. *)
Definition parseCommandLine (argv : list string) (config : ViewerConfig)
  : M (bool * ViewerConfig) :=
  let programName := nth 0 argv "" in
  match commandLineParser w argv with
  | ParseError what =>
      emit (Stderr ("Error parsing command line: " ++ what)) ;;;
      printUsage programName ;;;
      ret (false, config)
  | VariablesMap help stlFile =>
      if help then
        printUsage programName ;;;
        ret (false, config)
      else
        match stlFile with
        | None =>
            emit (Stderr "Error: STL file path is required.") ;;;
            printUsage programName ;;;
            ret (false, config)
        | Some path =>
            ret (true, mkConfig path (windowWidth config) (windowHeight config))
        end
  end.

Definition initializeViewer (config : ViewerConfig) : M bool :=
  emit ViewerInit ;;;
  if negb (viewerInit w) then
    emit (Stderr "Error: Failed to initialize STL Viewer") ;;;
    ret false
  else
    emit (ViewerLoadSTL (stlFilePath config)) ;;;
    if negb (viewerLoadSTL w (stlFilePath config)) then
      emit (Stderr "Error: Failed to load STL file") ;;;
      ret false
    else ret true.

(** [main]; the viewer object lives from its declaration to the end of
    the function, whichever [return] ends it. *)
Definition main (argv : list string) : M Z :=
  let config := defaultConfig in
  p <- parseCommandLine argv config ;;
  let (parsedOk, config) := p in
  if negb parsedOk then ret EXIT_FAILURE
  else
    valid <- validateSTLFile (stlFilePath config) ;;
    if negb valid then
      emit (Stderr "Error: Failed to validate STL file") ;;;
      ret EXIT_FAILURE
    else
      initialized <- initializeViewer config ;;
      if negb initialized then
        emit ViewerDestroyed ;;;
        ret EXIT_FAILURE
      else
        emit ViewerRun ;;;
        emit ViewerDestroyed ;;;
        ret EXIT_SUCCESS.

End World.

(** The lines written to the error stream, and the calls into the
    viewer, of a stretch of events. *)
Definition stderrLines (out : list event) : list string :=
  flat_map (fun e => match e with Stderr line => [line] | _ => [] end) out.
Definition viewerCalls (out : list event) : list event :=
  filter (fun e => match e with Stdout _ | Stderr _ => false | _ => true end) out.

End Main.

(* ================================================================== *)
(** ** viewer.cpp: [STLViewer::loadSTL] and what it sets up *)
(* ================================================================== *)

Module Viewer.

Local Open Scope string_scope.

Definition VERTEX_SHADER_PATH : string := "shaders/vertex.glsl".
Definition FRAGMENT_SHADER_PATH : string := "shaders/fragment.glsl".
Definition CAMERA_DISTANCE : F32.float := S754_finite false 8388608 (-20).   (* 8.0f *)
Definition VERTEX_COMPONENTS : Z := 9.
Definition NORMAL_COMPONENTS : Z := 3.
Definition POSITION_COMPONENTS : Z := 3.
Definition COLOR_COMPONENTS : Z := 3.
Definition POSITION_ATTRIBUTE_INDEX : N := 0.
Definition COLOR_ATTRIBUTE_INDEX : N := 1.
Definition NORMAL_ATTRIBUTE_INDEX : N := 2.

(** [sizeof(float)] *)
Definition sizeof_float : Z := 4.

(** The members [loadSTL] reads or writes; [core] holds the mesh and the
    model matrix. *)
Record t : Type := mk {
  core : STLViewer.t;
  shader : Shader.t;
  axesVAO : N;
  axesVBO : N;
  modelVAO : N;
  modelVBO : N;
  cameraPos : glm.vec3;
  cameraFront : glm.vec3;
  cameraUp : glm.vec3;
  lightPos : glm.vec3;
  lightColor : glm.vec3
}.

Definition mesh (self : t) : ModelMesh := STLViewer.mesh (core self).

Definition set_mesh (self : t) (m : ModelMesh) : t :=
  mk (STLViewer.mk m (STLViewer.model (core self))) (shader self)
     (axesVAO self) (axesVBO self) (modelVAO self) (modelVBO self)
     (cameraPos self) (cameraFront self) (cameraUp self) (lightPos self) (lightColor self).
Definition set_shader (self : t) (s : Shader.t) : t :=
  mk (core self) s (axesVAO self) (axesVBO self) (modelVAO self) (modelVBO self)
     (cameraPos self) (cameraFront self) (cameraUp self) (lightPos self) (lightColor self).
Definition set_axes (self : t) (VAO VBO : N) : t :=
  mk (core self) (shader self) VAO VBO (modelVAO self) (modelVBO self)
     (cameraPos self) (cameraFront self) (cameraUp self) (lightPos self) (lightColor self).
Definition set_model (self : t) (VAO VBO : N) : t :=
  mk (core self) (shader self) (axesVAO self) (axesVBO self) VAO VBO
     (cameraPos self) (cameraFront self) (cameraUp self) (lightPos self) (lightColor self).

(** Computations that make OpenGL calls and write lines to [std::cerr]. *)
Definition V (A : Type) : Type := GL.log -> list string -> A * GL.log * list string.
Definition ret {A : Type} (a : A) : V A := fun calls errors => (a, calls, errors).
Definition bind {A B : Type} (c : V A) (k : A -> V B) : V B :=
  fun calls errors => let '(a, calls', errors') := c calls errors in k a calls' errors'.
Definition gl {A : Type} (c : GL.M A) : V A :=
  fun calls errors => let (a, calls') := c calls in (a, calls', errors).
Definition cerr (line : string) : V unit :=
  fun calls errors => (tt, calls, (errors ++ [line])%list).

Declare Scope viewer_scope.
Delimit Scope viewer_scope with viewer.
Notation "x <- c ;; k" := (bind c (fun x => k))
  (at level 61, c at next level, right associativity) : viewer_scope.
Notation "c ;;; k" := (bind c (fun _ => k))
  (at level 61, right associativity) : viewer_scope.
Local Open Scope viewer_scope.

Definition logError (message functionName : string) : V unit :=
  if negb (String.eqb functionName "") then
    cerr ("[Error in " ++ functionName ++ "] " ++ message)
  else
    cerr ("[Error] " ++ message).

Definition setupVertexAttributes : V unit :=
  gl (GL.tell (GL.VertexAttribPointer POSITION_ATTRIBUTE_INDEX POSITION_COMPONENTS
                 GL.GL_FLOAT false (VERTEX_COMPONENTS * sizeof_float) 0)) ;;;
  gl (GL.tell (GL.EnableVertexAttribArray POSITION_ATTRIBUTE_INDEX)) ;;;
  gl (GL.tell (GL.VertexAttribPointer COLOR_ATTRIBUTE_INDEX COLOR_COMPONENTS
                 GL.GL_FLOAT false (VERTEX_COMPONENTS * sizeof_float)
                 (POSITION_COMPONENTS * sizeof_float))) ;;;
  gl (GL.tell (GL.EnableVertexAttribArray COLOR_ATTRIBUTE_INDEX)) ;;;
  gl (GL.tell (GL.VertexAttribPointer NORMAL_ATTRIBUTE_INDEX NORMAL_COMPONENTS
                 GL.GL_FLOAT false (VERTEX_COMPONENTS * sizeof_float)
                 ((POSITION_COMPONENTS + COLOR_COMPONENTS) * sizeof_float))) ;;;
  gl (GL.tell (GL.EnableVertexAttribArray NORMAL_ATTRIBUTE_INDEX)).

(** [setupCamera] *)
Definition setupCamera (self : t) : t :=
  let cameraPos := glm.Vec3 CAMERA_DISTANCE CAMERA_DISTANCE CAMERA_DISTANCE in
  let cameraFront :=
    glm.normalize (glm.sub (glm.Vec3 F32.zero F32.zero F32.zero) cameraPos) in
  let cameraUp := glm.Vec3 F32.zero F32.one F32.zero in
  let lightPos := glm.Vec3 F32.two F32.two F32.two in
  let lightColor := glm.Vec3 F32.one F32.one F32.one in
  mk (core self) (shader self) (axesVAO self) (axesVBO self) (modelVAO self) (modelVBO self)
     cameraPos cameraFront cameraUp lightPos lightColor.

Section World.

Variable ReadFile : string -> Assimp.ReadResult.
Variable w : GL.world.

(** Returns the pair (VAO, VBO).  The byte count is
    [vertices.size() * sizeof(float)]; a vector cannot hold so many
    floats that the product wraps. *)
Definition createOpenGLBuffers (vertices : list F32.float) : V (N * N) :=
  VAO <- gl (GL.ask (GL.genVertexArray w) GL.GenVertexArray) ;;
  VBO <- gl (GL.ask (GL.genBuffer w) GL.GenBuffer) ;;
  gl (GL.tell (GL.BindVertexArray VAO)) ;;;
  gl (GL.tell (GL.BindBuffer GL.GL_ARRAY_BUFFER VBO)) ;;;
  gl (GL.tell (GL.BufferData GL.GL_ARRAY_BUFFER
                 (Z.of_nat (List.length vertices) * sizeof_float) vertices
                 GL.GL_STATIC_DRAW)) ;;;
  setupVertexAttributes ;;;
  gl (GL.tell (GL.BindVertexArray 0)) ;;;
  ret (VAO, VBO).

Definition createAxesOpenGLBuffers (vertices : list F32.float) (self : t) : V (bool * t) :=
  buffers <- createOpenGLBuffers vertices ;;
  ret (true, set_axes self (fst buffers) (snd buffers)).

Definition createModelBuffers (vertices : list F32.float) (self : t) : V (bool * t) :=
  buffers <- createOpenGLBuffers vertices ;;
  ret (true, set_model self (fst buffers) (snd buffers)).

Definition setupShaders (self : t) : V (bool * t) :=
  created <- gl (Shader.create w VERTEX_SHADER_PATH FRAGMENT_SHADER_PATH (shader self)) ;;
  let self := set_shader self (snd created) in
  if negb (fst created) then
    logError ("Failed to create shader: " ++ Shader.getErrorMessage (shader self))
             "setupShaders" ;;;
    ret (false, self)
  else
    gl (Shader.use (shader self)) ;;;
    ret (true, self).

Definition setupAxesBuffers (self : t) : V (bool * t) :=
  let vertices := STLViewer.createAxesVertices (core self) in
  createAxesOpenGLBuffers vertices self.

Definition setupModelBuffers (self : t) : V (bool * t) :=
  let vertices := STLViewer.convertSTLToVertices (core self) in
  createModelBuffers vertices self.

Definition loadSTL (filename : string) (self : t) : V (bool * t) :=
  let loader := ModelLoader.mk "" in
  let outcome := ModelLoader.loadFile ReadFile filename (mesh self) loader in
  let loader := snd outcome in
  let self := set_mesh self (snd (fst outcome)) in
  if negb (fst (fst outcome)) then
    logError ("Failed to load 3D model file: " ++ ModelLoader.getErrorMessage loader)
             "loadSTL" ;;;
    ret (false, self)
  else
    s <- setupShaders self ;;
    if negb (fst s) then ret (false, snd s)
    else
      a <- setupAxesBuffers (snd s) ;;
      if negb (fst a) then ret (false, snd a)
      else
        m <- setupModelBuffers (snd a) ;;
        if negb (fst m) then ret (false, snd m)
        else ret (true, setupCamera (snd m)).

End World.

(** The calls one run of [createOpenGLBuffers] makes, given the two
    names the driver hands out. *)
Definition bufferSetup (VAO VBO : N) (vertices : list F32.float) : GL.log :=
  [ GL.GenVertexArray VAO;
    GL.GenBuffer VBO;
    GL.BindVertexArray VAO;
    GL.BindBuffer GL.GL_ARRAY_BUFFER VBO;
    GL.BufferData GL.GL_ARRAY_BUFFER (Z.of_nat (List.length vertices) * 4) vertices
                  GL.GL_STATIC_DRAW;
    GL.VertexAttribPointer 0 3 GL.GL_FLOAT false 36 0;
    GL.EnableVertexAttribArray 0;
    GL.VertexAttribPointer 1 3 GL.GL_FLOAT false 36 12;
    GL.EnableVertexAttribArray 1;
    GL.VertexAttribPointer 2 3 GL.GL_FLOAT false 36 24;
    GL.EnableVertexAttribArray 2;
    GL.BindVertexArray 0 ].

End Viewer.

(* ------------------------------------------------------------------ *)

Module LoaderSamples.

Import Assimp.

(** A mesh whose only face is a quadrilateral, and one of two line
    segments: nothing the loader takes for a triangle. *)
Definition quadOnly : aiMesh :=
  AiMesh [Samples.point 0 0 0; Samples.point 1 0 0; Samples.point 1 1 0; Samples.point 0 1 0]
         None [AiFace [0; 1; 2; 3]%N].
Definition segments : aiMesh :=
  AiMesh [Samples.point 0 0 0; Samples.point 1 0 0; Samples.point 1 1 0]
         None [AiFace [0; 1]%N; AiFace [1; 2]%N].

(** A triangle that uses vertex 1 twice. *)
Definition sliver : aiMesh :=
  AiMesh [Samples.point 0 0 0; Samples.point 3 0 0; Samples.point 0 3 3] None
         [AiFace [0; 1; 1]%N].

End LoaderSamples.

(* ------------------------------------------------------------------ *)

Module ShaderSamples.

Import GL.
Local Open Scope string_scope.

(** Two shader files on disk, an empty file, and nothing else. *)
Definition disk (filePath : string) : option string :=
  if String.eqb filePath "shaders/vertex.glsl" then Some "void main() {}"
  else if String.eqb filePath "shaders/fragment.glsl" then Some "void main() { }"
  else if String.eqb filePath "shaders/empty.glsl" then Some ""
  else None.

(** A driver that numbers its objects by the length of the log and
    answers every status query with [compiles] and [links]. *)
Definition driver (compiles : N -> Z) (links : Z) : world :=
  World (fun calls _ => (N.of_nat (List.length calls) + 1)%N)
        (fun calls _ => compiles (N.of_nat (List.length (createdShaders calls))))
        (fun _ _ => "0:1: syntax error")
        (fun calls => (N.of_nat (List.length calls) + 1)%N)
        (fun _ _ => links)
        (fun _ _ => "missing main")
        (fun _ program name => (Z.of_N program + Z.of_nat (String.length name))%Z)
        (fun calls => (N.of_nat (List.length calls) + 1)%N)
        (fun calls => (N.of_nat (List.length calls) + 1)%N)
        disk.

(** Everything compiles and links. *)
Definition working : world := driver (fun _ => 1%Z) 1.
(** Only the first shader compiled (the vertex stage) is rejected. *)
Definition rejectsVertex : world := driver (fun n => if (n =? 1)%N then 0%Z else 1%Z) 1.
(** Both stages are rejected. *)
Definition rejectsBoth : world := driver (fun _ => 0%Z) 1.
(** Both stages compile, the program does not link. *)
Definition rejectsLink : world := driver (fun _ => 1%Z) 0.

End ShaderSamples.

Module MainSamples.

Import Main.
Local Open Scope string_scope.

(** A parser for the three shapes of command line used below. *)
Definition parser (argv : list string) : parsed :=
  match argv with
  | [_; "--help"] => VariablesMap true None
  | [_; "--help"; path] => VariablesMap true (Some path)
  | [_; path] => VariablesMap false (Some path)
  | [_] => VariablesMap false None
  | _ => ParseError "too many positional options"
  end.

(** A disk with a model file, a model file under another extension, an
    empty file and a directory whose size cannot be taken. *)
Definition disk : world :=
  World parser "STL Viewer Options"
        (fun path => Some (String.eqb path "cube.stl" || String.eqb path "cube.obj"
                           || String.eqb path "empty.stl" || String.eqb path "models"))
        (fun path => if String.eqb path "models" then None
                     else if String.eqb path "empty.stl" then Some 0%N else Some 684%N)
        (fun path => if String.eqb path "cube.stl" || String.eqb path "empty.stl"
                     then ".stl" else if String.eqb path "cube.obj" then ".obj" else "")
        true
        (fun _ => true).

End MainSamples.

(* ------------------------------------------------------------------ *)

Module ViewerSamples.

(** A viewer that has not loaded anything: no program, no buffers, an
    empty mesh. *)
Definition idle : Viewer.t :=
  Viewer.mk (STLViewer.mk Samples.emptyMesh glm.identity) Shader.new 0 0 0 0
            Samples.origin Samples.origin Samples.origin Samples.origin Samples.origin.

(** A disk on which the fragment shader file is empty. *)
Definition emptyFragment : GL.world :=
  GL.World (fun calls _ => (N.of_nat (List.length calls) + 1)%N)
           (fun _ _ => 1%Z) (fun _ _ => ""%string)
           (fun calls => (N.of_nat (List.length calls) + 1)%N)
           (fun _ _ => 1%Z) (fun _ _ => ""%string)
           (fun _ _ _ => 0%Z)
           (fun calls => (N.of_nat (List.length calls) + 1)%N)
           (fun calls => (N.of_nat (List.length calls) + 1)%N)
           (fun filePath =>
              if String.eqb filePath "shaders/vertex.glsl" then Some "void main() {}"%string
              else if String.eqb filePath "shaders/fragment.glsl" then Some ""%string
              else None).

End ViewerSamples.

(* ================================================================== *)
(** * Properties *)
(* ================================================================== *)

(** ** What a call leaves in the loader and in the caller's mesh *)

Module LoaderFacts.

Import Assimp ModelLoader LoaderSpec.
Local Open Scope string_scope.

Lemma extends_refl : forall a, extends a a.
Proof.
  intros a. split; [exists []; now rewrite app_nil_r | auto].
Qed.

Lemma extends_trans : forall a b c, extends a b -> extends b c -> extends a c.
Proof.
  intros a b c [[e1 H1] (A1 & A2 & A3 & A4)] [[e2 H2] (B1 & B2 & B3 & B4)].
  split.
  - exists (e1 ++ e2)%list. now rewrite H2, H1, app_assoc.
  - repeat split; congruence.
Qed.

Lemma extends_push_back : forall a triangle, extends a (push_back a triangle).
Proof.
  intros a triangle. split; [now exists [triangle] | now cbn].
Qed.

Lemma setError_nonempty_context : forall message context self,
    context <> "" ->
    setError message context self = (tt, mk (message ++ ": " ++ context)).
Proof.
  intros message context self H. unfold setError.
  destruct (String.eqb_spec context ""); [contradiction | reflexivity].
Qed.

(** *** [fetchVertices] / [createTriangle] *)

Lemma fetchVertices_cases : forall js face aiMesh triangle self,
    (exists triangle',
        fetchVertices js face aiMesh triangle self = ((true, triangle'), self) /\
        forall j, In j js -> (nth j (mIndices face) 0 < mNumVertices aiMesh)%N) \/
    (exists triangle' j,
        In j js /\ (mNumVertices aiMesh <= nth j (mIndices face) 0)%N /\
        fetchVertices js face aiMesh triangle self =
          ((false, triangle'), mk (invalidIndexMessage (nth j (mIndices face) 0%N)))).
Proof.
  induction js as [|j js IH]; intros face aiMesh triangle self; cbn [fetchVertices].
  - left. exists triangle. split; [reflexivity | intros j []].
  - destruct (N.leb_spec (mNumVertices aiMesh) (nth j (mIndices face) 0%N)) as [Hle|Hlt].
    + right. exists triangle, j. split; [now left | split; [assumption|]].
      unfold bind, ret, setError, invalidIndexMessage. cbn. reflexivity.
    + destruct (IH face aiMesh
                   (set_vertex triangle j
                      (to_vec3 (nth (N.to_nat (nth j (mIndices face) 0%N))
                                    (mVertices aiMesh) zero3))) self)
        as [(t' & Heq & Hall) | (t' & j' & Hin & Hbad & Heq)].
      * left. exists t'. split; [exact Heq|].
        intros k [<-|Hk]; [assumption | now apply Hall].
      * right. exists t', j'. split; [now right | now split].
Qed.

Lemma createTriangle_cases : forall face aiMesh triangle self,
    (exists triangle',
        createTriangle face aiMesh triangle self = ((true, triangle'), self) /\
        forall j, (j < 3)%nat -> (nth j (mIndices face) 0 < mNumVertices aiMesh)%N) \/
    (exists triangle' j,
        (j < 3)%nat /\ (mNumVertices aiMesh <= nth j (mIndices face) 0)%N /\
        createTriangle face aiMesh triangle self =
          ((false, triangle'), mk (invalidIndexMessage (nth j (mIndices face) 0%N)))).
Proof.
  intros face aiMesh triangle self. unfold createTriangle, bind.
  destruct (fetchVertices_cases [0; 1; 2]%nat face aiMesh triangle self)
    as [(t' & Heq & Hall) | (t' & j & Hin & Hbad & Heq)]; rewrite Heq; cbn.
  - left. destruct (HasNormals aiMesh); eexists; (split; [reflexivity|]);
      intros j Hj; apply Hall; cbn; lia.
  - right. exists t', j. repeat split; try assumption.
    cbn in Hin. lia.
Qed.

Lemma nth_in_three : forall (l : list N) j,
    N.of_nat (List.length l) = 3%N -> (j < 3)%nat -> In (nth j l 0%N) l.
Proof.
  intros l j Hlen Hj. apply nth_In. lia.
Qed.

Lemma in_three_nth : forall (l : list N) i,
    N.of_nat (List.length l) = 3%N -> In i l -> exists j, (j < 3)%nat /\ nth j l 0%N = i.
Proof.
  intros l i Hlen Hin. destruct (In_nth l i 0%N Hin) as (j & Hj & Heq).
  exists j. split; [lia | assumption].
Qed.

(** *** [processMesh] *)

Lemma extractFaces_cons : forall face faces aiMesh mesh self,
    extractFaces (face :: faces) aiMesh mesh self =
      if (mNumIndices face =? TRIANGLE_VERTICES)%N then
        match createTriangle face aiMesh emptyTriangle self with
        | ((true, triangle), self') =>
            extractFaces faces aiMesh (push_back mesh triangle) self'
        | ((false, _), self') => ((false, mesh), self')
        end
      else extractFaces faces aiMesh mesh self.
Proof.
  intros face faces am mesh self. cbn [extractFaces].
  destruct (mNumIndices face =? TRIANGLE_VERTICES)%N; [|reflexivity].
  unfold bind. destruct (createTriangle face am emptyTriangle self) as [[[] ?] ?]; reflexivity.
Qed.

Lemma extractFaces_cases : forall faces aiMesh mesh self,
    (exists mesh',
        extractFaces faces aiMesh mesh self = ((true, mesh'), self) /\
        extends mesh mesh' /\
        forall face index, In face faces -> ~ outOfRange aiMesh face index) \/
    (exists mesh' face index,
        In face faces /\ outOfRange aiMesh face index /\ extends mesh mesh' /\
        extractFaces faces aiMesh mesh self =
          ((false, mesh'), mk (invalidIndexMessage index))).
Proof.
  induction faces as [|face faces IH]; intros aiMesh mesh self.
  - left. exists mesh. split; [reflexivity|]. split; [apply extends_refl|].
    intros face index [].
  - rewrite extractFaces_cons.
    destruct (N.eqb_spec (mNumIndices face) TRIANGLE_VERTICES) as [Hthree|Hother].
    + destruct (createTriangle_cases face aiMesh emptyTriangle self)
        as [(t' & Heq & Hall) | (t' & j & Hj & Hbad & Heq)]; rewrite Heq.
      * destruct (IH aiMesh (push_back mesh t') self)
          as [(m' & Hrun & Hext & Hgood) | (m' & f & i & Hin & Hout & Hext & Hrun)].
        -- left. exists m'. split; [exact Hrun|]. split.
           ++ eapply extends_trans; [apply extends_push_back | exact Hext].
           ++ intros f i [<-|Hin]; [|now apply Hgood].
              intros (_ & Hi & Hle).
              destruct (in_three_nth _ _ Hthree Hi) as (j & Hj & <-).
              specialize (Hall j Hj). lia.
        -- right. exists m', f, i. split; [now right|]. split; [exact Hout|].
           split; [|exact Hrun].
           eapply extends_trans; [apply extends_push_back | exact Hext].
      * right. exists mesh, face, (nth j (mIndices face) 0%N).
        split; [now left|]. split.
        -- split; [assumption|]. split; [now apply nth_in_three | assumption].
        -- split; [apply extends_refl | reflexivity].
    + destruct (IH aiMesh mesh self)
        as [(m' & Hrun & Hext & Hgood) | (m' & f & i & Hin & Hout & Hext & Hrun)].
      * left. exists m'. split; [exact Hrun|]. split; [exact Hext|].
        intros f i [<-|Hin]; [|now apply Hgood].
        intros (Hthree & _). contradiction.
      * right. exists m', f, i. split; [now right|]. split; [exact Hout|].
        split; [exact Hext | exact Hrun].
Qed.

Lemma setError_meshIndex : forall message mesh self,
    setError message (meshIndexContext mesh) self =
      (tt, mk (message ++ ": " ++ meshIndexContext mesh)).
Proof.
  intros. apply setError_nonempty_context. unfold meshIndexContext. cbn. discriminate.
Qed.

Lemma processMesh_cases : forall aiMesh mesh self,
    (exists mesh',
        processMesh aiMesh mesh self = ((true, mesh'), self) /\
        extends mesh mesh' /\ wellFormed aiMesh) \/
    (exists mesh' self',
        processMesh aiMesh mesh self = ((false, mesh'), self') /\
        extends mesh mesh' /\ sceneFailure [aiMesh] self' /\
        (HasFaces aiMesh = false -> mesh' = mesh /\ self' = mk (noFaceDataMessage mesh))).
Proof.
  intros aiMesh mesh self. unfold processMesh.
  destruct (HasFaces aiMesh) eqn:Hf; cbn [negb].
  - destruct (HasPositions aiMesh) eqn:Hp; cbn [negb].
    + destruct (extractFaces_cases (mFaces aiMesh) aiMesh mesh self)
        as [(m' & Hrun & Hext & Hgood) | (m' & f & i & Hin & Hout & Hext & Hrun)].
      * left. exists m'. split; [exact Hrun|]. split; [exact Hext|].
        unfold wellFormed. auto.
      * right. exists m', (mk (invalidIndexMessage i)).
        split; [exact Hrun|]. split; [exact Hext|]. split; [|discriminate].
        right. right. exists aiMesh, f, i. split; [now left|]. split; [exact Hin|].
        split; [exact Hout | reflexivity].
    + right. exists mesh, (mk (noPositionDataMessage mesh)).
      unfold bind. rewrite setError_meshIndex. split; [reflexivity|].
      split; [apply extends_refl|]. split; [|discriminate].
      right. left. exists aiMesh, mesh. split; [now left | now split].
  - right. exists mesh, (mk (noFaceDataMessage mesh)).
    unfold bind. rewrite setError_meshIndex. split; [reflexivity|].
    split; [apply extends_refl|]. split; [|now split].
    left. exists aiMesh, mesh. split; [now left | now split].
Qed.

(** *** [processScene] *)

Lemma sceneFailure_cons : forall a meshes self,
    sceneFailure meshes self -> sceneFailure (a :: meshes) self.
Proof.
  intros a meshes self [(m & x & Hin & H) | [(m & x & Hin & H) | (m & f & i & Hin & H)]].
  - left. exists m, x. split; [now right | exact H].
  - right. left. exists m, x. split; [now right | exact H].
  - right. right. exists m, f, i. split; [now right | exact H].
Qed.

Lemma sceneFailure_head : forall a meshes self,
    sceneFailure [a] self -> sceneFailure (a :: meshes) self.
Proof.
  intros a meshes self [(m & x & [<-|[]] & H) | [(m & x & [<-|[]] & H) | (m & f & i & [<-|[]] & H)]].
  - left. exists a, x. split; [now left | exact H].
  - right. left. exists a, x. split; [now left | exact H].
  - right. right. exists a, f, i. split; [now left | exact H].
Qed.

Lemma processMeshes_cons : forall aiMesh meshes mesh self,
    processMeshes (aiMesh :: meshes) mesh self =
      match processMesh aiMesh mesh self with
      | ((true, mesh'), self') => processMeshes meshes mesh' self'
      | ((false, mesh'), self') => ((false, mesh'), self')
      end.
Proof.
  intros am meshes mesh self. cbn [processMeshes]. unfold bind.
  destruct (processMesh am mesh self) as [[[] ?] ?]; reflexivity.
Qed.

Lemma processMeshes_cases : forall meshes mesh self,
    (exists mesh',
        processMeshes meshes mesh self = ((true, mesh'), self) /\
        extends mesh mesh' /\ Forall wellFormed meshes) \/
    (exists mesh' self',
        processMeshes meshes mesh self = ((false, mesh'), self') /\
        extends mesh mesh' /\ sceneFailure meshes self').
Proof.
  induction meshes as [|a meshes IH]; intros mesh self.
  - left. exists mesh. split; [reflexivity|]. split; [apply extends_refl | constructor].
  - rewrite processMeshes_cons.
    destruct (processMesh_cases a mesh self)
      as [(m1 & Hrun & Hext & Hwf) | (m1 & s1 & Hrun & Hext & Hfail & _)]; rewrite Hrun.
    + destruct (IH m1 self)
        as [(m2 & Hrun2 & Hext2 & Hall) | (m2 & s2 & Hrun2 & Hext2 & Hfail2)].
      * left. exists m2. split; [exact Hrun2|]. split.
        -- eapply extends_trans; eassumption.
        -- now constructor.
      * right. exists m2, s2. split; [exact Hrun2|]. split.
        -- eapply extends_trans; eassumption.
        -- now apply sceneFailure_cons.
    + right. exists m1, s1. split; [reflexivity|]. split; [exact Hext|].
      now apply sceneFailure_head.
Qed.

End LoaderFacts.

(** ** What [processScene] puts into the caller's mesh *)

Module ExtractionFacts.

Import Assimp ModelLoader LoaderSpec LoaderFacts.

(** The outcome of [createTriangle] does not depend on the message the
    loader holds. *)
Lemma fetchVertices_result : forall js face am triangle self self',
  fst (fetchVertices js face am triangle self) =
    fst (fetchVertices js face am triangle self').
Proof.
  induction js as [|j js IH]; intros face am triangle self self'; cbn [fetchVertices].
  - reflexivity.
  - destruct (mNumVertices am <=? nth j (mIndices face) 0)%N; [reflexivity | apply IH].
Qed.

Lemma createTriangle_result : forall face am triangle self self',
  fst (createTriangle face am triangle self) =
    fst (createTriangle face am triangle self').
Proof.
  intros face am triangle self self'. unfold createTriangle, bind.
  pose proof (fetchVertices_result [0; 1; 2]%nat face am triangle self self') as H.
  destruct (fetchVertices [0; 1; 2]%nat face am triangle self) as [[ok t1] s1].
  destruct (fetchVertices [0; 1; 2]%nat face am triangle self') as [[ok' t2] s2].
  cbn [fst] in H. injection H as <- <-.
  destruct ok; cbn [negb]; [destruct (HasNormals am)|]; reflexivity.
Qed.

Lemma createTriangle_spec : forall face am self,
  fst (createTriangle face am emptyTriangle self) = (inRange am face, triangleOf am face).
Proof.
  intros face am self. unfold inRange, triangleOf.
  rewrite (createTriangle_result face am emptyTriangle self (mk "")).
  now destruct (fst (createTriangle face am emptyTriangle (mk ""))).
Qed.

Lemma extractFaces_triangles : forall faces am mesh self,
  fst (fst (extractFaces faces am mesh self)) = snd (faceTriangles am faces) /\
  triangles (snd (fst (extractFaces faces am mesh self))) =
    triangles mesh ++ fst (faceTriangles am faces).
Proof.
  induction faces as [|face faces IH]; intros am mesh self.
  - cbn. now rewrite app_nil_r.
  - rewrite extractFaces_cons. cbn [faceTriangles].
    destruct (mNumIndices face =? TRIANGLE_VERTICES)%N; [|apply IH].
    pose proof (createTriangle_spec face am self) as Hspec.
    destruct (createTriangle face am emptyTriangle self) as [[ok triangle] self1].
    cbn [fst] in Hspec. injection Hspec as -> ->.
    destruct (inRange am face).
    + destruct (IH am (push_back mesh (triangleOf am face)) self1) as [Hok Htri].
      destruct (faceTriangles am faces) as [rest ok]. cbn [fst snd] in *.
      split; [exact Hok|]. rewrite Htri. cbn [push_back triangles].
      now rewrite <- app_assoc.
    + cbn. now rewrite app_nil_r.
Qed.

Lemma processMesh_triangles : forall am mesh self,
  fst (fst (processMesh am mesh self)) = snd (meshTriangles am) /\
  triangles (snd (fst (processMesh am mesh self))) =
    triangles mesh ++ fst (meshTriangles am).
Proof.
  intros am mesh self. unfold processMesh, meshTriangles.
  destruct (HasFaces am); cbn [negb andb].
  - destruct (HasPositions am); cbn [negb].
    + apply extractFaces_triangles.
    + unfold bind. rewrite setError_meshIndex. cbn. now rewrite app_nil_r.
  - unfold bind. rewrite setError_meshIndex. cbn. now rewrite app_nil_r.
Qed.

Lemma processMeshes_triangles : forall meshes mesh self,
  fst (fst (processMeshes meshes mesh self)) = snd (sceneTriangles meshes) /\
  triangles (snd (fst (processMeshes meshes mesh self))) =
    triangles mesh ++ fst (sceneTriangles meshes).
Proof.
  induction meshes as [|am meshes IH]; intros mesh self.
  - cbn. now rewrite app_nil_r.
  - rewrite processMeshes_cons. cbn [sceneTriangles].
    destruct (processMesh_triangles am mesh self) as [Hok Htri].
    destruct (processMesh am mesh self) as [[ok mesh1] self1]. cbn [fst snd] in Hok, Htri.
    destruct (meshTriangles am) as [first ok1]. cbn [fst snd] in Hok, Htri. subst ok1.
    destruct ok.
    + destruct (IH mesh1 self1) as [Hok2 Htri2].
      destruct (sceneTriangles meshes) as [rest ok2]. cbn [fst snd] in *.
      split; [exact Hok2|]. rewrite Htri2, Htri. now rewrite <- app_assoc.
    + cbn [fst snd]. split; [reflexivity | exact Htri].
Qed.

End ExtractionFacts.

(** ** [loadFile] *)

Section LoadFile.

Import Assimp ModelLoader LoaderSpec LoaderFacts ExtractionFacts.
Local Open Scope string_scope.

Variable ReadFile : string -> ReadResult.

Lemma loadFile_unfold : forall filePath mesh self,
    loadFile ReadFile filePath mesh self =
      match ReadFile filePath with
      | Null errorString =>
          ((false, mesh), snd (setError "Failed to load 3D model" errorString (mk "")))
      | Scene scene =>
          if HasMeshes scene then
            match processMeshes (mMeshes scene) mesh (mk "") with
            | ((true, mesh'), self') =>
                match triangles mesh' with
                | [] => ((false, mesh'), mk noTriangleMessage)
                | _ :: _ => ((true, normalize mesh'), self')
                end
            | ((false, mesh'), self') => ((false, mesh'), self')
            end
          else ((false, mesh), mk noMeshDataMessage)
      end.
Proof.
  intros filePath mesh self.
  unfold loadFile, loadFileWithAssimp, validateScene, validateProcessedMesh,
    processScene, clearError, bind, ret.
  destruct (ReadFile filePath) as [scene|errorString].
  - destruct (HasMeshes scene); cbn [negb].
    + destruct (processMeshes (mMeshes scene) mesh (mk "")) as [[[] m'] s']; cbn [negb].
      * destruct (triangles m'); reflexivity.
      * reflexivity.
    + reflexivity.
  - destruct (setError "Failed to load 3D model" errorString (mk "")). reflexivity.
Qed.

Lemma loadFile_success : forall filePath mesh self mesh' self',
    loadFile ReadFile filePath mesh self = ((true, mesh'), self') ->
    self' = mk "" /\ triangles mesh' <> [].
Proof.
  intros filePath mesh self mesh' self'. rewrite loadFile_unfold.
  destruct (ReadFile filePath) as [scene|errorString]; [|discriminate].
  destruct (HasMeshes scene); [|discriminate].
  destruct (processMeshes_cases (mMeshes scene) mesh (mk ""))
    as [(m1 & Hrun & _) | (m1 & s1 & Hrun & _)]; rewrite Hrun; [|discriminate].
  destruct (triangles m1) as [|first rest] eqn:Htri; [discriminate|].
  intros H. injection H as <- <-. split; [reflexivity|].
  unfold normalize, calculateCenterAndScale, calculateBounds. rewrite Htri.
  destruct (fold_left _ _ _) as [lo hi]. cbn. rewrite Htri.
  destruct (F32.ltb _ _); cbn; rewrite Htri; discriminate.
Qed.

(** C10.  Whatever calls were made on a loader before, and whatever
    message they left in it, a [loadFile] call that returns true leaves
    [getErrorMessage()] empty: the message is cleared on entry and no
    step of a successful load sets it. *)
Theorem loadFile_success_clears_error :
  forall (calls : list (string * ModelMesh)) (self : t) filePath mesh mesh' self',
    loadFile ReadFile filePath mesh (loadFiles ReadFile calls self) = ((true, mesh'), self') ->
    getErrorMessage self' = "".
Proof.
  intros calls self filePath mesh mesh' self' H.
  apply loadFile_success in H. destruct H as [-> _]. reflexivity.
Qed.

(** C6.  A parsed scene without meshes, or whose meshes have no faces,
    makes [loadFile] return false with the "no mesh data" / "no face
    data" message and leaves the caller's mesh as it was; an empty
    triangle list fails [validateProcessedMesh]; and a [loadFile] that
    returns true never hands back an empty triangle list. *)
Theorem loadFile_rejects_empty_scene :
  (forall filePath mesh self scene,
      ReadFile filePath = Scene scene ->
      (forall aiMesh, In aiMesh (mMeshes scene) -> mNumFaces aiMesh = 0%N) ->
      exists self',
        loadFile ReadFile filePath mesh self = ((false, mesh), self') /\
        (getErrorMessage self' = noMeshDataMessage \/
         getErrorMessage self' = noFaceDataMessage mesh)) /\
  (forall mesh self,
      triangles mesh = [] ->
      validateProcessedMesh mesh self = (false, mk noTriangleMessage)) /\
  (forall filePath mesh self mesh' self',
      loadFile ReadFile filePath mesh self = ((true, mesh'), self') ->
      triangles mesh' <> []).
Proof.
  split; [|split].
  - intros filePath mesh self scene Hread Hnofaces.
    rewrite loadFile_unfold, Hread.
    destruct (HasMeshes scene) eqn:Hhas.
    + destruct (mMeshes scene) as [|first rest] eqn:Hmeshes.
      * unfold HasMeshes, mNumMeshes in Hhas. rewrite Hmeshes in Hhas. discriminate.
      * rewrite processMeshes_cons.
        assert (Hf : HasFaces first = false).
        { unfold HasFaces. rewrite (Hnofaces first (or_introl eq_refl)). reflexivity. }
        destruct (processMesh_cases first mesh (mk ""))
          as [(m1 & _ & _ & Hwf) | (m1 & s1 & Hrun & _ & _ & Hsame)].
        -- destruct Hwf as [Hwf _]. congruence.
        -- destruct (Hsame Hf) as [-> ->]. rewrite Hrun.
           eexists. split; [reflexivity | now right].
    + eexists. split; [reflexivity | now left].
  - intros mesh self Hempty. unfold validateProcessedMesh. rewrite Hempty. reflexivity.
  - intros filePath mesh self mesh' self' H. now apply loadFile_success in H.
Qed.

(** C2, as the code has it.  When a three-index face of some mesh names
    a vertex index at or beyond that mesh's vertex count, [loadFile]
    returns false and records why processing stopped; that reason is the
    invalid-index message whenever every mesh of the scene has faces and
    positions.  The caller's mesh keeps its derived fields and its
    triangles, followed by the triangles extracted before the failure. *)
Theorem loadFile_invalid_index :
  forall filePath mesh self scene aiMesh face index,
    ReadFile filePath = Scene scene ->
    In aiMesh (mMeshes scene) -> In face (mFaces aiMesh) ->
    outOfRange aiMesh face index ->
    exists mesh' self',
      loadFile ReadFile filePath mesh self = ((false, mesh'), self') /\
      extends mesh mesh' /\
      triangles mesh' = (triangles mesh ++ fst (sceneTriangles (mMeshes scene)))%list /\
      sceneFailure (mMeshes scene) self' /\
      ((forall m, In m (mMeshes scene) -> HasFaces m = true /\ HasPositions m = true) ->
       exists m f i,
         In m (mMeshes scene) /\ In f (mFaces m) /\ outOfRange m f i /\
         getErrorMessage self' = invalidIndexMessage i).
Proof.
  intros filePath mesh self scene am face index Hread Hmesh Hface Hout.
  rewrite loadFile_unfold, Hread.
  assert (Hhas : HasMeshes scene = true).
  { unfold HasMeshes, mNumMeshes. destruct (mMeshes scene); [contradiction | reflexivity]. }
  rewrite Hhas.
  destruct (processMeshes_cases (mMeshes scene) mesh (mk ""))
    as [(m1 & _ & _ & Hall) | (m1 & s1 & Hrun & Hext & Hfail)].
  - rewrite Forall_forall in Hall. destruct (Hall am Hmesh) as (_ & _ & Hgood).
    exfalso. exact (Hgood face index Hface Hout).
  - pose proof (proj2 (processMeshes_triangles (mMeshes scene) mesh (mk ""))) as Htri.
    rewrite Hrun in Htri |- *. cbn [fst snd] in Htri.
    exists m1, s1. split; [reflexivity|]. split; [exact Hext|].
    split; [exact Htri|]. split; [exact Hfail|]. intros Hfull.
    destruct Hfail as [(m & x & Hin & Hno & _) | [(m & x & Hin & Hno & _) | (m & f & i & Hin & Hf & Ho & ->)]].
    + destruct (Hfull m Hin) as [Hyes _]. congruence.
    + destruct (Hfull m Hin) as [_ Hyes]. congruence.
    + exists m, f, i. split; [exact Hin|]. split; [exact Hf|].
      split; [exact Ho | reflexivity].
Qed.

End LoadFile.

(** C10, on a concrete history: a load that fails in the parser, then a
    successful load of a one-triangle file on the same loader. *)
Lemma loadFile_success_clears_error_witness :
  ModelLoader.getErrorMessage
    (snd (ModelLoader.loadFile Samples.readsByName "model.stl" Samples.emptyMesh
            (ModelLoader.loadFiles Samples.readsByName
               [("broken.stl"%string, Samples.emptyMesh)] (ModelLoader.mk "")))) = ""%string.
Proof.
  destruct (ModelLoader.loadFile Samples.readsByName "model.stl" Samples.emptyMesh
              (ModelLoader.loadFiles Samples.readsByName
                 [("broken.stl"%string, Samples.emptyMesh)] (ModelLoader.mk "")))
    as [[ok mesh'] self'] eqn:Hrun.
  assert (Hok : ok = true) by (vm_compute in Hrun; congruence).
  subst ok.
  exact (loadFile_success_clears_error _ _ _ _ _ _ _ Hrun).
Defined.

(** C6 on a scene whose single mesh has vertices but no face. *)
Lemma loadFile_rejects_empty_scene_witness :
  exists self',
    ModelLoader.loadFile (Samples.reads [Samples.faceless]) "empty.stl"
      Samples.emptyMesh (ModelLoader.mk "") = ((false, Samples.emptyMesh), self') /\
    (ModelLoader.getErrorMessage self' = LoaderSpec.noMeshDataMessage \/
     ModelLoader.getErrorMessage self' = LoaderSpec.noFaceDataMessage Samples.emptyMesh).
Proof.
  apply (proj1 (loadFile_rejects_empty_scene (Samples.reads [Samples.faceless]))
           "empty.stl"%string Samples.emptyMesh (ModelLoader.mk "")
           (Assimp.AiScene [Samples.faceless]) eq_refl).
  intros aiMesh [<-|[]]. reflexivity.
Defined.

(** C2 on a scene whose second face names vertex 5 of a 3-vertex mesh. *)
Lemma loadFile_invalid_index_witness :
  exists mesh' self',
    ModelLoader.loadFile (Samples.reads [Samples.badSecondFace]) "model.stl"
      Samples.emptyMesh (ModelLoader.mk "") = ((false, mesh'), self') /\
    LoaderSpec.extends Samples.emptyMesh mesh' /\
    triangles mesh' =
      (triangles Samples.emptyMesh ++
       fst (LoaderSpec.sceneTriangles [Samples.badSecondFace]))%list /\
    LoaderSpec.sceneFailure [Samples.badSecondFace] self' /\
    ((forall m, In m [Samples.badSecondFace] ->
        Assimp.HasFaces m = true /\ Assimp.HasPositions m = true) ->
     exists m f i,
       In m [Samples.badSecondFace] /\ In f (Assimp.mFaces m) /\
       LoaderSpec.outOfRange m f i /\
       ModelLoader.getErrorMessage self' = LoaderSpec.invalidIndexMessage i).
Proof.
  apply (loadFile_invalid_index (Samples.reads [Samples.badSecondFace])
           "model.stl"%string Samples.emptyMesh (ModelLoader.mk "")
           (Assimp.AiScene [Samples.badSecondFace]) Samples.badSecondFace
           (Assimp.AiFace [0; 1; 5]%N) 5%N eq_refl).
  - left. reflexivity.
  - right. left. reflexivity.
  - split; [reflexivity|]. split; [right; right; left; reflexivity|].
    vm_compute. discriminate.
Defined.

(** C2 as stated fails: the scene's second face names vertex 5 of a
    3-vertex mesh, [loadFile] returns false with the invalid-index
    message, and the caller's mesh, empty before the call, holds the
    triangle of the first face afterwards. *)
Lemma invalid_index_leaves_partial_mesh :
  let result :=
    ModelLoader.loadFile (Samples.reads [Samples.badSecondFace]) "model.stl"
      Samples.emptyMesh (ModelLoader.mk "") in
  LoaderSpec.outOfRange Samples.badSecondFace (Assimp.AiFace [0; 1; 5]%N) 5%N /\
  fst (fst result) = false /\
  ModelLoader.getErrorMessage (snd result) = LoaderSpec.invalidIndexMessage 5%N /\
  triangles Samples.emptyMesh = [] /\
  List.length (triangles (snd (fst result))) = 1%nat /\
  triangles (snd (fst result)) =
    [LoaderSpec.triangleOf Samples.badSecondFace (Assimp.AiFace [0; 1; 2]%N)] /\
  ~ triangles (snd (fst result)) = triangles Samples.emptyMesh.
Proof.
  cbv zeta. split.
  - split; [reflexivity|]. split; [right; right; left; reflexivity|].
    vm_compute. discriminate.
  - split; [vm_compute; reflexivity|]. split; [vm_compute; reflexivity|].
    split; [reflexivity|]. split; [vm_compute; reflexivity|].
    split; [vm_compute; reflexivity|].
    vm_compute. discriminate.
Qed.

(** ** The vertex buffers *)

Module BufferFacts.

Import STLViewer.

Lemma fold_left_append : forall (A B : Type) (f : A -> list B) (l : list A) (start : list B),
  fold_left (fun buffer a => buffer ++ f a) l start = start ++ flat_map f l.
Proof.
  intros A B f l. induction l as [|a l IH]; intros start; cbn.
  - now rewrite app_nil_r.
  - now rewrite IH, app_assoc.
Qed.

Lemma convertSTLToVertices_flat : forall self,
  convertSTLToVertices self =
    flat_map (fun triangle => flat_map (vertexArray triangle) (vertices triangle))
             (triangles (mesh self)).
Proof.
  intros self. unfold convertSTLToVertices.
  rewrite <- (app_nil_l (flat_map _ _)). generalize (@nil F32.float).
  induction (triangles (mesh self)) as [|triangle rest IH]; intros start; cbn.
  - now rewrite app_nil_r.
  - rewrite IH. cbn. now rewrite <- !app_assoc.
Qed.

Section Chunks.

Variables (A B : Type) (f : A -> list B) (n : nat).
Hypothesis chunk_length : forall a, List.length (f a) = n.

Lemma flat_map_chunks_length : forall l,
  List.length (flat_map f l) = (n * List.length l)%nat.
Proof.
  induction l as [|a l IH]; cbn; [lia|].
  rewrite length_app, IH, chunk_length. lia.
Qed.

Lemma flat_map_chunk_at : forall l k a,
  nth_error l k = Some a ->
  exists rest, skipn (n * k) (flat_map f l) = f a ++ rest.
Proof.
  induction l as [|b l IH]; intros k a Hk.
  - destruct k; discriminate.
  - destruct k as [|k]; cbn in Hk.
    + injection Hk as ->. rewrite Nat.mul_0_r. cbn. now exists (flat_map f l).
    + destruct (IH k a Hk) as [rest Hrest]. exists rest.
      cbn [flat_map]. replace (n * S k)%nat with (List.length (f b) + n * k)%nat
        by (rewrite chunk_length; lia).
      rewrite skipn_app, (skipn_all2 (f b)) by lia. cbn [app].
      replace (List.length (f b) + n * k - List.length (f b))%nat with (n * k)%nat by lia.
      exact Hrest.
Qed.

End Chunks.

End BufferFacts.

Section VertexBuffer.

Import STLViewer BufferFacts.

Lemma triangle_chunk_length : forall triangle,
  List.length (flat_map (vertexArray triangle) (vertices triangle)) = 27%nat.
Proof. reflexivity. Qed.

(** C7.  The mesh buffer has 27 floats per triangle; the nine floats of
    vertex [j] of triangle [k] start at float [27 k + 9 j] and are the
    position, the constant model colour, and the triangle's normal; for a
    one-triangle mesh that is 27 floats with the normal at [6,9), [15,18)
    and [24,27). *)
Theorem vertex_buffer_layout :
  (forall self,
      List.length (convertSTLToVertices self) =
        (27 * List.length (triangles (mesh self)))%nat) /\
  (forall self k j triangle vertex,
      nth_error (triangles (mesh self)) k = Some triangle ->
      nth_error (vertices triangle) j = Some vertex ->
      slice (27 * k + 9 * j) (27 * k + 9 * j + 9) (convertSTLToVertices self) =
        [ glm.x vertex; glm.y vertex; glm.z vertex;
          MODEL_COLOR_R; MODEL_COLOR_G; MODEL_COLOR_B;
          glm.x (normal triangle); glm.y (normal triangle); glm.z (normal triangle) ]) /\
  (forall self triangle,
      triangles (mesh self) = [triangle] ->
      List.length (convertSTLToVertices self) = 27%nat /\
      slice 6 9 (convertSTLToVertices self) = glm.components (normal triangle) /\
      slice 15 18 (convertSTLToVertices self) = glm.components (normal triangle) /\
      slice 24 27 (convertSTLToVertices self) = glm.components (normal triangle)).
Proof.
  split; [|split].
  - intros self. rewrite convertSTLToVertices_flat.
    exact (flat_map_chunks_length _ _
             (fun triangle => flat_map (vertexArray triangle) (vertices triangle))
             27 triangle_chunk_length _).
  - intros self k j triangle vertex Hk Hj.
    rewrite convertSTLToVertices_flat. unfold slice.
    replace (27 * k + 9 * j + 9 - (27 * k + 9 * j))%nat with 9%nat by lia.
    rewrite (Nat.add_comm (27 * k)), <- skipn_skipn.
    destruct (flat_map_chunk_at _ _
                (fun triangle => flat_map (vertexArray triangle) (vertices triangle))
                27 triangle_chunk_length _ _ _ Hk) as [rest ->].
    destruct j as [|[|[|j]]]; cbn in Hj; try (injection Hj as <-; reflexivity).
    destruct j; discriminate.
  - intros self triangle Hone. rewrite convertSTLToVertices_flat, Hone.
    repeat split.
Qed.

End VertexBuffer.

(** C7 on the buffer of the one-triangle sample: second vertex. *)
Lemma vertex_buffer_layout_witness :
  let triangle :=
    mkTriangle (glm.Vec3 F32.zero F32.zero F32.one)
               Samples.origin (glm.Vec3 F32.one F32.zero F32.zero)
               (glm.Vec3 F32.zero F32.one F32.zero) in
  let self :=
    STLViewer.mk (mkMesh [triangle] Samples.origin Samples.origin Samples.origin F32.one)
                 glm.identity in
  STLViewer.slice 9 18 (STLViewer.convertSTLToVertices self) =
    [ F32.one; F32.zero; F32.zero;
      F32.point_eight; F32.point_eight; F32.point_eight;
      F32.zero; F32.zero; F32.one ] /\
  List.length (STLViewer.convertSTLToVertices self) = 27%nat.
Proof.
  intros triangle self. split.
  - exact (proj1 (proj2 vertex_buffer_layout) self 0%nat 1%nat triangle
             (glm.Vec3 F32.one F32.zero F32.zero) eq_refl eq_refl).
  - exact (proj1 (proj2 (proj2 vertex_buffer_layout) self triangle eq_refl)).
Defined.

Section AxesBuffer.

Import STLViewer ViewerSpec.

(** C8, as the code has it.  Whatever the viewer holds, the axes buffer is
    54 floats: three segments from the origin, along +X in red, +Y in
    green and +Z in blue, mutually orthogonal, each of length
    [AXIS_LENGTH] = 2.0. *)
Theorem axes_buffer_segments :
  forall self,
    let buffer := createAxesVertices self in
    List.length buffer = (3 * 2 * VERTEX_COMPONENTS)%nat /\
    segmentAt buffer 0 = axis (alongX AXIS_LENGTH) red /\
    segmentAt buffer 1 = axis (alongY AXIS_LENGTH) green /\
    segmentAt buffer 2 = axis (alongZ AXIS_LENGTH) blue /\
    AXIS_LENGTH = F32.two /\
    distance origin (alongX AXIS_LENGTH) = F32.two /\
    distance origin (alongY AXIS_LENGTH) = F32.two /\
    distance origin (alongZ AXIS_LENGTH) = F32.two /\
    glm.dot (alongX AXIS_LENGTH) (alongY AXIS_LENGTH) = F32.zero /\
    glm.dot (alongY AXIS_LENGTH) (alongZ AXIS_LENGTH) = F32.zero /\
    glm.dot (alongZ AXIS_LENGTH) (alongX AXIS_LENGTH) = F32.zero.
Proof.
  intros self buffer. subst buffer. unfold createAxesVertices.
  repeat split; vm_compute; reflexivity.
Qed.

End AxesBuffer.

(** C8 as stated fails: the X segment of the axes buffer ends at (2,0,0),
    at distance 2.0 from the origin, not at the unit point (1,0,0). *)
Lemma axes_are_not_unit_length :
  let buffer := STLViewer.createAxesVertices (STLViewer.mk Samples.emptyMesh glm.identity) in
  STLViewer.segmentAt buffer 0 = ViewerSpec.axis (ViewerSpec.alongX F32.two) ViewerSpec.red /\
  STLViewer.distance ViewerSpec.origin (STLViewer.positionAt buffer 1) = F32.two /\
  F32.two <> F32.one /\
  STLViewer.segmentAt buffer 0 <> ViewerSpec.axis (ViewerSpec.alongX F32.one) ViewerSpec.red.
Proof.
  cbv zeta. repeat split; try (vm_compute; reflexivity); vm_compute; discriminate.
Qed.

(** ** Normalisation *)

Section Normalisation.

Import ModelLoader.

Lemma normalize_cons : forall first rest lo hi c s,
  normalize (mkMesh (first :: rest) lo hi c s) =
    let box :=
      fold_left (fun box triangle => fold_left expandBounds (vertices triangle) box)
                (first :: rest) (vertex0 first, vertex0 first) in
    let size := glm.sub (snd box) (fst box) in
    let maxSize := F32.max3 (glm.x size) (glm.y size) (glm.z size) in
    mkMesh (first :: rest) (fst box) (snd box)
           (glm.scale_by (glm.add (fst box) (snd box)) CENTER_CALCULATION_FACTOR)
           (if F32.ltb EPSILON maxSize then F32.div DEFAULT_SCALE maxSize
            else DEFAULT_SCALE).
Proof.
  intros first rest lo hi c s.
  unfold normalize, calculateBounds. cbn [triangles].
  destruct (fold_left _ (first :: rest) _) as [lo' hi'].
  unfold calculateCenterAndScale, set_bounds, set_center_scale. cbn.
  destruct (F32.ltb _ _); reflexivity.
Qed.

Lemma normalize_nil : forall lo hi c s,
  normalize (mkMesh [] lo hi c s) = mkMesh [] lo hi c s.
Proof. reflexivity. Qed.

(** C9.  Running the bounds / centre / scale computation on its own
    result, the triangle data untouched, gives the same mesh: the same
    [min_bounds], [max_bounds], [center] and [scale]. *)
Theorem normalize_idempotent :
  forall mesh, normalize (normalize mesh) = normalize mesh.
Proof.
  intros [[|first rest] lo hi c s].
  - reflexivity.
  - rewrite (normalize_cons first rest lo hi c s). cbv zeta.
    rewrite normalize_cons. reflexivity.
Qed.

End Normalisation.

(** ** The model matrix *)

Section ModelMatrix.

Import STLViewer ViewerSpec.

Lemma sub_self : forall a, F32.is_finite a = true -> F32.sub a a = F32.zero.
Proof.
  intros [s|s| |s m e]; try discriminate; intros _.
  - destruct s; reflexivity.
  - unfold F32.sub, SFsub. rewrite Z.sub_diag. reflexivity.
Qed.

(** C5, what the code does.  When the bounding box has no extent (equal,
    finite corners), the scale factor [updateModelMatrix] derives from the
    largest dimension is 1.5 / 0 = +infinity: the division is not guarded. *)
Theorem degenerate_box_scale_is_infinite :
  forall self,
    F32.is_finite (glm.x (min_bounds (mesh self))) = true ->
    F32.is_finite (glm.y (min_bounds (mesh self))) = true ->
    F32.is_finite (glm.z (min_bounds (mesh self))) = true ->
    max_bounds (mesh self) = min_bounds (mesh self) ->
    maxDimension self = F32.zero /\
    modelScale self = F32.infinity /\
    F32.is_finite (modelScale self) = false.
Proof.
  intros self Hx Hy Hz Hsame.
  assert (Hdim : maxDimension self = F32.zero).
  { unfold maxDimension, objectSize. rewrite Hsame. cbn.
    rewrite !sub_self by assumption. reflexivity. }
  unfold modelScale. rewrite Hdim. repeat split.
Qed.

End ModelMatrix.

(** C5 on a loaded file whose only triangle has its three corners at
    (1,1,1): the loader's policy gives [scale] = 1.0, the viewer's own
    factor is +infinity and the model matrix it builds holds NaN. *)
Lemma degenerate_box_scale_is_infinite_witness :
  scale (Samples.loaded [Samples.collapsed]) = F32.one /\
  STLViewer.modelScale (Samples.viewing [Samples.collapsed]) = F32.infinity /\
  F32.is_finite (STLViewer.modelScale (Samples.viewing [Samples.collapsed])) = false /\
  glm.x4 (glm.col3 (STLViewer.model
                     (STLViewer.updateModelMatrix (Samples.viewing [Samples.collapsed]))))
    = S754_nan.
Proof.
  split; [vm_compute; reflexivity|].
  split; [|split].
  - apply (degenerate_box_scale_is_infinite (Samples.viewing [Samples.collapsed]));
      vm_compute; reflexivity.
  - apply (degenerate_box_scale_is_infinite (Samples.viewing [Samples.collapsed]));
      vm_compute; reflexivity.
  - vm_compute. reflexivity.
Defined.

(** C1, what the code does.  For the loaded triangle (0,0,0), (3,0,0),
    (0,3,3) the box is [0,3]^3, its centre (1.5,1.5,1.5) and the viewer's
    factor 1.5 / 3 = 0.5.  The model matrix is scale * translate, so a
    vertex is first moved by -center * 0.5 and then scaled: the centre
    lands at (0.375, 0.375, 0.375), not at the origin, and the corner
    (0,0,0) at (-0.375, ...) instead of (0 - 1.5) * 0.5 = -0.75. *)
Theorem model_matrix_misplaces_center :
  let self := Samples.viewing [Samples.oneTriangle] in
  let eighths (n : Z) := F32.div (F32.of_Z n) (F32.of_Z 8%Z) in
  center (STLViewer.mesh self) = glm.splat (F32.of_ratio 3%Z 2%Z) /\
  STLViewer.modelScale self = F32.half /\
  ViewerSpec.placed self (center (STLViewer.mesh self)) = glm.splat (eighths 3%Z) /\
  ViewerSpec.placed self (center (STLViewer.mesh self)) <> ViewerSpec.origin /\
  ViewerSpec.placed self ViewerSpec.origin = glm.splat (eighths (-3)%Z) /\
  ViewerSpec.recentred (STLViewer.mesh self) (STLViewer.modelScale self) ViewerSpec.origin
    = glm.splat (eighths (-6)%Z) /\
  ViewerSpec.placed self ViewerSpec.origin <>
    ViewerSpec.recentred (STLViewer.mesh self) (STLViewer.modelScale self) ViewerSpec.origin /\
  ViewerSpec.placed self ViewerSpec.origin <>
    ViewerSpec.recentred (STLViewer.mesh self) (scale (STLViewer.mesh self)) ViewerSpec.origin.
Proof.
  cbv zeta. repeat split; try (vm_compute; reflexivity); vm_compute; discriminate.
Qed.

(** ** The float literals of the sources *)

(** Each constant is the binary32 number nearest to the decimal literal
    written in the C++ source. *)
Lemma literal_values :
  F32.one = F32.of_Z 1 /\ F32.two = F32.of_Z 2 /\
  F32.half = F32.of_ratio 1 2 /\ F32.one_and_half = F32.of_ratio 3 2 /\
  F32.point_eight = F32.of_ratio 8 10 /\ F32.micro = F32.of_ratio 1 1000000 /\
  F32.valid F32.max_float = true /\
  F32.add F32.max_float F32.max_float = F32.infinity.
Proof. repeat split; vm_compute; reflexivity. Qed.

(** ** The order on floats, and folds of [std::min] / [std::max] *)

Module F32Order.

Import F32Spec.
Local Open Scope Z_scope.

Ltac order_cases :=
  cbn; try discriminate;
  repeat match goal with
  | |- context [Z.compare ?a ?b] => destruct (Z.compare_spec a b)
  | |- context [Pos.compare_cont Eq ?a ?b] =>
      change (Pos.compare_cont Eq a b) with (Pos.compare a b);
      destruct (Pos.compare_spec a b)
  end;
  cbn; split; intros; try discriminate; try reflexivity; try lia.

Lemma ltb_rank : forall x y,
  F32.is_nan x = false -> F32.is_nan y = false ->
  (F32.ltb x y = true <-> lex_lt (rank x) (rank y)).
Proof.
  intros [[]|[]| |[] mx ex] [[]|[]| |[] my ey] Hx Hy; try discriminate;
    unfold F32.ltb, SFltb, SFcompare, lex_lt, rank; order_cases.
Qed.

Lemma leb_rank : forall x y,
  F32.is_nan x = false -> F32.is_nan y = false ->
  (F32.leb x y = true <-> lex_le (rank x) (rank y)).
Proof.
  intros [[]|[]| |[] mx ex] [[]|[]| |[] my ey] Hx Hy; try discriminate;
    unfold F32.leb, SFleb, SFcompare, lex_le, rank; order_cases.
Qed.

Lemma leb_refl : forall x, F32.is_nan x = false -> F32.leb x x = true.
Proof.
  intros x Hx. apply leb_rank; [assumption..|].
  unfold lex_le. destruct (rank x) as [[a b] c]. lia.
Qed.

Lemma ltb_leb : forall x y, F32.ltb x y = true -> F32.leb x y = true.
Proof.
  intros x y. unfold F32.ltb, F32.leb, SFltb, SFleb.
  destruct (SFcompare x y) as [[]|]; congruence.
Qed.

Lemma not_ltb_leb : forall x y,
  F32.is_nan x = false -> F32.is_nan y = false ->
  F32.ltb x y = false -> F32.leb y x = true.
Proof.
  intros x y Hx Hy Hlt. apply leb_rank; [assumption..|].
  assert (H : ~ lex_lt (rank x) (rank y)).
  { intros H. apply ltb_rank in H; congruence. }
  unfold lex_lt, lex_le in *.
  destruct (rank x) as [[a b] c], (rank y) as [[a' b'] c']. lia.
Qed.

Lemma leb_number : forall x y,
  F32.leb x y = true -> F32.is_nan x = false /\ F32.is_nan y = false.
Proof.
  intros [[]|[]| |[] mx ex] [[]|[]| |[] my ey]; cbn; intros H; try discriminate; auto.
Qed.

Lemma leb_trans : forall x y z,
  F32.leb x y = true -> F32.leb y z = true -> F32.leb x z = true.
Proof.
  intros x y z Hxy Hyz.
  destruct (leb_number _ _ Hxy) as [Hx Hy], (leb_number _ _ Hyz) as [_ Hz].
  apply leb_rank in Hxy, Hyz; try assumption. apply leb_rank; [assumption..|].
  unfold lex_le in *.
  destruct (rank x) as [[a b] c], (rank y) as [[a' b'] c'], (rank z) as [[a'' b''] c''].
  lia.
Qed.

Lemma min_spec : forall a b,
  F32.is_nan a = false -> F32.is_nan b = false ->
  (F32.min a b = a \/ F32.min a b = b) /\
  F32.leb (F32.min a b) a = true /\ F32.leb (F32.min a b) b = true.
Proof.
  intros a b Ha Hb. unfold F32.min. destruct (F32.ltb b a) eqn:Hlt.
  - split; [now right|]. split; [now apply ltb_leb | now apply leb_refl].
  - split; [now left|]. split; [now apply leb_refl | now apply not_ltb_leb].
Qed.

Lemma max_spec : forall a b,
  F32.is_nan a = false -> F32.is_nan b = false ->
  (F32.max a b = a \/ F32.max a b = b) /\
  F32.leb a (F32.max a b) = true /\ F32.leb b (F32.max a b) = true.
Proof.
  intros a b Ha Hb. unfold F32.max. destruct (F32.ltb a b) eqn:Hlt.
  - split; [now right|]. split; [now apply ltb_leb | now apply leb_refl].
  - split; [now left|]. split; [now apply leb_refl | now apply not_ltb_leb].
Qed.

Lemma fold_min_spec : forall l a,
  (forall c, In c (a :: l) -> F32.is_nan c = false) ->
  In (fold_left F32.min l a) (a :: l) /\
  forall c, In c (a :: l) -> F32.leb (fold_left F32.min l a) c = true.
Proof.
  induction l as [|b l IH]; intros a Hnum.
  - cbn. split; [now left|]. intros c [<-|[]]. apply leb_refl, Hnum. now left.
  - cbn [fold_left].
    destruct (min_spec a b) as (Hcase & Hla & Hlb);
      [apply Hnum; now left | apply Hnum; right; now left |].
    destruct (IH (F32.min a b)) as [Hin Hle].
    { intros c [<-|Hc]; [|apply Hnum; right; now right].
      destruct Hcase as [-> | ->]; apply Hnum; [now left | right; now left]. }
    split.
    + destruct Hin as [Heq|Hin]; [|right; now right].
      rewrite <- Heq. destruct Hcase as [-> | ->]; [now left | right; now left].
    + intros c [<-|[<-|Hc]].
      * eapply leb_trans; [apply Hle; now left | exact Hla].
      * eapply leb_trans; [apply Hle; now left | exact Hlb].
      * apply Hle. now right.
Qed.

Lemma fold_max_spec : forall l a,
  (forall c, In c (a :: l) -> F32.is_nan c = false) ->
  In (fold_left F32.max l a) (a :: l) /\
  forall c, In c (a :: l) -> F32.leb c (fold_left F32.max l a) = true.
Proof.
  induction l as [|b l IH]; intros a Hnum.
  - cbn. split; [now left|]. intros c [<-|[]]. apply leb_refl, Hnum. now left.
  - cbn [fold_left].
    destruct (max_spec a b) as (Hcase & Hla & Hlb);
      [apply Hnum; now left | apply Hnum; right; now left |].
    destruct (IH (F32.max a b)) as [Hin Hle].
    { intros c [<-|Hc]; [|apply Hnum; right; now right].
      destruct Hcase as [-> | ->]; apply Hnum; [now left | right; now left]. }
    split.
    + destruct Hin as [Heq|Hin]; [|right; now right].
      rewrite <- Heq. destruct Hcase as [-> | ->]; [now left | right; now left].
    + intros c [<-|[<-|Hc]].
      * eapply leb_trans; [exact Hla | apply Hle; now left].
      * eapply leb_trans; [exact Hlb | apply Hle; now left].
      * apply Hle. now right.
Qed.

End F32Order.

(** ** Rounding: what subtraction and division by a positive number return *)

Module F32Rounding.

Import F32Spec.
Local Open Scope Z_scope.

Lemma digits2_pos_size : forall p, digits2_pos p = Pos.size p.
Proof. induction p; cbn; congruence. Qed.

Lemma Zdigits2_log2 : forall m, 0 < m -> Zdigits2 m = Z.log2 m + 1.
Proof.
  intros [|p|p] Hm; try lia. cbn [Zdigits2].
  destruct p; cbn [digits2_pos Z.log2]; rewrite ?digits2_pos_size; lia.
Qed.

Lemma Zdigits2_nonneg : forall m, 0 <= Zdigits2 m.
Proof. intros [|p|p]; cbn; lia. Qed.

Lemma shr_1_m : forall mrs, 0 <= shr_m mrs -> shr_m (shr_1 mrs) = Z.div2 (shr_m mrs).
Proof.
  intros [[|[p|p|]|p] r s] H; cbn in *; try reflexivity; lia.
Qed.

Lemma iter_shr_1_m : forall p mrs,
  0 <= shr_m mrs ->
  shr_m (iter_pos shr_1 p mrs) = Z.shiftr (shr_m mrs) (Zpos p).
Proof.
  induction p as [p IH|p IH|]; intros mrs Hm; cbn [iter_pos].
  - assert (H1 : 0 <= shr_m (shr_1 mrs)).
    { rewrite shr_1_m by assumption. rewrite Z.div2_spec. now apply Z.shiftr_nonneg. }
    assert (H2 : 0 <= shr_m (iter_pos shr_1 p (shr_1 mrs))).
    { rewrite IH by assumption. now apply Z.shiftr_nonneg. }
    rewrite IH, IH, shr_1_m by assumption.
    rewrite Z.div2_spec, !Z.shiftr_shiftr by lia. f_equal. lia.
  - assert (H2 : 0 <= shr_m (iter_pos shr_1 p mrs)).
    { rewrite IH by assumption. now apply Z.shiftr_nonneg. }
    rewrite IH, IH by assumption.
    rewrite Z.shiftr_shiftr by lia. f_equal. lia.
  - rewrite shr_1_m by assumption. apply Z.div2_spec.
Qed.

Lemma shr_record_of_loc_m : forall m l, shr_m (shr_record_of_loc m l) = m.
Proof. intros m [|[]]; reflexivity. Qed.

(** What [shr_fexp] leaves as mantissa and exponent. *)
Lemma shr_fexp_m : forall m e l,
  0 <= m ->
  let n := fexp F32.prec F32.emax (Zdigits2 m + e) - e in
  let r := shr_fexp F32.prec F32.emax m e l in
  (0 < n -> shr_m (fst r) = Z.shiftr m n /\ snd r = e + n) /\
  (n <= 0 -> shr_m (fst r) = m /\ snd r = e).
Proof.
  intros m e l Hm n r. subst r. unfold shr_fexp, shr. fold n.
  destruct n as [|p|p] eqn:Hn; split; intros Hsign; try lia; cbn [fst snd].
  - now rewrite shr_record_of_loc_m.
  - rewrite iter_shr_1_m by (now rewrite shr_record_of_loc_m).
    now rewrite shr_record_of_loc_m.
  - now rewrite shr_record_of_loc_m.
Qed.

Lemma round_nearest_even_bounds : forall m l,
  m <= round_nearest_even m l <= m + 1.
Proof.
  intros m [|[]]; cbn; try lia. destruct (Z.even m); lia.
Qed.

Lemma shiftr_pos : forall m n, 0 < m -> 0 <= n -> n <= Z.log2 m -> 0 < Z.shiftr m n.
Proof.
  intros m n Hm Hn Hlog.
  assert (H : Z.shiftr m n <> 0).
  { rewrite Z.shiftr_eq_0_iff. lia. }
  assert (0 <= Z.shiftr m n) by (apply Z.shiftr_nonneg; lia). lia.
Qed.

Lemma fexp_eq : forall e, fexp F32.prec F32.emax e = Z.max (e - 24) (-149).
Proof. reflexivity. Qed.

Lemma small_round_aux : forall s m e l,
  0 <= m -> small (binary_round_aux F32.prec F32.emax s m e l).
Proof.
  intros s m e l Hm. unfold binary_round_aux.
  pose proof (shr_fexp_m m e l Hm) as H1. cbv zeta in H1.
  destruct (shr_fexp F32.prec F32.emax m e l) as [r1 e1]. cbn [fst snd] in H1.
  set (m2 := round_nearest_even (shr_m r1) (loc_of_shr_record r1)).
  assert (Hm1 : 0 <= shr_m r1).
  { destruct H1 as [Ha Hb].
    destruct (Z_lt_le_dec 0 (fexp F32.prec F32.emax (Zdigits2 m + e) - e)) as [Hp|Hp].
    - destruct (Ha Hp) as [-> _]. apply Z.shiftr_nonneg. exact Hm.
    - destruct (Hb Hp) as [-> _]. exact Hm. }
  assert (Hm2 : 0 <= m2).
  { pose proof (round_nearest_even_bounds (shr_m r1) (loc_of_shr_record r1)). subst m2. lia. }
  pose proof (shr_fexp_m m2 e1 loc_Exact Hm2) as H2. cbv zeta in H2.
  destruct (shr_fexp F32.prec F32.emax m2 e1 loc_Exact) as [r2 e2]. cbn [fst snd] in H2.
  destruct (shr_m r2) as [|m3|m3] eqn:Hm3; [exact I | | exact I].
  destruct (Z.leb_spec e2 (F32.emax - F32.prec)) as [He|He]; [|exact I].
  split; [|exact He].
  change (Zpos (digits2_pos m3)) with (Zdigits2 (Zpos m3)).
  rewrite Zdigits2_log2 by lia.
  destruct H2 as [Ha Hb]. rewrite fexp_eq in *.
  destruct (Z_lt_le_dec 0 (Z.max (Zdigits2 m2 + e1 - 24) (-149) - e1)) as [Hp|Hp].
  - destruct (Ha Hp) as [Hsh _].
    assert (Hpos2 : 0 < m2).
    { destruct (Z.eq_dec m2 0) as [->|]; [|lia]. rewrite Z.shiftr_0_l in Hsh. lia. }
    rewrite Hsh, Z.log2_shiftr by assumption.
    rewrite Zdigits2_log2 by assumption. unfold F32.prec. lia.
  - destruct (Hb Hp) as [Hsame _]. rewrite <- Hsame in Hp.
    rewrite Zdigits2_log2 in Hp by lia. unfold F32.prec. lia.
Qed.

Lemma positive_round_aux : forall s m e l,
  0 < m -> -149 < Zdigits2 m + e ->
  (exists m' e', binary_round_aux F32.prec F32.emax s m e l = S754_finite s m' e') \/
  binary_round_aux F32.prec F32.emax s m e l = S754_infinity s.
Proof.
  intros s m e l Hm Hbig. unfold binary_round_aux.
  pose proof (shr_fexp_m m e l (Z.lt_le_incl _ _ Hm)) as H1. cbv zeta in H1.
  destruct (shr_fexp F32.prec F32.emax m e l) as [r1 e1]. cbn [fst snd] in H1.
  set (m2 := round_nearest_even (shr_m r1) (loc_of_shr_record r1)).
  rewrite fexp_eq in H1. rewrite Zdigits2_log2 in H1, Hbig by assumption.
  assert (Hm1 : 0 < shr_m r1 /\ -149 <= e1).
  { destruct H1 as [Ha Hb].
    destruct (Z_lt_le_dec 0 (Z.max (Z.log2 m + 1 + e - 24) (-149) - e)) as [Hp|Hp].
    - destruct (Ha Hp) as [-> ->]. split; [|lia]. apply shiftr_pos; lia.
    - destruct (Hb Hp) as [-> ->]. split; [assumption | lia]. }
  destruct Hm1 as [Hm1 He1].
  assert (Hm2 : 0 < m2).
  { pose proof (round_nearest_even_bounds (shr_m r1) (loc_of_shr_record r1)). subst m2. lia. }
  pose proof (shr_fexp_m m2 e1 loc_Exact (Z.lt_le_incl _ _ Hm2)) as H2. cbv zeta in H2.
  destruct (shr_fexp F32.prec F32.emax m2 e1 loc_Exact) as [r2 e2]. cbn [fst snd] in H2.
  rewrite fexp_eq in H2. rewrite Zdigits2_log2 in H2 by assumption.
  assert (Hm3 : 0 < shr_m r2).
  { destruct H2 as [Ha Hb].
    destruct (Z_lt_le_dec 0 (Z.max (Z.log2 m2 + 1 + e1 - 24) (-149) - e1)) as [Hp|Hp].
    - destruct (Ha Hp) as [-> _]. pose proof (Z.log2_nonneg m2). apply shiftr_pos; lia.
    - destruct (Hb Hp) as [-> _]. assumption. }
  destruct (shr_m r2) as [|m3|m3]; try lia.
  destruct (e2 <=? F32.emax - F32.prec); [left; eauto | now right].
Qed.

Lemma digits_upper : forall p, Zpos p < 2 ^ Zpos (digits2_pos p).
Proof.
  intros p. change (Zpos (digits2_pos p)) with (Zdigits2 (Zpos p)).
  rewrite Zdigits2_log2 by lia.
  pose proof (Z.log2_spec (Zpos p) ltac:(lia)) as H.
  replace (Z.log2 (Z.pos p) + 1) with (Z.succ (Z.log2 (Z.pos p))) by lia. lia.
Qed.

Lemma div_core_one : forall m e,
  Zpos (digits2_pos m) <= 24 -> e <= 104 ->
  let '(q, e', _) := SFdiv_core_binary F32.prec F32.emax 8388608 (-23) (Zpos m) e in
  0 < q /\ -149 < Zdigits2 q + e'.
Proof.
  intros m e Hd He. unfold SFdiv_core_binary.
  change (Zdigits2 8388608) with 24. cbn [Zdigits2].
  pose proof (digits_upper m) as Hup.
  assert (Hd1 : 1 <= Zpos (digits2_pos m)) by lia.
  set (d2 := Zpos (digits2_pos m)) in *.
  rewrite fexp_eq.
  set (e' := Z.min (Z.max (24 + -23 - (d2 + e) - 24) (-149)) (-23 - e)).
  set (s := -23 - e - e').
  assert (Hs : 0 <= s) by (subst s e'; lia).
  assert (Hk : 0 <= 23 + s - d2) by (subst s e'; lia).
  set (m' := match s with Z.pos _ => Z.shiftl 8388608 s | 0 => 8388608 | Z.neg _ => 0 end).
  assert (Hm' : m' = 2 ^ (23 + s - d2) * 2 ^ d2).
  { rewrite <- Z.pow_add_r by lia. replace (23 + s - d2 + d2) with (23 + s) by lia.
    rewrite Z.pow_add_r by lia. subst m'. destruct s as [|p|p] eqn:Es;
      [reflexivity | rewrite Z.shiftl_mul_pow2 by lia; reflexivity | lia]. }
  pose proof (Z.div_eucl_eq m' (Zpos m) ltac:(lia)) as Heq.
  pose proof (Z.mod_pos_bound m' (Zpos m) ltac:(lia)) as Hmod.
  unfold Z.modulo in Hmod.
  destruct (Z.div_eucl m' (Zpos m)) as [q r]. 
  assert (Hpow : 0 < 2 ^ (23 + s - d2)) by (apply Z.pow_pos_nonneg; lia).
  assert (Hq : 2 ^ (23 + s - d2) <= q).
  { destruct (Z_lt_le_dec q (2 ^ (23 + s - d2))) as [Hlt|]; [|assumption].
    exfalso.
    assert (Zpos m * q + r < Zpos m * 2 ^ (23 + s - d2)) by nia.
    assert (Zpos m * 2 ^ (23 + s - d2) <= 2 ^ (23 + s - d2) * 2 ^ d2) by nia.
    lia. }
  split; [lia|].
  rewrite Zdigits2_log2 by lia.
  assert (23 + s - d2 <= Z.log2 q) by (apply Z.log2_le_pow2; lia).
  subst s. lia.
Qed.

Lemma div_one_positive : forall m e,
  small (S754_finite false m e) ->
  (exists m' e', F32.div F32.one (S754_finite false m e) = S754_finite false m' e') \/
  F32.div F32.one (S754_finite false m e) = S754_infinity false.
Proof.
  intros m e [Hd He]. unfold F32.div, F32.one, SFdiv. cbn [xorb].
  pose proof (div_core_one m e Hd He) as Hcore.
  destruct (SFdiv_core_binary F32.prec F32.emax 8388608 (-23) (Zpos m) e) as [[q e'] l].
  destruct Hcore as [Hq Hbig].
  apply positive_round_aux; assumption.
Qed.

Lemma valid_small : forall x, F32.valid x = true -> small x.
Proof.
  intros [s|s| |s m e]; cbn; try (intros; exact I).
  unfold bounded, canonical_mantissa. rewrite fexp_eq.
  intros H. apply andb_prop in H. destruct H as [Hc He].
  apply Z.eqb_eq in Hc. apply Z.leb_le in He. unfold F32.prec, F32.emax in *. lia.
Qed.

Lemma small_normalize : forall m e, small (binary_normalize F32.prec F32.emax m e false).
Proof.
  intros [|m|m] e; cbn [binary_normalize]; [exact I | |];
    unfold binary_round; destruct (shl_align _ _ _) as [mz ez];
    apply small_round_aux; lia.
Qed.

Lemma small_sub : forall a b, small a -> small b -> small (F32.sub a b).
Proof.
  intros [sa|sa| |sa ma ea] [sb|sb| |sb mb eb] Ha Hb; unfold F32.sub, SFsub;
    try exact I; try assumption.
  - destruct sa, sb; exact I.
  - destruct sa, sb; exact I.
  - apply small_normalize.
Qed.

Lemma iter_pos_nat : forall (A : Type) (f : A -> A) p x,
  iter_pos f p x = Nat.iter (Pos.to_nat p) f x.
Proof.
  intros A f. induction p as [p IH|p IH|]; intros x; cbn [iter_pos].
  - rewrite !IH, Pos2Nat.inj_xI, <- Nat.iter_add, <- Nat.iter_succ_r. f_equal. lia.
  - rewrite !IH, Pos2Nat.inj_xO, <- Nat.iter_add. f_equal. lia.
  - reflexivity.
Qed.

(** [shr] as an iteration counted by a natural number. *)
Lemma shr_nat : forall mrs e n,
  0 <= n -> shr mrs e n = (Nat.iter (Z.to_nat n) shr_1 mrs, e + n).
Proof.
  intros mrs e [|p|p] Hn; try lia; cbn [shr].
  - cbn. f_equal. lia.
  - now rewrite iter_pos_nat.
Qed.

Lemma shr_1_double : forall m, 0 <= m -> shr_1 (exact_record (2 * m)) = exact_record m.
Proof. intros [|p|p] Hm; try lia; reflexivity. Qed.

Lemma iter_shr_1_pow2 : forall k m,
  0 <= m -> Nat.iter k shr_1 (exact_record (m * 2 ^ Z.of_nat k)) = exact_record m.
Proof.
  induction k as [|k IH]; intros m Hm.
  - cbn [Nat.iter]. now rewrite Z.mul_1_r.
  - rewrite Nat.iter_succ_r, Nat2Z.inj_succ, Z.pow_succ_r by lia.
    replace (m * (2 * 2 ^ Z.of_nat k)) with (2 * (m * 2 ^ Z.of_nat k)) by lia.
    rewrite shr_1_double by (apply Z.mul_nonneg_nonneg; [assumption | apply Z.pow_nonneg; lia]).
    now apply IH.
Qed.

Lemma Zdigits2_mul_pow2 : forall m j, 0 < m -> 0 <= j -> Zdigits2 (m * 2 ^ j) = Zdigits2 m + j.
Proof.
  intros m j Hm Hj.
  assert (0 < 2 ^ j) by (apply Z.pow_pos_nonneg; lia).
  rewrite !Zdigits2_log2 by nia.
  rewrite Z.log2_mul_pow2 by lia. lia.
Qed.

(** The first rounding step does not depend on how far the mantissa was
    pre-shifted to the left, as long as it was shifted far enough. *)
Lemma shr_fexp_shifted : forall m E j,
  0 < m -> 0 <= j ->
  let t := fexp F32.prec F32.emax (Zdigits2 m + E) - E in
  0 <= t + j ->
  shr_fexp F32.prec F32.emax (m * 2 ^ j) (E - j) loc_Exact =
    if 0 <=? t then (Nat.iter (Z.to_nat t) shr_1 (exact_record m), E + t)
    else (exact_record (m * 2 ^ (- t)), E + t).
Proof.
  intros m E j Hm Hj t Htj. unfold shr_fexp.
  rewrite Zdigits2_mul_pow2 by assumption.
  replace (Zdigits2 m + j + (E - j)) with (Zdigits2 m + E) by lia. fold t.
  replace (fexp F32.prec F32.emax (Zdigits2 m + E) - (E - j)) with (t + j) by (subst t; lia).
  rewrite shr_nat by assumption. cbn [shr_record_of_loc]. fold (exact_record (m * 2 ^ j)).
  replace (E - j + (t + j)) with (E + t) by lia.
  destruct (Z.leb_spec 0 t) as [Ht|Ht]; f_equal.
  - replace (Z.to_nat (t + j)) with (Z.to_nat t + Z.to_nat j)%nat by lia.
    rewrite Nat.iter_add.
    replace (m * 2 ^ j) with (m * 2 ^ Z.of_nat (Z.to_nat j))
      by (now rewrite Z2Nat.id).
    rewrite iter_shr_1_pow2 by lia. reflexivity.
  - replace (m * 2 ^ j) with (m * 2 ^ (- t) * 2 ^ Z.of_nat (Z.to_nat (t + j))).
    + apply iter_shr_1_pow2. apply Z.mul_nonneg_nonneg; [lia | apply Z.pow_nonneg; lia].
    + rewrite Z2Nat.id by assumption. rewrite <- Z.mul_assoc, <- Z.pow_add_r by lia.
      f_equal. f_equal. lia.
Qed.

Lemma div_eucl_unique : forall a b q r,
  0 <= r < b -> a = b * q + r -> Z.div_eucl a b = (q, r).
Proof.
  intros a b q r Hr Ha.
  pose proof (Z.div_unique a b q r (or_introl Hr) Ha) as Hq.
  pose proof (Z.mod_unique a b q r (or_introl Hr) Ha) as Hm.
  unfold Z.div, Z.modulo in *. destruct (Z.div_eucl a b). congruence.
Qed.

Lemma record_of_loc_of_record : forall r,
  shr_record_of_loc (shr_m r) (loc_of_shr_record r) = r.
Proof. intros [m [] []]; reflexivity. Qed.

(** Dividing by 2.0f: what [SFdiv_core_binary] hands to the rounding step
    is the dividend at one exponent less, shifted like the product with
    0.5f is. *)
Lemma div_core_two : forall m e,
  Zpos (digits2_pos m) <= 24 -> -149 <= e ->
  let '(q, e', l) := SFdiv_core_binary F32.prec F32.emax (Zpos m) e 8388608 (-22) in
  shr_fexp F32.prec F32.emax q e' l =
    shr_fexp F32.prec F32.emax (Zpos m * 2 ^ 23) (e - 1 - 23) loc_Exact.
Proof.
  intros m e Hd He. unfold SFdiv_core_binary.
  change (Zdigits2 8388608) with 24. cbn [Zdigits2].
  assert (Hd1 : 1 <= Zpos (digits2_pos m)) by lia.
  pose proof (shr_fexp_shifted (Zpos m) (e - 1) 23 ltac:(lia) ltac:(lia)) as Hmul.
  pose proof (fun j => shr_fexp_shifted (Zpos m) (e - 1) j ltac:(lia)) as Hdiv.
  cbv zeta in Hmul, Hdiv. cbn [Zdigits2] in Hmul, Hdiv.
  set (d := Zpos (digits2_pos m)) in *.
  rewrite fexp_eq in *.
  set (t := Z.max (d + (e - 1) - 24) (-149) - (e - 1)) in *.
  rewrite Hmul by (subst t; lia). clear Hmul.
  set (e' := Z.min (Z.max (d + e - (24 + -22) - 24) (-149)) (e - -22)).
  set (s := e - -22 - e').
  assert (Hs : 22 <= s) by (subst s e'; lia).
  assert (Hshift : match s with
                   | Z.pos _ => Z.shiftl (Z.pos m) s
                   | 0 => Z.pos m
                   | Z.neg _ => 0
                   end = Zpos m * 2 ^ s).
  { destruct s; try lia. now rewrite Z.shiftl_mul_pow2 by lia. }
  rewrite Hshift. clear Hshift.
  destruct (Z.eq_dec s 22) as [Hs22|Hs23].
  - (* the subnormal end: one bit is shifted out *)
    assert (Ee : e = -149) by (subst s e'; lia).
    assert (Et : t = 1) by (subst t; lia).
    assert (Ee' : e' = e) by (subst s e'; lia).
    rewrite Hs22, Ee', Et. cbn [Z.leb Z.compare Z.to_nat Pos.to_nat Pos.iter_op Nat.iter].
    assert (Hrec : forall q r, Z.div_eucl (Zpos m * 2 ^ 22) 8388608 = (q, r) ->
              shr_record_of_loc q (new_location 8388608 r) = shr_1 (exact_record (Zpos m)) /\
              Zdigits2 q = d - 1).
    { intros q r Hqr. destruct m as [p|p|].
      - rewrite (div_eucl_unique (Zpos p~1 * 2 ^ 22) 8388608 (Zpos p) 4194304) in Hqr by lia.
        injection Hqr as <- <-. split; [reflexivity|]. subst d. cbn [Zdigits2 digits2_pos]. lia.
      - rewrite (div_eucl_unique (Zpos p~0 * 2 ^ 22) 8388608 (Zpos p) 0) in Hqr by lia.
        injection Hqr as <- <-. split; [reflexivity|]. subst d. cbn [Zdigits2 digits2_pos]. lia.
      - cbn in Hqr. injection Hqr as <- <-. split; reflexivity. }
    destruct (Z.div_eucl (Zpos m * 2 ^ 22) 8388608) as [q r].
    destruct (Hrec q r eq_refl) as [Hr Hq]. unfold shr_fexp. rewrite Hr, Hq, fexp_eq.
    replace (Z.max (d - 1 + e - 24) (-149) - e) with 0 by lia.
    cbn [shr]. f_equal. lia.
  - (* the quotient is exact *)
    rewrite (div_eucl_unique (Zpos m * 2 ^ s) 8388608 (Zpos m * 2 ^ (s - 23)) 0); [|lia|].
    + change (new_location 8388608 0) with loc_Exact.
      replace e' with (e - 1 - (s - 23)) by (subst s; lia).
      apply Hdiv; subst t s e'; lia.
    + replace s with (23 + (s - 23)) at 1 by lia. rewrite Z.pow_add_r by lia. lia.
Qed.

Lemma mul_half_div_two : forall x,
  small x -> (forall s m e, x = S754_finite s m e -> -149 <= e) ->
  F32.mul x F32.half = F32.div x F32.two.
Proof.
  intros [s|s| |s m e] Hsmall Hexp; try (destruct s; reflexivity); try reflexivity.
  destruct Hsmall as [Hd _]. specialize (Hexp s m e eq_refl).
  unfold F32.mul, F32.div, F32.half, F32.two, SFmul, SFdiv.
  rewrite xorb_false_r.
  pose proof (div_core_two m e Hd Hexp) as Hcore.
  destruct (SFdiv_core_binary F32.prec F32.emax (Zpos m) e 8388608 (-22)) as [[q e'] l].
  unfold binary_round_aux. rewrite Hcore.
  replace (e + -24) with (e - 1 - 23) by lia.
  change (Z.pos (m * 8388608)) with (Zpos m * 2 ^ 23). reflexivity.
Qed.

Lemma floored_round_aux : forall s m e l,
  0 <= m -> -149 <= e -> floored (binary_round_aux F32.prec F32.emax s m e l).
Proof.
  intros s m e l Hm He. unfold binary_round_aux.
  pose proof (shr_fexp_m m e l Hm) as H1. cbv zeta in H1.
  destruct (shr_fexp F32.prec F32.emax m e l) as [r1 e1]. cbn [fst snd] in H1.
  set (m2 := round_nearest_even (shr_m r1) (loc_of_shr_record r1)).
  assert (Hm1 : 0 <= shr_m r1 /\ e <= e1).
  { destruct H1 as [Ha Hb].
    destruct (Z_lt_le_dec 0 (fexp F32.prec F32.emax (Zdigits2 m + e) - e)) as [Hp|Hp].
    - destruct (Ha Hp) as [-> ->]. split; [now apply Z.shiftr_nonneg | lia].
    - destruct (Hb Hp) as [-> ->]. split; [assumption | lia]. }
  destruct Hm1 as [Hm1 He1].
  assert (Hm2 : 0 <= m2).
  { pose proof (round_nearest_even_bounds (shr_m r1) (loc_of_shr_record r1)). subst m2. lia. }
  pose proof (shr_fexp_m m2 e1 loc_Exact Hm2) as H2. cbv zeta in H2.
  destruct (shr_fexp F32.prec F32.emax m2 e1 loc_Exact) as [r2 e2]. cbn [fst snd] in H2.
  assert (He2 : e1 <= e2).
  { destruct H2 as [Ha Hb].
    destruct (Z_lt_le_dec 0 (fexp F32.prec F32.emax (Zdigits2 m2 + e1) - e1)) as [Hp|Hp].
    - destruct (Ha Hp) as [_ ->]. lia.
    - destruct (Hb Hp) as [_ ->]. lia. }
  destruct (shr_m r2) as [|m3|m3]; [exact I | | exact I].
  destruct (e2 <=? F32.emax - F32.prec); [|exact I]. cbn. lia.
Qed.

Lemma shl_align_exponent : forall mx ex ex',
  snd (shl_align mx ex ex') = Z.min ex ex'.
Proof.
  intros mx ex ex'. unfold shl_align.
  destruct (ex' - ex) eqn:Hdiff; cbn [snd]; lia.
Qed.

Lemma normalize_ranged : forall m e,
  -149 <= e ->
  small (binary_normalize F32.prec F32.emax m e false) /\
  floored (binary_normalize F32.prec F32.emax m e false).
Proof.
  intros m e He. split; [apply small_normalize|].
  destruct m as [|m|m]; cbn [binary_normalize]; [exact I | |];
    unfold binary_round;
    pose proof (shl_align_exponent m e (fexp F32.prec F32.emax (Zpos (digits2_pos m) + e))) as Hz;
    destruct (shl_align _ _ _) as [mz ez]; cbn [snd] in Hz;
    rewrite fexp_eq in Hz; apply floored_round_aux; lia.
Qed.

Lemma valid_floored : forall x, F32.valid x = true -> floored x.
Proof.
  intros [s|s| |s m e]; cbn; try (intros; exact I).
  unfold bounded, canonical_mantissa. rewrite fexp_eq.
  intros H. apply andb_prop in H. destruct H as [Hc _].
  apply Z.eqb_eq in Hc. lia.
Qed.

Lemma add_ranged : forall a b,
  small a -> floored a -> small b -> floored b ->
  small (F32.add a b) /\ floored (F32.add a b).
Proof.
  intros [sa|sa| |sa ma ea] [sb|sb| |sb mb eb] Ha Fa Hb Fb; unfold F32.add, SFadd;
    try (split; exact I); try (split; assumption).
  - destruct sa, sb; split; exact I.
  - destruct sa, sb; split; exact I.
  - apply normalize_ranged. cbn in Fa, Fb. lia.
Qed.

End F32Rounding.

(** ** The bounding box *)

Section Bounds.

Import ModelLoader MeshSpec F32Spec F32Order F32Rounding.

Lemma fold_triangles_flat : forall (ts : list ModelTriangle) box,
  fold_left (fun box triangle => fold_left expandBounds (vertices triangle) box) ts box =
    fold_left expandBounds (flat_map vertices ts) box.
Proof.
  induction ts as [|triangle ts IH]; intros box; [reflexivity|].
  cbn [fold_left flat_map]. rewrite fold_left_app. apply IH.
Qed.

Lemma fold_expandBounds : forall vs lo hi,
  fold_left expandBounds vs (lo, hi) =
    (glm.Vec3 (fold_left F32.min (map glm.x vs) (glm.x lo))
              (fold_left F32.min (map glm.y vs) (glm.y lo))
              (fold_left F32.min (map glm.z vs) (glm.z lo)),
     glm.Vec3 (fold_left F32.max (map glm.x vs) (glm.x hi))
              (fold_left F32.max (map glm.y vs) (glm.y hi))
              (fold_left F32.max (map glm.z vs) (glm.z hi))).
Proof.
  induction vs as [|v vs IH]; intros [lx ly lz] [hx hy hz]; [reflexivity|].
  cbn [fold_left map expandBounds]. rewrite IH. reflexivity.
Qed.

Section Axis.

Variable p : glm.vec3 -> F32.float.
Variables (vs : list glm.vec3) (v0 : glm.vec3).
Hypothesis first_in : In v0 vs.
Hypothesis numbers : forall v, In v vs -> F32.is_nan (p v) = false.

Lemma axis_numbers : forall c, In c (p v0 :: map p vs) -> F32.is_nan c = false.
Proof.
  intros c [<-|Hc]; [now apply numbers|].
  apply in_map_iff in Hc. destruct Hc as (v & <- & Hv). now apply numbers.
Qed.

Lemma axis_member : forall r,
  In r (p v0 :: map p vs) -> exists v, In v vs /\ r = p v.
Proof.
  intros r [<-|Hr]; [now exists v0|].
  apply in_map_iff in Hr. destruct Hr as (v & <- & Hv). now exists v.
Qed.

Lemma axis_min :
  (exists v, In v vs /\ fold_left F32.min (map p vs) (p v0) = p v) /\
  forall v, In v vs -> F32.leb (fold_left F32.min (map p vs) (p v0)) (p v) = true.
Proof.
  destruct (fold_min_spec (map p vs) (p v0) axis_numbers) as [Hin Hle].
  split; [now apply axis_member|].
  intros v Hv. apply Hle. right. now apply in_map.
Qed.

Lemma axis_max :
  (exists v, In v vs /\ fold_left F32.max (map p vs) (p v0) = p v) /\
  forall v, In v vs -> F32.leb (p v) (fold_left F32.max (map p vs) (p v0)) = true.
Proof.
  destruct (fold_max_spec (map p vs) (p v0) axis_numbers) as [Hin Hle].
  split; [now apply axis_member|].
  intros v Hv. apply Hle. right. now apply in_map.
Qed.

End Axis.

Lemma fold_min_in : forall l a, In (fold_left F32.min l a) (a :: l).
Proof.
  induction l as [|b l IH]; intros a; [now left|].
  cbn [fold_left]. destruct (IH (F32.min a b)) as [Heq|Hin]; [|right; now right].
  rewrite <- Heq. unfold F32.min. destruct (F32.ltb b a); [right|]; now left.
Qed.

Lemma fold_max_in : forall l a, In (fold_left F32.max l a) (a :: l).
Proof.
  induction l as [|b l IH]; intros a; [now left|].
  cbn [fold_left]. destruct (IH (F32.max a b)) as [Heq|Hin]; [|right; now right].
  rewrite <- Heq. unfold F32.max. destruct (F32.ltb a b); [right|]; now left.
Qed.

(** The coordinates of the two bounds are coordinates of vertices, whatever
    the vertices are. *)
Lemma bounds_attained : forall mesh,
  triangles mesh <> [] ->
  attained (min_bounds (normalize mesh)) (all_vertices mesh) /\
  attained (max_bounds (normalize mesh)) (all_vertices mesh).
Proof.
  intros [[|first rest] lo hi c s] Hne; [contradiction|].
  unfold all_vertices. cbn [triangles].
  rewrite normalize_cons. cbv zeta. cbn [min_bounds max_bounds].
  rewrite fold_triangles_flat, fold_expandBounds. cbn [fst snd].
  set (vs := flat_map vertices (first :: rest)).
  assert (Hfirst : In (vertex0 first) vs) by (left; reflexivity).
  unfold attained. cbn [glm.x glm.y glm.z].
  repeat split;
    first [ apply (axis_member _ vs (vertex0 first) Hfirst), fold_min_in
          | apply (axis_member _ vs (vertex0 first) Hfirst), fold_max_in ].
Qed.

(** The centre is half the single-precision sum of the bounds, whether the
    halving is written [* 0.5f] (the code) or [/ 2] (the specification). *)
Lemma center_is_midpoint : forall mesh,
  triangles mesh <> [] ->
  (forall v, In v (all_vertices mesh) -> representable v) ->
  center (normalize mesh) =
    glm.scale_by (glm.add (min_bounds (normalize mesh)) (max_bounds (normalize mesh)))
                 F32.half /\
  center (normalize mesh) =
    midpoint (min_bounds (normalize mesh)) (max_bounds (normalize mesh)).
Proof.
  intros mesh Hne Hrep.
  destruct (bounds_attained mesh Hne)
    as [((vx & Hvx & Ex) & (vy & Hvy & Ey) & (vz & Hvz & Ez))
        ((wx & Hwx & Fx) & (wy & Hwy & Fy) & (wz & Hwz & Fz))].
  assert (Hcode : center (normalize mesh) =
                  glm.scale_by (glm.add (min_bounds (normalize mesh))
                                        (max_bounds (normalize mesh))) F32.half).
  { destruct mesh as [[|first rest] lo hi c s]; [contradiction|].
    rewrite normalize_cons. reflexivity. }
  split; [exact Hcode|]. rewrite Hcode.
  unfold midpoint, glm.scale_by, glm.add. cbn [glm.x glm.y glm.z].
  rewrite Ex, Ey, Ez, Fx, Fy, Fz.
  assert (Hhalf : forall a b, F32.valid a = true -> F32.valid b = true ->
            F32.mul (F32.add a b) F32.half = F32.div (F32.add a b) F32.two).
  { intros a b Ha Hb.
    destruct (add_ranged a b (valid_small a Ha) (valid_floored a Ha)
                         (valid_small b Hb) (valid_floored b Hb)) as [Hs Hf].
    apply mul_half_div_two; [exact Hs|].
    intros s m e Heq. rewrite Heq in Hf. exact Hf. }
  rewrite !Hhalf;
    first [ reflexivity
          | apply (Hrep _ Hvx) | apply (Hrep _ Hvy) | apply (Hrep _ Hvz)
          | apply (Hrep _ Hwx) | apply (Hrep _ Hwy) | apply (Hrep _ Hwz) ].
Qed.

(** C3, as the code has it.  For a mesh with at least one triangle whose
    coordinates are single-precision values, none of them NaN: after
    normalisation every vertex of every triangle lies between
    [min_bounds] and [max_bounds] on each axis, each coordinate of the two
    bounds is that coordinate of some vertex, and [center] is
    [(min_bounds + max_bounds) / 2] (computed as [* 0.5f]), exactly as
    single-precision arithmetic evaluates it. *)
Theorem bounds_enclose_vertices :
  forall mesh,
    triangles mesh <> [] ->
    (forall v, In v (all_vertices mesh) -> representable v) ->
    (forall v, In v (all_vertices mesh) -> number v) ->
    let mesh' := normalize mesh in
    triangles mesh' = triangles mesh /\
    (forall v, In v (all_vertices mesh) ->
               inside (min_bounds mesh') (max_bounds mesh') v) /\
    attained (min_bounds mesh') (all_vertices mesh) /\
    attained (max_bounds mesh') (all_vertices mesh) /\
    center mesh' = glm.scale_by (glm.add (min_bounds mesh') (max_bounds mesh')) F32.half /\
    center mesh' = midpoint (min_bounds mesh') (max_bounds mesh').
Proof.
  intros mesh Hne Hrep Hnum mesh'. subst mesh'.
  destruct (bounds_attained mesh Hne) as [Hlo Hhi].
  destruct (center_is_midpoint mesh Hne Hrep) as [Hcode Hmid].
  split; [|split; [|split; [exact Hlo | split; [exact Hhi | split; assumption]]]].
  - destruct mesh as [[|first rest] lo hi c s]; [contradiction|].
    rewrite normalize_cons. reflexivity.
  - destruct mesh as [[|first rest] lo hi c s]; [contradiction|].
    unfold all_vertices in *. cbn [triangles] in *.
    rewrite normalize_cons. cbv zeta. cbn [min_bounds max_bounds].
    rewrite fold_triangles_flat, fold_expandBounds. cbn [fst snd].
    set (vs := flat_map vertices (first :: rest)) in *.
    assert (Hfirst : In (vertex0 first) vs) by (left; reflexivity).
    assert (Hx : forall v, In v vs -> F32.is_nan (glm.x v) = false)
      by (intros v Hv; apply (Hnum v Hv)).
    assert (Hy : forall v, In v vs -> F32.is_nan (glm.y v) = false)
      by (intros v Hv; apply (Hnum v Hv)).
    assert (Hz : forall v, In v vs -> F32.is_nan (glm.z v) = false)
      by (intros v Hv; apply (Hnum v Hv)).
    intros v Hv. unfold inside. cbn [glm.x glm.y glm.z].
    repeat split;
      first [ apply (axis_min glm.x vs (vertex0 first) Hfirst Hx), Hv
            | apply (axis_max glm.x vs (vertex0 first) Hfirst Hx), Hv
            | apply (axis_min glm.y vs (vertex0 first) Hfirst Hy), Hv
            | apply (axis_max glm.y vs (vertex0 first) Hfirst Hy), Hv
            | apply (axis_min glm.z vs (vertex0 first) Hfirst Hz), Hv
            | apply (axis_max glm.z vs (vertex0 first) Hfirst Hz), Hv ].
Qed.

End Bounds.

(** C3 on the loaded one-triangle sample. *)
Lemma bounds_enclose_vertices_witness :
  let mesh := Samples.loaded [Samples.oneTriangle] in
  let mesh' := ModelLoader.normalize mesh in
  triangles mesh' = triangles mesh /\
  (forall v, In v (all_vertices mesh) ->
             MeshSpec.inside (min_bounds mesh') (max_bounds mesh') v) /\
  MeshSpec.attained (min_bounds mesh') (all_vertices mesh) /\
  MeshSpec.attained (max_bounds mesh') (all_vertices mesh) /\
  center mesh' = glm.scale_by (glm.add (min_bounds mesh') (max_bounds mesh')) F32.half /\
  center mesh' = MeshSpec.midpoint (min_bounds mesh') (max_bounds mesh').
Proof.
  apply (bounds_enclose_vertices (Samples.loaded [Samples.oneTriangle])).
  - vm_compute. discriminate.
  - intros v Hv. vm_compute in Hv.
    destruct Hv as [<-|[<-|[<-|[]]]]; vm_compute; repeat split.
  - intros v Hv. vm_compute in Hv.
    destruct Hv as [<-|[<-|[<-|[]]]]; vm_compute; repeat split.
Defined.

(** C3 as stated fails: a file whose first corner has a NaN x coordinate
    loads, the x bounds it gets are NaN, and the corner (1,0,0) of its
    triangle is not between them. *)
Lemma nan_vertex_escapes_bounds :
  let run :=
    ModelLoader.loadFile (Samples.reads [Samples.nanCorner]) "model.stl"
      Samples.emptyMesh (ModelLoader.mk "") in
  let mesh := snd (fst run) in
  let corner := glm.Vec3 F32.one F32.zero F32.zero in
  fst (fst run) = true /\
  (forall v, In v (all_vertices mesh) -> MeshSpec.representable v) /\
  In corner (all_vertices mesh) /\
  glm.x (min_bounds mesh) = S754_nan /\
  F32.leb (glm.x (min_bounds mesh)) (glm.x corner) = false /\
  ~ MeshSpec.inside (min_bounds mesh) (max_bounds mesh) corner.
Proof.
  cbv zeta. split; [vm_compute; reflexivity|].
  split.
  { intros v Hv. vm_compute in Hv.
    destruct Hv as [<-|[<-|[<-|[]]]]; vm_compute; repeat split. }
  split; [vm_compute; right; left; reflexivity|].
  split; [vm_compute; reflexivity|].
  split; [vm_compute; reflexivity|].
  intros (H & _). vm_compute in H. discriminate.
Qed.


(** ** The scale factor *)

Section Scale.

Import ModelLoader MeshSpec F32Spec F32Order F32Rounding.

Lemma ltb_number : forall x y,
  F32.ltb x y = true -> F32.is_nan x = false /\ F32.is_nan y = false.
Proof.
  intros x y H. apply ltb_leb in H. now apply leb_number.
Qed.

Lemma ltb_asym : forall x y, F32.ltb x y = true -> F32.ltb y x = false.
Proof.
  intros x y Hxy. destruct (F32.ltb y x) eqn:Hyx; [|reflexivity]. exfalso.
  destruct (ltb_number _ _ Hxy) as [Hx Hy].
  apply ltb_rank in Hxy, Hyx; try assumption. unfold lex_lt in *.
  destruct (rank x) as [[a b] c], (rank y) as [[a' b'] c']. lia.
Qed.

Lemma max3_cases : forall a b c,
  F32.max3 a b c = a \/ F32.max3 a b c = b \/ F32.max3 a b c = c.
Proof.
  intros a b c. unfold F32.max3.
  destruct (F32.ltb a b); destruct (F32.ltb _ c); auto.
Qed.

Lemma largestDimension_small : forall mesh,
  triangles mesh <> [] ->
  (forall v, In v (all_vertices mesh) -> representable v) ->
  small (largestDimension (normalize mesh)).
Proof.
  intros mesh Hne Hrep.
  destruct (bounds_attained mesh Hne)
    as [((vx & Hvx & Ex) & (vy & Hvy & Ey) & (vz & Hvz & Ez))
        ((wx & Hwx & Fx) & (wy & Hwy & Fy) & (wz & Hwz & Fz))].
  unfold largestDimension. cbn [glm.sub glm.x glm.y glm.z].
  rewrite Ex, Ey, Ez, Fx, Fy, Fz.
  destruct (max3_cases (F32.sub (glm.x wx) (glm.x vx)) (F32.sub (glm.y wy) (glm.y vy))
                       (F32.sub (glm.z wz) (glm.z vz))) as [-> | [-> | ->]];
    apply small_sub; apply valid_small;
    first [ apply (Hrep _ Hvx) | apply (Hrep _ Hvy) | apply (Hrep _ Hvz)
          | apply (Hrep _ Hwx) | apply (Hrep _ Hwy) | apply (Hrep _ Hwz) ].
Qed.

Lemma scale_normalize : forall mesh,
  triangles mesh <> [] ->
  scale (normalize mesh) =
    if F32.ltb EPSILON (largestDimension (normalize mesh))
    then F32.div DEFAULT_SCALE (largestDimension (normalize mesh))
    else DEFAULT_SCALE.
Proof.
  intros [[|first rest] lo hi c s] Hne; [contradiction|].
  rewrite normalize_cons. reflexivity.
Qed.

(** C4, as the code has it.  For a mesh with at least one triangle whose
    coordinates are single-precision values: when the largest dimension of
    the box exceeds 1e-6 the scale is 1 / (largest dimension), otherwise
    (in particular below 1e-6) it is 1.0; the scale is positive unless the
    largest dimension has overflowed to +infinity, and then it is 0. *)
Theorem scale_policy :
  forall mesh,
    triangles mesh <> [] ->
    (forall v, In v (all_vertices mesh) -> representable v) ->
    let mesh' := normalize mesh in
    let maxDim := largestDimension mesh' in
    (F32.ltb EPSILON maxDim = true -> scale mesh' = F32.div F32.one maxDim) /\
    (F32.ltb EPSILON maxDim = false -> scale mesh' = F32.one) /\
    (F32.ltb maxDim EPSILON = true -> scale mesh' = F32.one) /\
    (maxDim <> F32.infinity -> F32.ltb F32.zero (scale mesh') = true) /\
    (maxDim = F32.infinity -> scale mesh' = F32.zero).
Proof.
  intros mesh Hne Hrep mesh' maxDim. subst mesh' maxDim.
  pose proof (largestDimension_small mesh Hne Hrep) as Hsmall.
  rewrite (scale_normalize mesh Hne). unfold DEFAULT_SCALE.
  destruct (F32.ltb EPSILON (largestDimension (normalize mesh))) eqn:Hbig.
  - split; [reflexivity|]. split; [discriminate|]. split.
    { intros Hlow. apply ltb_asym in Hlow. congruence. }
    destruct (largestDimension (normalize mesh)) as [sd|sd| |sd m e];
      try (destruct sd; discriminate); try discriminate.
    + destruct sd; [discriminate|]. split; [intros H; now contradiction H | reflexivity].
    + destruct sd; [discriminate|]. split; [|discriminate]. intros _.
      destruct (div_one_positive m e Hsmall) as [(m' & e' & ->) | ->]; reflexivity.
  - split; [discriminate|]. split; [reflexivity|]. split; [reflexivity|].
    split; [reflexivity|]. intros Hinf. rewrite Hinf in Hbig. discriminate.
Qed.

End Scale.

(** C4 on the loaded one-triangle sample, whose box is [0,3]^3. *)
Lemma scale_policy_witness :
  let mesh := Samples.loaded [Samples.oneTriangle] in
  let mesh' := ModelLoader.normalize mesh in
  let maxDim := MeshSpec.largestDimension mesh' in
  (F32.ltb ModelLoader.EPSILON maxDim = true -> scale mesh' = F32.div F32.one maxDim) /\
  (F32.ltb ModelLoader.EPSILON maxDim = false -> scale mesh' = F32.one) /\
  (F32.ltb maxDim ModelLoader.EPSILON = true -> scale mesh' = F32.one) /\
  (maxDim <> F32.infinity -> F32.ltb F32.zero (scale mesh') = true) /\
  (maxDim = F32.infinity -> scale mesh' = F32.zero).
Proof.
  apply (scale_policy (Samples.loaded [Samples.oneTriangle])).
  - vm_compute. discriminate.
  - intros v Hv. vm_compute in Hv.
    destruct Hv as [<-|[<-|[<-|[]]]]; vm_compute; repeat split.
Defined.

(** C4 as stated fails: a file whose triangle spans from -FLT_MAX to
    +FLT_MAX along x loads; the extent overflows to +infinity and the
    scale it gets is 1 / infinity = 0, which is not positive. *)
Lemma overflowing_extent_gives_zero_scale :
  let run :=
    ModelLoader.loadFile (Samples.reads [Samples.hugeSpan]) "model.stl"
      Samples.emptyMesh (ModelLoader.mk "") in
  let mesh := snd (fst run) in
  fst (fst run) = true /\
  (forall v, In v (all_vertices mesh) -> MeshSpec.representable v) /\
  MeshSpec.largestDimension mesh = F32.infinity /\
  scale mesh = F32.zero /\
  F32.ltb F32.zero (scale mesh) = false.
Proof.
  cbv zeta. split; [vm_compute; reflexivity|]. split.
  - intros v Hv. vm_compute in Hv.
    destruct Hv as [<-|[<-|[<-|[]]]]; vm_compute; repeat split.
  - repeat split; vm_compute; reflexivity.
Qed.

(* ================================================================== *)
(** * Further properties of the loader *)
(* ================================================================== *)

Section LoadOutcome.

Import Assimp ModelLoader LoaderSpec FaceSpec LoaderFacts ExtractionFacts.
Local Open Scope string_scope.

Variable ReadFile : string -> ReadResult.

Lemma sceneFailure_nonempty : forall meshes self,
  sceneFailure meshes self -> getErrorMessage self <> "".
Proof.
  intros meshes self [(m & x & _ & _ & ->) | [(m & x & _ & _ & ->) | (m & f & i & _ & _ & _ & ->)]];
    cbn; discriminate.
Qed.

Lemma parse_failure_message : forall errorString self,
  snd (setError "Failed to load 3D model" errorString self) =
    mk (if String.eqb errorString "" then "Failed to load 3D model"
        else "Failed to load 3D model: " ++ errorString).
Proof.
  intros errorString self. unfold setError. cbn [snd].
  destruct (String.eqb errorString ""); reflexivity.
Qed.

(** A failed [loadFile] leaves a reason. *)
Lemma loadFile_failure_message : forall filePath mesh self,
  fst (fst (loadFile ReadFile filePath mesh self)) = false ->
  getErrorMessage (snd (loadFile ReadFile filePath mesh self)) <> "".
Proof.
  intros filePath mesh self.
  destruct (loadFile ReadFile filePath mesh self) as [[ok mesh'] self'] eqn:Hrun; cbn [fst snd].
  intros ->. rewrite loadFile_unfold in Hrun.
  destruct (ReadFile filePath) as [scene|errorString].
  - destruct (HasMeshes scene).
    + destruct (processMeshes_cases (mMeshes scene) mesh (mk ""))
        as [(m1 & Hp & _) | (m1 & s1 & Hp & _ & Hfail)]; rewrite Hp in Hrun.
      * destruct (triangles m1); [|discriminate].
        injection Hrun as _ <-. cbn. discriminate.
      * injection Hrun as _ <-. eapply sceneFailure_nonempty; eassumption.
    + injection Hrun as _ <-. cbn. discriminate.
  - injection Hrun as _ <-.
    destruct (String.eqb errorString ""); cbn; discriminate.
Qed.

(** X1.  After [loadFile], [getErrorMessage()] is empty exactly when the call
    returned true: every failure leaves a reason, and a success leaves
    none, whatever message the loader held before. *)
Theorem loadFile_error_iff_failure :
  forall filePath mesh self,
    let outcome := loadFile ReadFile filePath mesh self in
    fst (fst outcome) = false <-> getErrorMessage (snd outcome) <> "".
Proof.
  intros filePath mesh self outcome. subst outcome. split.
  - apply loadFile_failure_message.
  - destruct (loadFile ReadFile filePath mesh self) as [[[] mesh'] self'] eqn:Hrun;
      cbn [fst snd]; [|reflexivity].
    apply loadFile_success in Hrun. destruct Hrun as [-> _].
    intros H. now contradiction H.
Qed.

(** X2.  When the importer hands back no scene, the call fails with the
    importer's text in the message and leaves the mesh as it was. *)
Theorem loadFile_parse_failure :
  forall filePath mesh self errorString,
    ReadFile filePath = Null errorString ->
    loadFile ReadFile filePath mesh self =
      ((false, mesh),
       mk (if String.eqb errorString "" then "Failed to load 3D model"
           else "Failed to load 3D model: " ++ errorString)).
Proof.
  intros filePath mesh self errorString Hread.
  rewrite loadFile_unfold, Hread, parse_failure_message. reflexivity.
Qed.

Lemma faceTriangles_count : forall am faces,
  snd (faceTriangles am faces) = true ->
  List.length (fst (faceTriangles am faces)) = List.length (filter isTriangleFace faces).
Proof.
  intros am. induction faces as [|face faces IH]; [reflexivity|].
  cbn [faceTriangles filter]. unfold isTriangleFace at 1.
  destruct (mNumIndices face =? TRIANGLE_VERTICES)%N; [|exact IH].
  destruct (inRange am face); [|discriminate].
  destruct (faceTriangles am faces) as [rest ok]. cbn [fst snd] in *.
  intros Hok. cbn [List.length]. now rewrite IH.
Qed.

Lemma sceneTriangles_count : forall meshes,
  snd (sceneTriangles meshes) = true ->
  List.length (fst (sceneTriangles meshes)) = List.length (triangleFaces meshes).
Proof.
  unfold triangleFaces. induction meshes as [|am meshes IH]; [reflexivity|].
  cbn [sceneTriangles flat_map]. rewrite filter_app, length_app.
  unfold meshTriangles.
  destruct (HasFaces am && HasPositions am); [|discriminate].
  pose proof (faceTriangles_count am (mFaces am)) as Hc.
  destruct (faceTriangles am (mFaces am)) as [first ok]. cbn [fst snd] in Hc.
  destruct ok; [|discriminate]. specialize (Hc eq_refl).
  destruct (sceneTriangles meshes) as [rest ok']. cbn [fst snd] in *.
  intros Hok. rewrite length_app, Hc, IH by assumption. reflexivity.
Qed.

Lemma extends_withTriangles : forall a b,
  extends a b -> b = withTriangles a (triangles b).
Proof.
  intros a [ts lo hi c s] (_ & H1 & H2 & H3 & H4). cbn in *. unfold withTriangles.
  cbn. congruence.
Qed.

(** What a [true] from [loadFile] says of the mesh. *)
Lemma loadFile_success_triangles :
  forall filePath mesh self mesh' self',
    loadFile ReadFile filePath mesh self = ((true, mesh'), self') ->
    exists scene,
      ReadFile filePath = Scene scene /\
      Forall wellFormed (mMeshes scene) /\
      snd (sceneTriangles (mMeshes scene)) = true /\
      mesh' = normalize (withTriangles mesh
                 (triangles mesh ++ fst (sceneTriangles (mMeshes scene)))%list) /\
      triangles mesh' = (triangles mesh ++ fst (sceneTriangles (mMeshes scene)))%list.
Proof.
  intros filePath mesh self mesh' self'. rewrite loadFile_unfold.
  destruct (ReadFile filePath) as [scene|errorString]; [|discriminate].
  destruct (HasMeshes scene); [|discriminate].
  destruct (processMeshes_triangles (mMeshes scene) mesh (mk "")) as [Hok Htri].
  destruct (processMeshes_cases (mMeshes scene) mesh (mk ""))
    as [(m1 & Hrun & Hext & Hall) | (m1 & s1 & Hrun & _)]; rewrite Hrun in *; [|discriminate].
  cbn [fst snd] in Hok, Htri.
  destruct (triangles m1) as [|first rest] eqn:Hm1; [discriminate|].
  intros H. injection H as <- <-. exists scene.
  assert (Hnorm : triangles (normalize m1) = triangles m1).
  { destruct m1 as [ts lo hi c s]. cbn in Hm1. subst ts. rewrite normalize_cons. reflexivity. }
  split; [reflexivity|]. split; [exact Hall|]. split; [symmetry; exact Hok|].
  rewrite Hnorm, Hm1, Htri. split; [|reflexivity].
  f_equal. rewrite (extends_withTriangles mesh m1 Hext). now rewrite Hm1, Htri.
Qed.

(** X3.  A successful load keeps the triangles the caller's mesh already held
    and appends one triangle per three-index face of the scene; bounds,
    centre and scale are then computed over the whole list. *)
Theorem loadFile_success_appends :
  forall filePath mesh self mesh' self',
    loadFile ReadFile filePath mesh self = ((true, mesh'), self') ->
    exists scene,
      ReadFile filePath = Scene scene /\
      Forall wellFormed (mMeshes scene) /\
      triangles mesh' = (triangles mesh ++ fst (sceneTriangles (mMeshes scene)))%list /\
      List.length (triangles mesh') =
        (List.length (triangles mesh) + List.length (triangleFaces (mMeshes scene)))%nat /\
      mesh' = normalize (withTriangles mesh
                 (triangles mesh ++ fst (sceneTriangles (mMeshes scene)))%list).
Proof.
  intros filePath mesh self mesh' self' Hrun.
  destruct (loadFile_success_triangles _ _ _ _ _ Hrun)
    as (scene & Hread & Hall & Hok & Hmesh & Htri).
  exists scene. split; [exact Hread|]. split; [exact Hall|]. split; [exact Htri|].
  split; [|exact Hmesh].
  rewrite Htri, length_app, sceneTriangles_count by exact Hok. reflexivity.
Qed.

Lemma extractFaces_skips : forall faces am mesh self,
  (forall face, In face faces -> mNumIndices face <> TRIANGLE_VERTICES) ->
  extractFaces faces am mesh self = ((true, mesh), self).
Proof.
  induction faces as [|face faces IH]; intros am mesh self Hskip; [reflexivity|].
  rewrite extractFaces_cons.
  destruct (N.eqb_spec (mNumIndices face) TRIANGLE_VERTICES) as [Heq|_].
  - exfalso. exact (Hskip face (or_introl eq_refl) Heq).
  - apply IH. intros f Hf. apply Hskip. now right.
Qed.

Lemma processMeshes_skips : forall meshes mesh self,
  (forall am, In am meshes ->
     HasFaces am = true /\ HasPositions am = true /\
     forall face, In face (mFaces am) -> mNumIndices face <> TRIANGLE_VERTICES) ->
  processMeshes meshes mesh self = ((true, mesh), self).
Proof.
  induction meshes as [|am meshes IH]; intros mesh self Hall; [reflexivity|].
  rewrite processMeshes_cons.
  destruct (Hall am (or_introl eq_refl)) as (Hf & Hp & Hskip).
  unfold processMesh. rewrite Hf, Hp. cbn [negb].
  rewrite extractFaces_skips by assumption.
  apply IH. intros a Ha. apply Hall. now right.
Qed.

(** X4.  Faces that do not have exactly three indices are passed over without
    any check: a scene made only of such faces yields no triangle.  The
    load then fails with the no-triangle message when the caller's mesh
    was empty, and succeeds on the caller's old triangles otherwise. *)
Theorem loadFile_skips_other_faces :
  forall filePath mesh self scene,
    ReadFile filePath = Scene scene ->
    mMeshes scene <> [] ->
    (forall am, In am (mMeshes scene) ->
       HasFaces am = true /\ HasPositions am = true /\
       forall face, In face (mFaces am) -> mNumIndices face <> TRIANGLE_VERTICES) ->
    loadFile ReadFile filePath mesh self =
      match triangles mesh with
      | [] => ((false, mesh), mk noTriangleMessage)
      | _ :: _ => ((true, normalize mesh), mk "")
      end.
Proof.
  intros filePath mesh self scene Hread Hne Hall.
  rewrite loadFile_unfold, Hread.
  assert (Hhas : HasMeshes scene = true).
  { unfold HasMeshes, mNumMeshes. destruct (mMeshes scene); [contradiction | reflexivity]. }
  rewrite Hhas, processMeshes_skips by assumption. reflexivity.
Qed.

End LoadOutcome.

Lemma loadFile_error_iff_failure_witness :
  fst (fst (ModelLoader.loadFile Samples.readsByName "broken.stl" Samples.emptyMesh
              (ModelLoader.mk "earlier message"))) = false.
Proof.
  apply (proj2 (loadFile_error_iff_failure Samples.readsByName "broken.stl"%string
                  Samples.emptyMesh (ModelLoader.mk "earlier message"))).
  vm_compute. discriminate.
Defined.

Lemma loadFile_parse_failure_witness :
  ModelLoader.loadFile Samples.readsByName "broken.stl" Samples.emptyMesh (ModelLoader.mk "") =
    ((false, Samples.emptyMesh), ModelLoader.mk "Failed to load 3D model: unreadable file").
Proof.
  apply (loadFile_parse_failure Samples.readsByName "broken.stl"%string Samples.emptyMesh
           (ModelLoader.mk "") "unreadable file"%string).
  reflexivity.
Defined.

(** Loading the one-triangle file into a mesh that already holds it. *)
Lemma loadFile_success_appends_witness :
  let held := Samples.loaded [Samples.oneTriangle] in
  let outcome := ModelLoader.loadFile (Samples.reads [Samples.oneTriangle]) "model.stl" held
                   (ModelLoader.mk "") in
  fst (fst outcome) = true /\
  List.length (triangles (snd (fst outcome))) = 2%nat.
Proof.
  intros held outcome.
  assert (Hrun : outcome = ((true, snd (fst outcome)), snd outcome))
    by (vm_compute; reflexivity).
  destruct (loadFile_success_appends (Samples.reads [Samples.oneTriangle]) "model.stl"%string
              held (ModelLoader.mk "") _ _ Hrun) as (scene & Hread & _ & _ & Hlen & _).
  injection Hread as <-.
  split; [vm_compute; reflexivity|]. rewrite Hlen. vm_compute. reflexivity.
Defined.

Lemma loadFile_skips_other_faces_witness :
  ModelLoader.loadFile (Samples.reads [LoaderSamples.quadOnly; LoaderSamples.segments])
    "quads.obj" Samples.emptyMesh (ModelLoader.mk "") =
    ((false, Samples.emptyMesh), ModelLoader.mk LoaderSpec.noTriangleMessage).
Proof.
  apply (loadFile_skips_other_faces
           (Samples.reads [LoaderSamples.quadOnly; LoaderSamples.segments])
           "quads.obj"%string Samples.emptyMesh (ModelLoader.mk "")
           (Assimp.AiScene [LoaderSamples.quadOnly; LoaderSamples.segments]) eq_refl).
  - discriminate.
  - intros am [<-|[<-|[]]]; (split; [reflexivity|]); (split; [reflexivity|]).
    + intros face [<-|[]]. discriminate.
    + intros face [<-|[<-|[]]]; discriminate.
Defined.

(* ------------------------------------------------------------------ *)
(** ** The normal computed for a face *)

Module NormalFacts.

Import FaceSpec.

Ltac float_cases x := destruct x as [[|]|[|]| |[|] ? ?].

Lemma null_sub_self : forall x, null (F32.sub x x) = true.
Proof.
  intros x. destruct x as [[|]|[|]| |s m e]; try reflexivity.
  unfold F32.sub, SFsub. rewrite Z.sub_diag. reflexivity.
Qed.

Lemma null_mul_l : forall x y, null x = true -> null (F32.mul x y) = true.
Proof. intros x y. float_cases x; try discriminate; float_cases y; reflexivity. Qed.

Lemma null_mul_r : forall x y, null y = true -> null (F32.mul x y) = true.
Proof. intros x y. float_cases y; try discriminate; float_cases x; reflexivity. Qed.

Lemma null_sub : forall x y, null x = true -> null y = true -> null (F32.sub x y) = true.
Proof.
  intros x y. float_cases x; try discriminate; float_cases y; try discriminate; reflexivity.
Qed.

Lemma null_add : forall x y, null x = true -> null y = true -> null (F32.add x y) = true.
Proof.
  intros x y. float_cases x; try discriminate; float_cases y; try discriminate; reflexivity.
Qed.

Lemma null_sqrt : forall x, null x = true -> null (F32.sqrt x) = true.
Proof. intros x. float_cases x; try discriminate; reflexivity. Qed.

Lemma mul_null_inversesqrt : forall x d,
  null x = true -> null d = true -> F32.mul x (glm.inversesqrt d) = S754_nan.
Proof.
  intros x d. float_cases x; try discriminate; float_cases d; try discriminate; reflexivity.
Qed.

(** Normalising a vector whose components are all zero or NaN gives NaN
    in every component. *)
Lemma normalize_null : forall v,
  null (glm.x v) = true -> null (glm.y v) = true -> null (glm.z v) = true ->
  allNaN (glm.normalize v).
Proof.
  intros [a b c] Ha Hb Hc. cbn [glm.x glm.y glm.z] in *.
  assert (Hd : null (glm.dot (glm.Vec3 a b c) (glm.Vec3 a b c)) = true).
  { unfold glm.dot. cbn [glm.x glm.y glm.z].
    apply null_add; [apply null_add|]; apply null_mul_l; assumption. }
  unfold allNaN, glm.normalize, glm.scale_by. cbn [glm.x glm.y glm.z].
  repeat split; apply mul_null_inversesqrt; assumption.
Qed.

Lemma cross_null_l : forall a b,
  null (glm.x a) = true -> null (glm.y a) = true -> null (glm.z a) = true ->
  let n := glm.cross a b in
  null (glm.x n) = true /\ null (glm.y n) = true /\ null (glm.z n) = true.
Proof.
  intros a b Hx Hy Hz. cbn. repeat split; apply null_sub;
    first [apply null_mul_l; assumption | apply null_mul_r; assumption].
Qed.

Lemma cross_null_r : forall a b,
  null (glm.x b) = true -> null (glm.y b) = true -> null (glm.z b) = true ->
  let n := glm.cross a b in
  null (glm.x n) = true /\ null (glm.y n) = true /\ null (glm.z n) = true.
Proof.
  intros a b Hx Hy Hz. cbn. repeat split; apply null_sub;
    first [apply null_mul_l; assumption | apply null_mul_r; assumption].
Qed.

Lemma cross_self : forall a,
  let n := glm.cross a a in
  null (glm.x n) = true /\ null (glm.y n) = true /\ null (glm.z n) = true.
Proof. intros a. cbn. repeat split; apply null_sub_self. Qed.

Lemma sub_self_null : forall a,
  let d := glm.sub a a in
  null (glm.x d) = true /\ null (glm.y d) = true /\ null (glm.z d) = true.
Proof. intros a. cbn. repeat split; apply null_sub_self. Qed.

End NormalFacts.

Section FaceNormal.

Import Assimp ModelLoader LoaderSpec FaceSpec NormalFacts.
Local Open Scope string_scope.

(** [createTriangle] on a three-index face whose indices are in range. *)
Lemma createTriangle_in_range : forall am i0 i1 i2 triangle self,
  (i0 <? mNumVertices am)%N = true ->
  (i1 <? mNumVertices am)%N = true ->
  (i2 <? mNumVertices am)%N = true ->
  HasNormals am = false ->
  createTriangle (AiFace [i0; i1; i2]) am triangle self =
    ((true,
      mkTriangle
        (glm.normalize (glm.cross (glm.sub (vertexAt am i1) (vertexAt am i0))
                                  (glm.sub (vertexAt am i2) (vertexAt am i0))))
        (vertexAt am i0) (vertexAt am i1) (vertexAt am i2)),
     self).
Proof.
  intros am i0 i1 i2 triangle self H0 H1 H2 Hn.
  apply N.ltb_lt in H0, H1, H2.
  unfold createTriangle, bind. cbn [fetchVertices nth mIndices].
  destruct (N.leb_spec (mNumVertices am) i0); [lia|].
  destruct (N.leb_spec (mNumVertices am) i1); [lia|].
  destruct (N.leb_spec (mNumVertices am) i2); [lia|].
  cbn. rewrite Hn. reflexivity.
Qed.

(** X5.  In a file without normals, a face two of whose corners are the same
    point is still accepted, and the normal stored for it is NaN in every
    component, whatever the coordinates. *)
Theorem degenerate_face_normal_is_nan : forall am i0 i1 i2 triangle self,
  (i0 <? mNumVertices am)%N = true ->
  (i1 <? mNumVertices am)%N = true ->
  (i2 <? mNumVertices am)%N = true ->
  HasNormals am = false ->
  vertexAt am i1 = vertexAt am i0 \/ vertexAt am i2 = vertexAt am i0 \/
  vertexAt am i2 = vertexAt am i1 ->
  let made := createTriangle (AiFace [i0; i1; i2]) am triangle self in
  fst (fst made) = true /\
  vertices (snd (fst made)) = [vertexAt am i0; vertexAt am i1; vertexAt am i2] /\
  allNaN (normal (snd (fst made))) /\
  snd made = self.
Proof.
  intros am i0 i1 i2 triangle self H0 H1 H2 Hn Hsame. cbv zeta.
  rewrite createTriangle_in_range by assumption. cbn [fst snd normal vertices vertex0 vertex1 vertex2].
  split; [reflexivity|]. split; [reflexivity|]. split; [|reflexivity].
  destruct Hsame as [-> | [-> | ->]].
  - destruct (sub_self_null (vertexAt am i0)) as (Hx & Hy & Hz).
    destruct (cross_null_l _ (glm.sub (vertexAt am i2) (vertexAt am i0)) Hx Hy Hz)
      as (Hx' & Hy' & Hz').
    apply normalize_null; assumption.
  - destruct (sub_self_null (vertexAt am i0)) as (Hx & Hy & Hz).
    destruct (cross_null_r (glm.sub (vertexAt am i1) (vertexAt am i0)) _ Hx Hy Hz)
      as (Hx' & Hy' & Hz').
    apply normalize_null; assumption.
  - destruct (cross_self (glm.sub (vertexAt am i1) (vertexAt am i0))) as (Hx & Hy & Hz).
    apply normalize_null; assumption.
Qed.

End FaceNormal.

Lemma degenerate_face_normal_is_nan_witness :
  let made := ModelLoader.createTriangle (Assimp.AiFace [0; 1; 1]%N) LoaderSamples.sliver
                ModelLoader.emptyTriangle (ModelLoader.mk "") in
  fst (fst made) = true /\
  FaceSpec.allNaN (normal (snd (fst made))).
Proof.
  intros made.
  destruct (degenerate_face_normal_is_nan LoaderSamples.sliver 0 1 1
              ModelLoader.emptyTriangle (ModelLoader.mk "")
              eq_refl eq_refl eq_refl eq_refl (or_intror (or_intror eq_refl)))
    as (Hok & _ & Hnan & _).
  split; [exact Hok|exact Hnan].
Defined.

(* ------------------------------------------------------------------ *)
(** ** The shape of the bounding box *)

Section BoxShape.

Import ModelLoader MeshSpec F32Spec F32Order.

Lemma fold_min_nan : forall l, fold_left F32.min l S754_nan = S754_nan.
Proof.
  induction l as [|b l IH]; [reflexivity|]. cbn [fold_left].
  replace (F32.min S754_nan b) with (S754_nan : F32.float); [exact IH|].
  unfold F32.min, F32.ltb, SFltb. now destruct b.
Qed.

Lemma fold_max_nan : forall l, fold_left F32.max l S754_nan = S754_nan.
Proof.
  induction l as [|b l IH]; [reflexivity|]. cbn [fold_left].
  exact IH.
Qed.

(** X6.  A NaN x coordinate in the very first vertex takes over: both x bounds
    and the x of the centre are NaN and, because [std::max] keeps a NaN
    that comes first, the scale is 1.0 whatever the extent in y and z. *)
Theorem nan_first_vertex_takes_over :
  forall mesh first rest,
    triangles mesh = first :: rest ->
    glm.x (vertex0 first) = S754_nan ->
    glm.x (min_bounds (normalize mesh)) = S754_nan /\
    glm.x (max_bounds (normalize mesh)) = S754_nan /\
    glm.x (center (normalize mesh)) = S754_nan /\
    scale (normalize mesh) = F32.one.
Proof.
  intros [ts lo hi c s] first rest Hts Hnan. cbn [triangles] in Hts. subst ts.
  rewrite normalize_cons. cbv zeta. cbn [min_bounds max_bounds center scale].
  rewrite fold_triangles_flat, fold_expandBounds. cbn [fst snd glm.x glm.y glm.z glm.sub glm.add glm.scale_by].
  rewrite Hnan, fold_min_nan, fold_max_nan. repeat split.
Qed.

End BoxShape.

Lemma nan_first_vertex_takes_over_witness :
  let mesh := Samples.loaded [Samples.nanCorner] in
  glm.x (min_bounds (ModelLoader.normalize mesh)) = S754_nan /\
  glm.x (max_bounds (ModelLoader.normalize mesh)) = S754_nan /\
  glm.x (center (ModelLoader.normalize mesh)) = S754_nan /\
  scale (ModelLoader.normalize mesh) = F32.one.
Proof.
  intros mesh.
  assert (Hts : triangles mesh = hd ModelLoader.emptyTriangle (triangles mesh) :: tl (triangles mesh))
    by (vm_compute; reflexivity).
  apply (nan_first_vertex_takes_over mesh _ _ Hts).
  vm_compute. reflexivity.
Defined.

(* ------------------------------------------------------------------ *)

Module ShaderFacts.

Import GL Shader.
Local Open Scope string_scope.
Local Open Scope list_scope.

Lemma eqb_empty : forall s, s <> "" -> String.eqb s "" = false.
Proof. intros s H. destruct (String.eqb_spec s ""); [contradiction | reflexivity]. Qed.

Ltac normalize_log :=
  repeat rewrite <- app_assoc in *; cbn [app] in *.

Ltac split_run :=
  repeat (cbv beta iota;
          match goal with
          | |- context [if (?x =? 0)%Z then _ else _] => destruct (x =? 0)%Z eqn:?
          | |- context [(0 =? 0)%N] => change (0 =? 0)%N with true
          | |- context [(?a || true)%bool] => rewrite (orb_true_r a)
          | |- context [(true || ?a)%bool] => change (true || a)%bool with true
          | |- context [(false || ?a)%bool] => change (false || a)%bool with a
          | |- context [negb true] => change (negb true) with false
          | |- context [negb false] => change (negb false) with true
          | |- context [if (?a =? 0)%N then _ else _] => destruct (a =? 0)%N eqn:?
          | |- context [if (?a =? 0)%N || _ then _ else _] => destruct (a =? 0)%N eqn:?
          end).

Ltac use_status :=
  repeat match goal with
         | H : (_ =? 0)%Z = _ |- _ => rewrite H
         end.

(** The three ways [create] ends once both files were read and are not
    empty. *)
Lemma create_cases : forall w vertexPath fragmentPath self calls vertexCode fragmentCode,
  readFile w vertexPath = Some vertexCode ->
  readFile w fragmentPath = Some fragmentCode ->
  vertexCode <> "" -> fragmentCode <> "" ->
  exists ok self' made,
    create w vertexPath fragmentPath self calls = ((ok, self'), calls ++ made) /\
    uniformLocationCache self' = uniformLocationCache self /\
    deletedPrograms made = [] /\
    bufferCalls made = [] /\
    List.length (createdShaders made) = 2%nat /\
    ((ok = false /\ createdPrograms made = [] /\ programID self' = programID self /\
      deletedShaders made = failedShaders made /\
      (failedShaders made = [] -> errorMessage self' = "") /\
      errorMessage self' = compileFailureMessage (compileStatuses made) (shaderInfoLogs made) /\
      List.length (compileStatuses made) = 2%nat) \/
     (ok = false /\ createdPrograms made = [programID self'] /\ deletedShaders made = [] /\
      failedShaders made = [] /\
      exists infoLog,
        In (GetProgramInfoLog (programID self') infoLog) made /\
        errorMessage self' = ("Shader program linking failed: " ++ infoLogText infoLog)%string) \/
     (ok = true /\ createdPrograms made = [programID self'] /\
      deletedShaders made = createdShaders made /\ failedShaders made = [] /\
      ~ In 0%N (createdShaders made) /\ errorMessage self' = "")).
Proof.
  intros w vertexPath fragmentPath self calls vertexCode fragmentCode Hv Hf Hnv Hnf.
  unfold create, loadShaderFile. rewrite Hv, Hf.
  cbn [set_errorMessage programID errorMessage uniformLocationCache].
  rewrite (eqb_empty _ Hnv), (eqb_empty _ Hnf). cbn [orb].
  unfold compileShader, linkProgram, bind, ask, tell, ret.
  cbn [set_errorMessage set_programID programID errorMessage uniformLocationCache].
  split_run.
  all: normalize_log.
  all: eexists _, _, _; (split; [reflexivity|]).
  all: cbn [uniformLocationCache programID errorMessage deletedPrograms createdShaders
            createdPrograms deletedShaders failedShaders flat_map app List.length
            bufferCalls filter isBufferCall compileStatuses shaderInfoLogs
            compileFailureMessage last].
  all: use_status.
  all: cbn [app].
  all: split; [reflexivity|]; split; [reflexivity|]; split; [reflexivity|];
    split; [reflexivity|].
  all: try (left; repeat split; first [discriminate | reflexivity]).
  - right; left. repeat split.
    eexists. split; [|reflexivity]. do 13 right. left. reflexivity.
  - right; right. repeat split.
    intros [H|[H|[]]]; apply N.eqb_eq in H; congruence.
Qed.

(** What [create] does before it reaches the driver. *)
Lemma create_early : forall w vertexPath fragmentPath self calls,
  (match readFile w vertexPath, readFile w fragmentPath with
   | Some vertexCode, Some fragmentCode => vertexCode = "" \/ fragmentCode = ""
   | _, _ => True
   end) ->
  exists message,
    create w vertexPath fragmentPath self calls = ((false, set_errorMessage self message), calls).
Proof.
  intros w vertexPath fragmentPath self calls H. unfold create, loadShaderFile.
  destruct (readFile w vertexPath) as [vertexCode|], (readFile w fragmentPath) as [fragmentCode|];
    cbn [set_errorMessage programID errorMessage uniformLocationCache].
  - destruct H as [-> | ->].
    + eexists. reflexivity.
    + rewrite orb_true_r. eexists. reflexivity.
  - rewrite orb_true_r. eexists. reflexivity.
  - eexists. reflexivity.
  - eexists. reflexivity.
Qed.

(** Every run of [create]: the calls are added at the end of the log, and
    the run is one of the four kinds. *)
Lemma create_outcome : forall w vertexPath fragmentPath self calls,
  exists ok self' made,
    create w vertexPath fragmentPath self calls = ((ok, self'), calls ++ made) /\
    uniformLocationCache self' = uniformLocationCache self /\
    deletedPrograms made = [] /\
    bufferCalls made = [] /\
    ((ok = false /\ made = [] /\ programID self' = programID self) \/
     (ok = false /\ made <> [] /\ createdPrograms made = [] /\
      programID self' = programID self /\ List.length (createdShaders made) = 2%nat /\
      deletedShaders made = failedShaders made /\
      (failedShaders made = [] -> errorMessage self' = "") /\
      errorMessage self' = compileFailureMessage (compileStatuses made) (shaderInfoLogs made) /\
      List.length (compileStatuses made) = 2%nat) \/
     (ok = false /\ createdPrograms made = [programID self'] /\
      List.length (createdShaders made) = 2%nat /\ deletedShaders made = [] /\
      failedShaders made = [] /\
      exists infoLog,
        In (GetProgramInfoLog (programID self') infoLog) made /\
        errorMessage self' = ("Shader program linking failed: " ++ infoLogText infoLog)%string) \/
     (ok = true /\ createdPrograms made = [programID self'] /\
      List.length (createdShaders made) = 2%nat /\
      deletedShaders made = createdShaders made /\ failedShaders made = [] /\
      ~ In 0%N (createdShaders made) /\ errorMessage self' = "")).
Proof.
  intros w vertexPath fragmentPath self calls.
  destruct (readFile w vertexPath) as [vertexCode|] eqn:Hv;
    [destruct (readFile w fragmentPath) as [fragmentCode|] eqn:Hf;
     [destruct (String.eqb_spec vertexCode "") as [Hnv|Hnv];
      [|destruct (String.eqb_spec fragmentCode "") as [Hnf|Hnf]]|]|].
  3: { destruct (create_cases w _ _ self calls _ _ Hv Hf Hnv Hnf)
         as (ok & self' & made & Hrun & Hcache & Hprog & Hbuf & Hlen & Hcases).
       exists ok, self', made. split; [exact Hrun|]. split; [exact Hcache|]. split; [exact Hprog|].
       split; [exact Hbuf|].
       destruct Hcases as [(-> & Hc & Hid & Hdel & Hmsg & Htext & Hstatuses) | [(-> & Hc & Hdel & Hfail & Hlog) | (-> & Hc & Hdel & Hfail & Hzero & Hmsg)]].
       - right; left. repeat split; try assumption.
         intros ->. discriminate Hlen.
       - right; right; left. repeat split; assumption.
       - right; right; right. repeat split; assumption. }
  all: destruct (create_early w vertexPath fragmentPath self calls) as [message Hrun];
    [rewrite Hv; try rewrite Hf; auto|].
  all: exists false, (set_errorMessage self message), []; rewrite app_nil_r.
  all: split; [exact Hrun|]; split; [reflexivity|]; split; [reflexivity|];
    split; [reflexivity|].
  all: left; repeat split.
Qed.

(** What is known of a run from its result. *)
Lemma create_result : forall w vertexPath fragmentPath self calls ok self' made,
  create w vertexPath fragmentPath self calls = ((ok, self'), calls ++ made) ->
  uniformLocationCache self' = uniformLocationCache self /\
  deletedPrograms made = [] /\
  bufferCalls made = [] /\
  ((ok = false /\ made = [] /\ programID self' = programID self) \/
   (ok = false /\ made <> [] /\ createdPrograms made = [] /\
    programID self' = programID self /\ List.length (createdShaders made) = 2%nat /\
    deletedShaders made = failedShaders made /\
    (failedShaders made = [] -> errorMessage self' = "") /\
      errorMessage self' = compileFailureMessage (compileStatuses made) (shaderInfoLogs made) /\
      List.length (compileStatuses made) = 2%nat) \/
   (ok = false /\ createdPrograms made = [programID self'] /\
    List.length (createdShaders made) = 2%nat /\ deletedShaders made = [] /\
    failedShaders made = [] /\
    exists infoLog,
      In (GetProgramInfoLog (programID self') infoLog) made /\
      errorMessage self' = ("Shader program linking failed: " ++ infoLogText infoLog)%string) \/
   (ok = true /\ createdPrograms made = [programID self'] /\
    List.length (createdShaders made) = 2%nat /\
    deletedShaders made = createdShaders made /\ failedShaders made = [] /\
    ~ In 0%N (createdShaders made) /\ errorMessage self' = "")).
Proof.
  intros w vertexPath fragmentPath self calls ok self' made Hrun.
  destruct (create_outcome w vertexPath fragmentPath self calls)
    as (ok0 & self0 & made0 & Hrun0 & Hrest).
  rewrite Hrun in Hrun0. injection Hrun0 as -> -> Hlog.
  apply app_inv_head in Hlog. subst made0. exact Hrest.
Qed.

(** X7.  A shader file that cannot be opened: [create] fails before any
    OpenGL call, and the message names the file; the fragment file when
    both are missing. *)
Theorem create_unreadable_file : forall w vertexPath fragmentPath self calls,
  readFile w vertexPath = None \/ readFile w fragmentPath = None ->
  create w vertexPath fragmentPath self calls =
    ((false,
      set_errorMessage self
        ("Failed to open shader file: " ++
         match readFile w fragmentPath with
         | None => fragmentPath
         | Some _ => vertexPath
         end)%string),
     calls).
Proof.
  intros w vertexPath fragmentPath self calls H. unfold create, loadShaderFile.
  destruct (readFile w vertexPath) as [vertexCode|], (readFile w fragmentPath) as [fragmentCode|];
    cbn [set_errorMessage programID errorMessage uniformLocationCache].
  - destruct H; discriminate.
  - rewrite orb_true_r. reflexivity.
  - reflexivity.
  - reflexivity.
Qed.

Lemma create_unreadable_file_witness :
  create ShaderSamples.working "shaders/vertex.glsl" "shaders/missing.glsl" Shader.new [] =
    ((false, mk 0 "Failed to open shader file: shaders/missing.glsl" base.empty), []).
Proof.
  apply (create_unreadable_file ShaderSamples.working "shaders/vertex.glsl"
           "shaders/missing.glsl" Shader.new []).
  right. reflexivity.
Defined.

(** X8.  A shader file that opens but is empty: [create] fails before any
    OpenGL call and leaves the error message empty. *)
Theorem create_empty_file_is_silent :
  forall w vertexPath fragmentPath self calls vertexCode fragmentCode,
    readFile w vertexPath = Some vertexCode ->
    readFile w fragmentPath = Some fragmentCode ->
    vertexCode = "" \/ fragmentCode = "" ->
    let outcome := create w vertexPath fragmentPath self calls in
    outcome = ((false, set_errorMessage self ""), calls) /\
    getErrorMessage (snd (fst outcome)) = "".
Proof.
  intros w vertexPath fragmentPath self calls vertexCode fragmentCode Hv Hf H.
  cbv zeta. unfold create, loadShaderFile. rewrite Hv, Hf.
  cbn [set_errorMessage programID errorMessage uniformLocationCache].
  destruct H as [-> | ->].
  - split; reflexivity.
  - rewrite orb_true_r. split; reflexivity.
Qed.

Lemma create_empty_file_is_silent_witness :
  let outcome := create ShaderSamples.working "shaders/vertex.glsl" "shaders/empty.glsl" Shader.new [] in
  outcome = ((false, set_errorMessage Shader.new ""), []) /\
  getErrorMessage (snd (fst outcome)) = "".
Proof.
  apply (create_empty_file_is_silent ShaderSamples.working "shaders/vertex.glsl"
           "shaders/empty.glsl" Shader.new [] "void main() {}" "").
  - reflexivity.
  - reflexivity.
  - right. reflexivity.
Defined.

(** X9.  A [true] from [create]: both files were read and are not empty, two
    shaders were created, none with id 0, none reported as failed, and
    both deleted again; one program was created, it is the one the
    object now holds, and the error message is empty. *)
Theorem create_success : forall w vertexPath fragmentPath self calls self' made,
  create w vertexPath fragmentPath self calls = ((true, self'), calls ++ made) ->
  (exists vertexCode fragmentCode,
     readFile w vertexPath = Some vertexCode /\ vertexCode <> "" /\
     readFile w fragmentPath = Some fragmentCode /\ fragmentCode <> "") /\
  createdPrograms made = [programID self'] /\
  List.length (createdShaders made) = 2%nat /\
  deletedShaders made = createdShaders made /\
  failedShaders made = [] /\
  ~ In 0%N (createdShaders made) /\
  getErrorMessage self' = "".
Proof.
  intros w vertexPath fragmentPath self calls self' made Hrun.
  split.
  - destruct (readFile w vertexPath) as [vertexCode|] eqn:Hv;
      [destruct (readFile w fragmentPath) as [fragmentCode|] eqn:Hf;
       [destruct (String.eqb_spec vertexCode "") as [Hnv|Hnv];
        [|destruct (String.eqb_spec fragmentCode "") as [Hnf|Hnf]]|]|].
    3: { exists vertexCode, fragmentCode. repeat split; assumption. }
    all: destruct (create_early w vertexPath fragmentPath self calls) as [message Hearly];
      [rewrite Hv; try rewrite Hf; auto|].
    all: rewrite Hearly in Hrun; discriminate Hrun.
  - destruct (create_result _ _ _ _ _ _ _ _ Hrun) as (_ & _ & _ & Hcases).
    destruct Hcases as [(H & _) | [(H & _) | [(H & _) | (_ & Hc & Hlen & Hdel & Hfail & Hzero & Hmsg)]]];
      try discriminate H.
    repeat split; assumption.
Qed.

Lemma create_success_witness :
  let outcome := create ShaderSamples.working "shaders/vertex.glsl" "shaders/fragment.glsl"
                   Shader.new [] in
  fst (fst outcome) = true /\
  createdPrograms (snd outcome) = [programID (snd (fst outcome))] /\
  deletedShaders (snd outcome) = createdShaders (snd outcome) /\
  getErrorMessage (snd (fst outcome)) = "".
Proof.
  intro outcome.
  assert (Hrun : outcome = ((true, snd (fst outcome)), [] ++ snd outcome))
    by (vm_compute; reflexivity).
  destruct (create_success _ _ _ _ _ _ _ Hrun) as (_ & Hc & _ & Hdel & _ & _ & Hmsg).
  split; [vm_compute; reflexivity|]. split; [exact Hc|]. split; [exact Hdel|exact Hmsg].
Defined.

(** X10.  A link failure: [create] returns false, but the object already holds
    the program that failed to link (so [isValid] answers by that id),
    and neither the program nor the two compiled shaders are deleted. *)
Theorem create_link_failure_keeps_program :
  forall w vertexPath fragmentPath self calls self' made,
    create w vertexPath fragmentPath self calls = ((false, self'), calls ++ made) ->
    createdPrograms made <> [] ->
    createdPrograms made = [programID self'] /\
    isValid self' = negb (hd 0%N (createdPrograms made) =? 0)%N /\
    List.length (createdShaders made) = 2%nat /\
    deletedShaders made = [] /\
    deletedPrograms made = [] /\
    exists infoLog,
      In (GetProgramInfoLog (programID self') infoLog) made /\
      getErrorMessage self' = ("Shader program linking failed: " ++ infoLogText infoLog)%string.
Proof.
  intros w vertexPath fragmentPath self calls self' made Hrun Hcreated.
  destruct (create_result _ _ _ _ _ _ _ _ Hrun) as (_ & Hprog & _ & Hcases).
  destruct Hcases as [(_ & -> & _) | [(_ & _ & Hc & _) | [(_ & Hc & Hlen & Hdel & _ & Hlog) | (H & _)]]].
  - exfalso. apply Hcreated. reflexivity.
  - contradiction.
  - rewrite Hc. cbn [hd]. repeat split; assumption.
  - discriminate H.
Qed.

Lemma create_link_failure_keeps_program_witness :
  let outcome := create ShaderSamples.rejectsLink "shaders/vertex.glsl" "shaders/fragment.glsl"
                   Shader.new [] in
  fst (fst outcome) = false /\
  isValid (snd (fst outcome)) = true /\
  deletedShaders (snd outcome) = [] /\ deletedPrograms (snd outcome) = [].
Proof.
  intro outcome.
  assert (Hrun : outcome = ((false, snd (fst outcome)), [] ++ snd outcome))
    by (vm_compute; reflexivity).
  assert (Hcreated : createdPrograms (snd outcome) <> []) by (vm_compute; discriminate).
  destruct (create_link_failure_keeps_program _ _ _ _ _ _ _ Hrun Hcreated)
    as (_ & Hvalid & _ & Hdel & Hprog & _).
  split; [vm_compute; reflexivity|]. split; [rewrite Hvalid; vm_compute; reflexivity|].
  split; [exact Hdel|exact Hprog].
Defined.

(** X11.  A compile failure: both stages are always compiled, and only the
    shaders reported as failed are deleted; one that compiled beside a
    failed one stays allocated.  The program id is untouched. *)
Theorem create_compile_failure_releases_failed_only :
  forall w vertexPath fragmentPath self calls self' made,
    create w vertexPath fragmentPath self calls = ((false, self'), calls ++ made) ->
    made <> [] ->
    createdPrograms made = [] ->
    programID self' = programID self /\
    List.length (createdShaders made) = 2%nat /\
    deletedShaders made = failedShaders made /\
    (failedShaders made = [] -> getErrorMessage self' = "").
Proof.
  intros w vertexPath fragmentPath self calls self' made Hrun Hnew Hnone.
  destruct (create_result _ _ _ _ _ _ _ _ Hrun) as (_ & _ & _ & Hcases).
  destruct Hcases as [(_ & -> & _) | [(_ & _ & _ & Hid & Hlen & Hdel & Hmsg & _) | [(_ & Hc & _) | (H & _)]]].
  - exfalso. apply Hnew. reflexivity.
  - repeat split; assumption.
  - rewrite Hc in Hnone. discriminate Hnone.
  - discriminate H.
Qed.

Lemma create_compile_failure_releases_failed_only_witness :
  let outcome := create ShaderSamples.rejectsVertex "shaders/vertex.glsl"
                   "shaders/fragment.glsl" Shader.new [] in
  fst (fst outcome) = false /\
  List.length (createdShaders (snd outcome)) = 2%nat /\
  List.length (deletedShaders (snd outcome)) = 1%nat.
Proof.
  intro outcome.
  assert (Hrun : outcome = ((false, snd (fst outcome)), [] ++ snd outcome))
    by (vm_compute; reflexivity).
  assert (Hmade : snd outcome <> []) by (vm_compute; discriminate).
  assert (Hnone : createdPrograms (snd outcome) = []) by (vm_compute; reflexivity).
  destruct (create_compile_failure_releases_failed_only _ _ _ _ _ _ _ Hrun Hmade Hnone)
    as (_ & Hlen & Hdel & _).
  split; [vm_compute; reflexivity|]. split; [exact Hlen|].
  rewrite Hdel. vm_compute. reflexivity.
Defined.

(** X12.  When compilation fails, the message names the fragment stage if the
    fragment shader failed, whatever happened to the vertex shader, and
    the vertex stage otherwise; the text is the info log read last. *)
Theorem create_reports_last_compile_failure :
  forall w vertexPath fragmentPath self calls self' made,
    create w vertexPath fragmentPath self calls = ((false, self'), calls ++ made) ->
    made <> [] ->
    createdPrograms made = [] ->
    exists vertexStatus fragmentStatus,
      compileStatuses made = [vertexStatus; fragmentStatus] /\
      getErrorMessage self' =
        if (fragmentStatus =? 0)%Z then
          ("Fragment shader compilation failed: " ++
           infoLogText (last (shaderInfoLogs made) ""))%string
        else if (vertexStatus =? 0)%Z then
          ("Vertex shader compilation failed: " ++
           infoLogText (last (shaderInfoLogs made) ""))%string
        else "".
Proof.
  intros w vertexPath fragmentPath self calls self' made Hrun Hmade Hnone.
  destruct (create_result _ _ _ _ _ _ _ _ Hrun) as (_ & _ & _ & Hcases).
  destruct Hcases as [(_ & -> & _) | [(_ & _ & _ & _ & _ & _ & _ & Htext & Hlen) | [(_ & Hc & _) | (H & _)]]].
  - exfalso. apply Hmade. reflexivity.
  - destruct (compileStatuses made) as [|vertexStatus [|fragmentStatus [|]]];
      try discriminate Hlen.
    exists vertexStatus, fragmentStatus. split; [reflexivity|exact Htext].
  - rewrite Hc in Hnone. discriminate Hnone.
  - discriminate H.
Qed.

Lemma create_reports_last_compile_failure_witness :
  let outcome := create ShaderSamples.rejectsBoth "shaders/vertex.glsl"
                   "shaders/fragment.glsl" Shader.new [] in
  GL.compileStatuses (snd outcome) = [0%Z; 0%Z] /\
  getErrorMessage (snd (fst outcome)) = "Fragment shader compilation failed: 0:1: syntax error".
Proof.
  intro outcome.
  assert (Hrun : outcome = ((false, snd (fst outcome)), [] ++ snd outcome))
    by (vm_compute; reflexivity).
  assert (Hmade : snd outcome <> []) by (vm_compute; discriminate).
  assert (Hnone : createdPrograms (snd outcome) = []) by (vm_compute; reflexivity).
  destruct (create_reports_last_compile_failure _ _ _ _ _ _ _ Hrun Hmade Hnone)
    as (vertexStatus & fragmentStatus & Hstatuses & Hmessage).
  split; [vm_compute; reflexivity|].
  rewrite Hmessage.
  assert (Hboth : [vertexStatus; fragmentStatus] = [0%Z; 0%Z])
    by (rewrite <- Hstatuses; vm_compute; reflexivity).
  injection Hboth as -> ->. vm_compute. reflexivity.
Defined.

(** X13.  [create] never deletes a program and never touches the cache of
    uniform locations: a program the object held before is neither
    released nor are the locations cached for it forgotten. *)
Theorem create_never_releases : forall w vertexPath fragmentPath self calls,
  let outcome := create w vertexPath fragmentPath self calls in
  exists made,
    snd outcome = calls ++ made /\
    deletedPrograms made = [] /\
    uniformLocationCache (snd (fst outcome)) = uniformLocationCache self.
Proof.
  intros w vertexPath fragmentPath self calls. cbv zeta.
  destruct (create_outcome w vertexPath fragmentPath self calls)
    as (ok & self' & made & Hrun & Hcache & Hprog & _).
  exists made. rewrite Hrun. repeat split; assumption.
Qed.

(** X14.  A uniform location is asked from the driver at most once per name:
    after a first lookup, every later lookup of that name, with whatever
    driver and log, returns the same location (also -1) and makes no
    call. *)
Theorem getUniformLocation_memoizes : forall w w' name self calls calls',
  let first := getUniformLocation w name self calls in
  getUniformLocation w' name (snd (fst first)) calls' =
    ((fst (fst first), snd (fst first)), calls').
Proof.
  intros w w' name self calls calls'. cbv zeta.
  unfold getUniformLocation at 2 3 4.
  destruct (base.lookup name (uniformLocationCache self)) as [location|] eqn:Hcache.
  - cbn [ret fst snd]. unfold getUniformLocation. rewrite Hcache. reflexivity.
  - cbn [bind ask ret fst snd set_cache uniformLocationCache].
    unfold getUniformLocation, set_cache. cbn [uniformLocationCache].
    rewrite fin_maps.lookup_insert_eq. reflexivity.
Qed.

(** X15.  The cache is keyed by name only and [create] keeps it: a location
    cached for an earlier program is still served, without a call, after
    [create] has put another program in the object. *)
Theorem uniform_cache_outlives_program :
  forall w name self location vertexPath fragmentPath calls calls',
    base.lookup name (uniformLocationCache self) = Some location ->
    let recreated := snd (fst (create w vertexPath fragmentPath self calls)) in
    getUniformLocation w name recreated calls' = ((location, recreated), calls').
Proof.
  intros w name self location vertexPath fragmentPath calls calls' Hcache. cbv zeta.
  destruct (create_outcome w vertexPath fragmentPath self calls)
    as (ok & self' & made & Hrun & Hkept & _).
  rewrite Hrun. cbn [fst snd]. unfold getUniformLocation.
  rewrite Hkept, Hcache. reflexivity.
Qed.

Lemma uniform_cache_outlives_program_witness :
  let held := snd (fst (getUniformLocation ShaderSamples.working "model" (mk 7 "" base.empty) [])) in
  let recreated := snd (fst (create ShaderSamples.working "shaders/vertex.glsl"
                               "shaders/fragment.glsl" held [])) in
  programID recreated <> 7%N /\
  getUniformLocation ShaderSamples.working "model" recreated [] = ((12%Z, recreated), []).
Proof.
  intros held recreated. split; [vm_compute; discriminate|].
  apply (uniform_cache_outlives_program ShaderSamples.working "model" held 12%Z).
  vm_compute. reflexivity.
Defined.

(** X16.  [cleanup] deletes the program exactly when the object holds one,
    leaves the object without program and with an empty cache, and a
    second [cleanup] makes no call. *)
Theorem cleanup_releases_once : forall self calls,
  let cleaned := cleanup self calls in
  snd cleaned = calls ++ (if (programID self =? 0)%N then [] else [DeleteProgram (programID self)]) /\
  isValid (fst cleaned) = false /\
  uniformLocationCache (fst cleaned) = base.empty /\
  getErrorMessage (fst cleaned) = getErrorMessage self /\
  cleanup (fst cleaned) (snd cleaned) = cleaned /\
  use (fst cleaned) (snd cleaned) = (tt, snd cleaned).
Proof.
  intros self calls. unfold cleanup, use, bind, tell, ret.
  destruct (programID self =? 0)%N; cbn; rewrite ?app_nil_r; repeat split.
Qed.

(** X17.  Move assignment hands the program over: destroying both objects
    afterwards deletes the target's old program and the moved program
    once each, and nothing is deleted for id 0. *)
Theorem moveAssign_then_destroy : forall self other residue calls,
  let moved := moveAssign self (Some other) residue calls in
  let target := fst (fst moved) in
  let source := match snd (fst moved) with Some source => source | None => other end in
  let destroyed := destroy source (snd (destroy target (snd moved))) in
  programID target = programID other /\
  uniformLocationCache target = uniformLocationCache other /\
  programID source = 0%N /\
  snd destroyed =
    calls ++ map DeleteProgram
               (filter (fun id => negb (id =? 0)%N) [programID self; programID other]).
Proof.
  intros self other residue calls.
  unfold moveAssign, destroy, cleanup, bind, tell, ret.
  destruct (programID self =? 0)%N eqn:Hself, (programID other =? 0)%N eqn:Hother;
    cbn; rewrite ?Hself, ?Hother; cbn; rewrite ?app_nil_r, <- ?app_assoc; repeat split.
Qed.

(** Move assignment of an object to itself does nothing. *)
Lemma moveAssign_self : forall self residue calls,
  moveAssign self None residue calls = ((self, None), calls).
Proof. reflexivity. Qed.

End ShaderFacts.
Module MainFacts.

Import Main.
Local Open Scope string_scope.
Local Open Scope list_scope.

Ltac run_main :=
  unfold main, parseCommandLine, validateSTLFile, initializeViewer, printUsage,
    bind, emit, query, ret;
  cbn [stlFilePath windowWidth windowHeight negb].

Ltac flatten_log := repeat rewrite <- app_assoc; cbn [app].

(** X18.  [validateSTLFile] accepts a file exactly when it exists and is not
    empty; the extension never changes the answer. *)
Theorem validateSTLFile_accepts_iff : forall w filePath out,
  fst (validateSTLFile w filePath out) = Returned true <->
  exists_ w filePath = Some true /\
  exists size, file_size w filePath = Some size /\ size <> 0%N.
Proof.
  intros w filePath out. unfold validateSTLFile, bind, emit, query, ret.
  destruct (exists_ w filePath) as [[|]|]; cbn [negb fst].
  - destruct (file_size w filePath) as [size|]; cbn [fst].
    + destruct (N.eqb_spec size 0) as [->|Hsize]; cbn [fst].
      * split; [discriminate|]. intros (_ & size & Hs & Hne). congruence.
      * split.
        -- intros _. split; [reflexivity|]. exists size. split; [reflexivity|exact Hsize].
        -- intros _. destruct (negb (extension w filePath =? STL_EXTENSION)); reflexivity.
    + split; [discriminate|]. intros (_ & size & Hs & _). discriminate Hs.
  - split; [discriminate|]. intros (H & _). discriminate H.
  - split; [discriminate|]. intros (H & _). discriminate H.
Qed.

Lemma validateSTLFile_accepts_iff_witness :
  fst (validateSTLFile MainSamples.disk "cube.obj" []) = Returned true.
Proof.
  apply (proj2 (validateSTLFile_accepts_iff MainSamples.disk "cube.obj" [])).
  split; [reflexivity|]. exists 684%N. split; [reflexivity|discriminate].
Defined.

(** X19.  A foreign extension only adds two warning lines. *)
Theorem validateSTLFile_extension_only_warns : forall w filePath out size,
  exists_ w filePath = Some true ->
  file_size w filePath = Some size ->
  size <> 0%N ->
  validateSTLFile w filePath out =
    (Returned true,
     out ++ (if String.eqb (extension w filePath) STL_EXTENSION then []
             else [Stderr ("Warning: File does not have .stl extension: " ++ filePath);
                   Stderr "Warning: Continuing anyway..."])).
Proof.
  intros w filePath out size Hfound Hsize Hne.
  unfold validateSTLFile, bind, emit, query, ret. rewrite Hfound, Hsize. cbn [negb].
  destruct (N.eqb_spec size 0) as [->|_]; [contradiction Hne; reflexivity|].
  destruct (extension w filePath =? STL_EXTENSION); cbn [negb].
  - rewrite app_nil_r. reflexivity.
  - flatten_log. reflexivity.
Qed.

Lemma validateSTLFile_extension_only_warns_witness :
  validateSTLFile MainSamples.disk "cube.obj" [] =
    (Returned true,
     [Stderr "Warning: File does not have .stl extension: cube.obj";
      Stderr "Warning: Continuing anyway..."]).
Proof.
  apply (validateSTLFile_extension_only_warns MainSamples.disk "cube.obj" [] 684%N).
  - reflexivity.
  - reflexivity.
  - discriminate.
Defined.

(** X20.  The program exits with EXIT_SUCCESS exactly when the command line
    names a file without asking for help, the file exists and is not
    empty, and the viewer both initialises and loads it. *)
Theorem main_succeeds_iff : forall w argv out,
  fst (main w argv out) = Returned EXIT_SUCCESS <->
  exists path size,
    commandLineParser w argv = VariablesMap false (Some path) /\
    exists_ w path = Some true /\
    file_size w path = Some size /\ size <> 0%N /\
    viewerInit w = true /\ viewerLoadSTL w path = true.
Proof.
  intros w argv out. run_main. unfold EXIT_SUCCESS, EXIT_FAILURE.
  destruct (commandLineParser w argv) as [what|[|] [path|]]; cbn [fst negb stlFilePath].
  1-3, 5: split; [discriminate|]; intros (path' & size & H & _); discriminate H.
  destruct (exists_ w path) as [[|]|] eqn:Hfound; cbn [negb fst].
  2-3: split; [discriminate|]; intros (path' & size & H & H' & _);
       injection H as <-; congruence.
  destruct (file_size w path) as [size|] eqn:Hsize; cbn [fst].
  2: split; [discriminate|]; intros (path' & size & H & _ & H' & _);
     injection H as <-; congruence.
  destruct (N.eqb_spec size 0) as [->|Hne]; cbn [fst negb].
  1: split; [discriminate|]; intros (path' & size & H & _ & H' & Hne & _);
     injection H as <-; congruence.
  destruct (negb (extension w path =? STL_EXTENSION));
    destruct (viewerInit w) eqn:Hinit; cbn [fst negb];
    destruct (viewerLoadSTL w path) eqn:Hload; cbn [fst negb].
  all: split;
    [first [discriminate | intros _; exists path, size; repeat split; assumption]
    |first [reflexivity
           |intros (path' & size' & H & _ & _ & _ & Hi & Hl); injection H as <-; congruence]].
Qed.

Lemma main_succeeds_iff_witness :
  fst (main MainSamples.disk ["viewer"; "cube.stl"] []) = Returned EXIT_SUCCESS.
Proof.
  apply (proj2 (main_succeeds_iff MainSamples.disk ["viewer"; "cube.stl"] [])).
  exists "cube.stl", 684%N. repeat split; discriminate.
Defined.

(** X21.  Asking for help ends the program with EXIT_FAILURE, also when a
    file is named on the same command line: the usage text goes to the
    standard output, nothing to the error stream, and the viewer is not
    touched. *)
Theorem help_exits_with_failure : forall w argv out stlFile,
  commandLineParser w argv = VariablesMap true stlFile ->
  let usage := snd (printUsage w (nth 0 argv "") []) in
  main w argv out = (Returned EXIT_FAILURE, out ++ usage) /\
  List.length usage = 7%nat /\ stderrLines usage = [] /\ viewerCalls usage = [].
Proof.
  intros w argv out stlFile Hparse. cbv zeta. run_main. rewrite Hparse.
  cbn [negb fst snd app]. flatten_log. repeat split.
Qed.

Lemma help_exits_with_failure_witness :
  fst (main MainSamples.disk ["viewer"; "--help"; "cube.stl"] []) = Returned EXIT_FAILURE /\
  stderrLines (snd (main MainSamples.disk ["viewer"; "--help"; "cube.stl"] [])) = [].
Proof.
  destruct (help_exits_with_failure MainSamples.disk ["viewer"; "--help"; "cube.stl"] []
              (Some "cube.stl") eq_refl) as (Hrun & _ & Herr & _).
  rewrite Hrun. cbn [fst snd app]. split; [reflexivity|exact Herr].
Defined.

(** X22.  The program ends by an uncaught exception, with no exit code of its
    own, exactly when a filesystem query on the named file throws: the
    existence test, or the size of something that exists (a directory,
    say).  Nothing has been printed about the file by then. *)
Theorem main_throws_iff : forall w argv out,
  fst (main w argv out) = Thrown <->
  exists path,
    commandLineParser w argv = VariablesMap false (Some path) /\
    (exists_ w path = None \/ (exists_ w path = Some true /\ file_size w path = None)).
Proof.
  intros w argv out. run_main.
  destruct (commandLineParser w argv) as [what|[|] [path|]]; cbn [fst negb stlFilePath].
  1-3, 5: split; [discriminate|]; intros (path' & H & _); discriminate H.
  destruct (exists_ w path) as [[|]|] eqn:Hfound; cbn [negb fst].
  - destruct (file_size w path) as [size|] eqn:Hsize; cbn [fst].
    + split.
      * destruct (size =? 0)%N; cbn [fst negb]; [discriminate|].
        destruct (negb (extension w path =? STL_EXTENSION));
          destruct (viewerInit w); cbn [fst negb];
          destruct (viewerLoadSTL w path); cbn [fst negb]; discriminate.
      * intros (path' & H & [H'|[_ H']]); injection H as <-; congruence.
    + split; [|reflexivity]. intros _. exists path. split; [reflexivity|].
      right. split; assumption.
  - split; [discriminate|]. intros (path' & H & [H'|[H' _]]); injection H as <-; congruence.
  - split; [|reflexivity]. intros _. exists path. split; [reflexivity|]. left. assumption.
Qed.

Lemma main_throws_iff_witness :
  fst (main MainSamples.disk ["viewer"; "models"] []) = Thrown.
Proof.
  apply (proj2 (main_throws_iff MainSamples.disk ["viewer"; "models"] [])).
  exists "models". split; [reflexivity|]. right. split; reflexivity.
Defined.

(** When it throws, the program has written nothing. *)
Theorem main_throws_silently : forall w argv out result,
  main w argv out = (Thrown, result) -> result = out.
Proof.
  intros w argv out result. run_main.
  destruct (commandLineParser w argv) as [what|[|] [path|]]; cbn [fst negb stlFilePath];
    try discriminate.
  destruct (exists_ w path) as [[|]|]; cbn [negb]; try discriminate.
  - destruct (file_size w path) as [size|].
    + destruct (size =? 0)%N; cbn [negb]; [discriminate|].
      destruct (negb (extension w path =? STL_EXTENSION));
        destruct (viewerInit w); cbn [negb];
        destruct (viewerLoadSTL w path); cbn [negb]; discriminate.
    + intros H. injection H as <-. reflexivity.
  - intros H. injection H as <-. reflexivity.
Qed.

Lemma main_throws_silently_witness :
  snd (main MainSamples.disk ["viewer"; "models"] []) = [].
Proof.
  apply (main_throws_silently MainSamples.disk ["viewer"; "models"] []).
  vm_compute. reflexivity.
Defined.

(** X23.  The calls into the viewer, on every run: none at all unless the
    named file exists and is not empty; otherwise initialisation, then
    loading only after a successful initialisation, then the main loop
    only after a successful load, and the viewer is destroyed last. *)
Theorem viewer_calls_in_order : forall w argv out,
  exists made,
    snd (main w argv out) = out ++ made /\
    (viewerCalls made = [] \/
     exists path size,
       commandLineParser w argv = VariablesMap false (Some path) /\
       exists_ w path = Some true /\ file_size w path = Some size /\ size <> 0%N /\
       viewerCalls made =
         ViewerInit ::
         (if viewerInit w
          then ViewerLoadSTL path :: (if viewerLoadSTL w path then [ViewerRun] else [])
          else []) ++ [ViewerDestroyed]).
Proof.
  intros w argv out. run_main.
  destruct (commandLineParser w argv) as [what|[|] [path|]] eqn:Hparse;
    cbn [fst snd negb stlFilePath].
  1-3, 5: eexists; split; [flatten_log; reflexivity|left; reflexivity].
  destruct (exists_ w path) as [[|]|] eqn:Hfound; cbn [negb fst snd].
  2: eexists; split; [flatten_log; reflexivity|left; reflexivity].
  2: exists []; split; [rewrite app_nil_r; reflexivity|left; reflexivity].
  destruct (file_size w path) as [size|] eqn:Hsize; cbn [fst snd].
  2: exists []; split; [rewrite app_nil_r; reflexivity|left; reflexivity].
  destruct (N.eqb_spec size 0) as [->|Hne]; cbn [fst snd negb].
  1: eexists; split; [flatten_log; reflexivity|left; reflexivity].
  destruct (negb (extension w path =? STL_EXTENSION));
    destruct (viewerInit w) eqn:Hinit; cbn [fst snd negb];
    destruct (viewerLoadSTL w path) eqn:Hload; cbn [fst snd negb].
  all: eexists; split; [flatten_log; reflexivity|].
  all: right; exists path, size; repeat split; try assumption.
  all: rewrite ?Hinit, ?Hload; reflexivity.
Qed.

End MainFacts.
(* ================================================================== *)
(** * Properties of [STLViewer::loadSTL] *)
(* ================================================================== *)

Module ViewerFacts.

Import GL.
Local Open Scope list_scope.

Lemma bufferCalls_app : forall a b, bufferCalls (a ++ b) = bufferCalls a ++ bufferCalls b.
Proof. intros a b. apply filter_app. Qed.

Lemma uploads_bufferCalls : forall calls, uploads calls = uploads (bufferCalls calls).
Proof.
  induction calls as [|c calls IH]; [reflexivity|].
  destruct c; cbn; first [exact IH | f_equal; exact IH].
Qed.

Lemma generatedArrays_bufferCalls : forall calls,
  generatedArrays calls = generatedArrays (bufferCalls calls).
Proof.
  induction calls as [|c calls IH]; [reflexivity|].
  destruct c; cbn; first [exact IH | f_equal; exact IH].
Qed.

Lemma generatedBuffers_bufferCalls : forall calls,
  generatedBuffers calls = generatedBuffers (bufferCalls calls).
Proof.
  induction calls as [|c calls IH]; [reflexivity|].
  destruct c; cbn; first [exact IH | f_equal; exact IH].
Qed.

Lemma convertSTLToVertices_length : forall core,
  List.length (STLViewer.convertSTLToVertices core) =
    (27 * List.length (triangles (STLViewer.mesh core)))%nat.
Proof.
  intros core. rewrite BufferFacts.convertSTLToVertices_flat.
  apply BufferFacts.flat_map_chunks_length. intros triangle. reflexivity.
Qed.

End ViewerFacts.

Section LoadSTL.

Import GL Viewer ViewerFacts.
Local Open Scope string_scope.
Local Open Scope list_scope.

Variable ReadFile : string -> Assimp.ReadResult.
Variable w : GL.world.

Lemma createOpenGLBuffers_run : forall vertices calls errors,
  let VAO := genVertexArray w calls in
  let VBO := genBuffer w (calls ++ [GenVertexArray VAO]) in
  createOpenGLBuffers w vertices calls errors =
    ((VAO, VBO), calls ++ bufferSetup VAO VBO vertices, errors).
Proof.
  intros vertices calls errors. cbv zeta.
  unfold createOpenGLBuffers, setupVertexAttributes, Viewer.bind, gl, GL.ask, GL.tell, Viewer.ret.
  cbn [fst snd]. repeat rewrite <- app_assoc. reflexivity.
Qed.

(** One run of [loadSTL], step by step. *)
Lemma loadSTL_run : forall filename self calls errors,
  let loaded := ModelLoader.loadFile ReadFile filename (mesh self) (ModelLoader.mk "") in
  let self1 := set_mesh self (snd (fst loaded)) in
  let created := Shader.create w VERTEX_SHADER_PATH FRAGMENT_SHADER_PATH (shader self1) calls in
  let self2 := set_shader self1 (snd (fst created)) in
  let calls1 := snd (Shader.use (shader self2) (snd created)) in
  let axesVertices := STLViewer.createAxesVertices (core self2) in
  let modelVertices := STLViewer.convertSTLToVertices (core self2) in
  let a := genVertexArray w calls1 in
  let b := genBuffer w (calls1 ++ [GenVertexArray a]) in
  let calls2 := calls1 ++ bufferSetup a b axesVertices in
  let a' := genVertexArray w calls2 in
  let b' := genBuffer w (calls2 ++ [GenVertexArray a']) in
  loadSTL ReadFile w filename self calls errors =
    if negb (fst (fst loaded)) then
      ((false, self1), calls,
       errors ++ [("[Error in loadSTL] Failed to load 3D model file: " ++
                  ModelLoader.getErrorMessage (snd loaded))%string])
    else if negb (fst (fst created)) then
      ((false, self2), snd created,
       errors ++ [("[Error in setupShaders] Failed to create shader: " ++
                  Shader.getErrorMessage (snd (fst created)))%string])
    else
      ((true, setupCamera (set_model (set_axes self2 a b) a' b')),
       calls2 ++ bufferSetup a' b' modelVertices, errors).
Proof.
  intros filename self calls errors. cbv zeta. unfold loadSTL.
  destruct (ModelLoader.loadFile ReadFile filename (mesh self) (ModelLoader.mk ""))
    as [[loadedOk mesh'] loader']. cbn [fst snd].
  destruct loadedOk; cbn [negb]; [|reflexivity].
  unfold setupShaders, Viewer.bind at 1 2. unfold gl at 1.
  destruct (Shader.create w VERTEX_SHADER_PATH FRAGMENT_SHADER_PATH
              (shader (set_mesh self mesh')) calls) as [[createdOk shader'] callsS].
  cbn [fst snd].
  destruct createdOk; cbn [negb]; [|reflexivity].
  unfold Viewer.bind, gl, Viewer.ret.
  destruct (Shader.use (shader (set_shader (set_mesh self mesh') shader')) callsS)
    as [[] calls1]. cbn [fst snd negb].
  unfold setupAxesBuffers, createAxesOpenGLBuffers, Viewer.bind, Viewer.ret.
  rewrite createOpenGLBuffers_run. cbv zeta. cbn [fst snd negb].
  unfold setupModelBuffers, createModelBuffers, Viewer.bind, Viewer.ret.
  rewrite createOpenGLBuffers_run. cbv zeta. cbn [fst snd negb].
  reflexivity.
Qed.

(** X24.  [loadSTL] succeeds exactly when the model loads and the shader
    program is created: the buffer set-up is never checked, and can
    therefore not make it fail. *)
Theorem loadSTL_succeeds_iff : forall filename self calls errors,
  fst (fst (fst (loadSTL ReadFile w filename self calls errors))) = true <->
  fst (fst (ModelLoader.loadFile ReadFile filename (mesh self) (ModelLoader.mk ""))) = true /\
  fst (fst (Shader.create w VERTEX_SHADER_PATH FRAGMENT_SHADER_PATH (shader self) calls)) = true.
Proof.
  intros filename self calls errors. rewrite loadSTL_run. cbv zeta.
  change (shader (set_mesh self _)) with (shader self).
  destruct (fst (fst (ModelLoader.loadFile ReadFile filename (mesh self) (ModelLoader.mk ""))));
    cbn [negb fst].
  - destruct (fst (fst (Shader.create w VERTEX_SHADER_PATH FRAGMENT_SHADER_PATH
                          (shader self) calls))); cbn [negb fst].
    + split; [intros _; split; reflexivity | reflexivity].
    + split; [discriminate | intros [_ H]; discriminate H].
  - split; [discriminate | intros [H _]; discriminate H].
Qed.

(** X25.  When the model does not load, [loadSTL] makes no OpenGL call and
    writes one line naming a reason, which is never empty.  The viewer's
    mesh is whatever the loader left in it; nothing else changes. *)
Theorem loadSTL_model_failure : forall filename self calls errors,
  let loaded := ModelLoader.loadFile ReadFile filename (mesh self) (ModelLoader.mk "") in
  fst (fst loaded) = false ->
  loadSTL ReadFile w filename self calls errors =
    ((false, set_mesh self (snd (fst loaded))), calls,
     errors ++ [("[Error in loadSTL] Failed to load 3D model file: " ++
                ModelLoader.getErrorMessage (snd loaded))%string]) /\
  ModelLoader.getErrorMessage (snd loaded) <> "".
Proof.
  intros filename self calls errors loaded Hfail. subst loaded.
  rewrite loadSTL_run. cbv zeta. rewrite Hfail. cbn [negb].
  split; [reflexivity|].
  apply loadFile_failure_message. exact Hfail.
Qed.

(** X26.  When the model loads but the shader program cannot be created,
    [loadSTL] fails with the mesh already replaced by the loaded one,
    and without having set up any buffer. *)
Theorem loadSTL_shader_failure : forall filename self calls errors,
  let loaded := ModelLoader.loadFile ReadFile filename (mesh self) (ModelLoader.mk "") in
  let created := Shader.create w VERTEX_SHADER_PATH FRAGMENT_SHADER_PATH (shader self) calls in
  fst (fst loaded) = true ->
  fst (fst created) = false ->
  exists made,
    loadSTL ReadFile w filename self calls errors =
      ((false, set_shader (set_mesh self (snd (fst loaded))) (snd (fst created))),
       calls ++ made,
       errors ++ [("[Error in setupShaders] Failed to create shader: " ++
                  Shader.getErrorMessage (snd (fst created)))%string]) /\
    bufferCalls made = [].
Proof.
  intros filename self calls errors loaded created Hloaded Hfail. subst loaded created.
  rewrite loadSTL_run. cbv zeta.
  change (shader (set_mesh self _)) with (shader self).
  rewrite Hloaded, Hfail. cbn [negb].
  destruct (ShaderFacts.create_outcome w VERTEX_SHADER_PATH FRAGMENT_SHADER_PATH
              (shader self) calls) as (ok & shader' & made & Hrun & _ & _ & Hbuf & _).
  exists made. rewrite Hrun. cbn [fst snd]. split; [reflexivity|exact Hbuf].
Qed.

(** X27.  A successful [loadSTL]: nothing is written to the error stream; the
    mesh is the loaded one; two vertex arrays and two buffers are
    generated and kept, axes first; the axes buffer receives the 54
    floats of the gizmo and the model buffer 27 floats (108 bytes) per
    triangle of the mesh; no program and no shader program is deleted. *)
Theorem loadSTL_uploads_mesh : forall filename self calls errors self' calls' errors',
  loadSTL ReadFile w filename self calls errors = ((true, self'), calls', errors') ->
  errors' = errors /\
  mesh self' = snd (fst (ModelLoader.loadFile ReadFile filename (mesh self) (ModelLoader.mk ""))) /\
  exists made,
    calls' = calls ++ made /\
    uploads made =
      [ (216%Z, STLViewer.createAxesVertices (core self'));
        ((108 * Z.of_nat (List.length (triangles (mesh self'))))%Z,
         STLViewer.convertSTLToVertices (core self')) ] /\
    List.length (STLViewer.convertSTLToVertices (core self')) =
      (27 * List.length (triangles (mesh self')))%nat /\
    generatedArrays made = [axesVAO self'; modelVAO self'] /\
    generatedBuffers made = [axesVBO self'; modelVBO self'] /\
    createdPrograms made = [Shader.programID (shader self')] /\
    deletedPrograms made = [].
Proof.
  intros filename self calls errors self' calls' errors'.
  rewrite loadSTL_run. cbv zeta.
  change (shader (set_mesh self _)) with (shader self).
  destruct (fst (fst (ModelLoader.loadFile ReadFile filename (mesh self) (ModelLoader.mk ""))));
    cbn [negb]; [|discriminate].
  destruct (ShaderFacts.create_outcome w VERTEX_SHADER_PATH FRAGMENT_SHADER_PATH
              (shader self) calls) as (ok & shader' & made & Hrun & _ & Hdel & Hbuf & Hcases).
  rewrite Hrun. cbn [fst snd].
  destruct ok; cbn [negb]; [|discriminate].
  destruct Hcases as [(H & _) | [(H & _) | [(H & _) | (_ & Hprog & _)]]]; try discriminate H.
  intros H. injection H as <- <- <-.
  split; [reflexivity|]. split; [reflexivity|].
  set (loadedMesh := snd (fst (ModelLoader.loadFile ReadFile filename (mesh self)
                                 (ModelLoader.mk "")))) in *.
  set (self2 := set_shader (set_mesh self loadedMesh) shader').
  assert (Huse : exists used, snd (Shader.use shader' (calls ++ made)) =
                              (calls ++ made) ++ used /\
                              bufferCalls used = [] /\ createdPrograms used = [] /\
                              deletedPrograms used = []).
  { unfold Shader.use. destruct (negb (Shader.programID shader' =? 0)%N).
    - eexists. split; [reflexivity|]. repeat split.
    - exists []. rewrite app_nil_r. repeat split. }
  destruct Huse as (used & -> & Hubuf & Huprog & Hudel).
  repeat rewrite <- app_assoc.
  eexists. split; [reflexivity|].
  rewrite uploads_bufferCalls, generatedArrays_bufferCalls, generatedBuffers_bufferCalls.
  rewrite !bufferCalls_app, Hbuf, Hubuf.
  unfold createdPrograms, deletedPrograms in *. rewrite !flat_map_app.
  rewrite Hprog, Hdel, Huprog, Hudel.
  cbn [app]. split; [|split; [|split; [|split; [|split]]]].
  - cbn. rewrite convertSTLToVertices_length. f_equal. f_equal. f_equal.
    cbn [core STLViewer.mesh mesh setupCamera set_model set_axes self2 set_shader set_mesh].
    lia.
  - apply convertSTLToVertices_length.
  - reflexivity.
  - reflexivity.
  - reflexivity.
  - reflexivity.
Qed.

(** X28.  [loadSTL] does not clear the mesh: a successful call appends the
    new file's triangles to those the viewer already held, and the model
    buffer it uploads holds all of them. *)
Theorem loadSTL_accumulates : forall filename self calls errors self' calls' errors',
  loadSTL ReadFile w filename self calls errors = ((true, self'), calls', errors') ->
  exists scene,
    ReadFile filename = Assimp.Scene scene /\
    triangles (mesh self') =
      triangles (mesh self) ++ fst (LoaderSpec.sceneTriangles (Assimp.mMeshes scene)) /\
    List.length (STLViewer.convertSTLToVertices (core self')) =
      (27 * (List.length (triangles (mesh self)) +
             List.length (FaceSpec.triangleFaces (Assimp.mMeshes scene))))%nat.
Proof.
  intros filename self calls errors self' calls' errors'.
  rewrite loadSTL_run. cbv zeta.
  destruct (ModelLoader.loadFile ReadFile filename (mesh self) (ModelLoader.mk ""))
    as [[loadedOk mesh'] loader'] eqn:Hload. cbn [fst snd].
  destruct loadedOk; cbn [negb]; [|discriminate].
  destruct (fst (fst (Shader.create w VERTEX_SHADER_PATH FRAGMENT_SHADER_PATH
                        (shader (set_mesh self mesh')) calls))); cbn [negb]; [|discriminate].
  intros H. injection H as <- _ _.
  destruct (loadFile_success_triangles _ _ _ _ _ _ Hload)
    as (scene & Hread & _ & Hok & _ & Htri).
  exists scene. split; [exact Hread|].
  rewrite convertSTLToVertices_length.
  cbn [core STLViewer.mesh mesh setupCamera set_model set_axes set_shader set_mesh].
  split; [exact Htri|].
  rewrite Htri, length_app, (sceneTriangles_count _ Hok). reflexivity.
Qed.

End LoadSTL.

Lemma loadSTL_succeeds_iff_witness :
  fst (fst (fst (Viewer.loadSTL (Samples.reads [Samples.oneTriangle]) ShaderSamples.working
                   "model.stl" ViewerSamples.idle [] []))) = true.
Proof.
  apply (proj2 (loadSTL_succeeds_iff (Samples.reads [Samples.oneTriangle])
                  ShaderSamples.working "model.stl"%string ViewerSamples.idle [] [])).
  split; vm_compute; reflexivity.
Defined.

Lemma loadSTL_model_failure_witness :
  Viewer.loadSTL Samples.readsByName ShaderSamples.working "broken.stl" ViewerSamples.idle [] [] =
    ((false, ViewerSamples.idle), [],
     ["[Error in loadSTL] Failed to load 3D model file: Failed to load 3D model: unreadable file"%string]).
Proof.
  destruct (loadSTL_model_failure Samples.readsByName ShaderSamples.working
              "broken.stl"%string ViewerSamples.idle [] [] eq_refl) as [Hrun _].
  exact Hrun.
Defined.

(** An empty fragment shader file: the line on the error stream ends
    after the colon. *)
Lemma loadSTL_shader_failure_witness :
  let outcome := Viewer.loadSTL (Samples.reads [Samples.oneTriangle]) ViewerSamples.emptyFragment
                   "model.stl" ViewerSamples.idle [] [] in
  fst (fst (fst outcome)) = false /\
  snd outcome = ["[Error in setupShaders] Failed to create shader: "%string] /\
  List.length (triangles (Viewer.mesh (snd (fst (fst outcome))))) = 1%nat.
Proof.
  intros outcome.
  destruct (loadSTL_shader_failure (Samples.reads [Samples.oneTriangle])
              ViewerSamples.emptyFragment "model.stl"%string ViewerSamples.idle [] []
              eq_refl eq_refl) as (made & Hrun & _).
  subst outcome. rewrite Hrun. cbn [fst snd].
  split; [reflexivity|]. split; vm_compute; reflexivity.
Defined.

Lemma loadSTL_uploads_mesh_witness :
  let outcome := Viewer.loadSTL (Samples.reads [Samples.oneTriangle]) ShaderSamples.working
                   "model.stl" ViewerSamples.idle [] [] in
  map fst (GL.uploads (snd (fst outcome))) = [216%Z; 108%Z] /\
  snd outcome = [].
Proof.
  intros outcome.
  assert (Hrun : outcome = ((true, snd (fst (fst outcome))), snd (fst outcome), snd outcome))
    by (vm_compute; reflexivity).
  destruct (loadSTL_uploads_mesh (Samples.reads [Samples.oneTriangle]) ShaderSamples.working
              "model.stl"%string ViewerSamples.idle [] [] _ _ _ Hrun)
    as (Herr & _ & made & Hmade & Hup & _).
  split; [|exact Herr].
  cbn [app] in Hmade. rewrite Hmade, Hup. vm_compute. reflexivity.
Defined.

(** Loading the same one-triangle file twice. *)
Lemma loadSTL_accumulates_witness :
  let once := snd (fst (fst (Viewer.loadSTL (Samples.reads [Samples.oneTriangle])
                               ShaderSamples.working "model.stl" ViewerSamples.idle [] []))) in
  let twice := Viewer.loadSTL (Samples.reads [Samples.oneTriangle]) ShaderSamples.working
                 "model.stl" once [] [] in
  List.length (STLViewer.convertSTLToVertices (Viewer.core (snd (fst (fst twice))))) = 54%nat.
Proof.
  intros once twice.
  assert (Hrun : twice = ((true, snd (fst (fst twice))), snd (fst twice), snd twice))
    by (vm_compute; reflexivity).
  destruct (loadSTL_accumulates (Samples.reads [Samples.oneTriangle]) ShaderSamples.working
              "model.stl"%string once [] [] _ _ _ Hrun) as (scene & Hread & _ & Hlen).
  injection Hread as <-. rewrite Hlen. vm_compute. reflexivity.
Defined.
